(** * python-task-scheduler: supervision, watchdog and scheduling core

    A shallow embedding of [watchdog.py], [scheduler_core.py],
    [scheduler.py], [scheduler_ctl.py] and the validation of
    [validate_jobs.py].

    Conventions of the embedding.
    - A timestamp ([datetime]) is a [Z] counting microseconds; a
      [timedelta] is a [Z] as well.
    - The operating system is explicit state: the PID file, the restart
      history file and the process table.  What the rest of the machine does
      while the program sleeps, what a spawned child does and what the wall
      clock reads are given by an [Env], over which every theorem
      quantifies.
    - Every observable action of the program is appended to a trace of
      [Event]s.  Log lines are not modelled.
    - File writes and unlinks succeed, and the ISO-8601 text of a timestamp
      reads back as the same timestamp.
    - Python exceptions are values of [Exn]; a computation has type
      [ST S A], returning either an exception or a value next to the new
      state, and [try_except] mirrors the handlers of the source.  Only the
      [Exception] hierarchy is modelled.  [Blocked] is not an exception: it
      marks a call that never returns, and only [subprocess.run] gives it.
    - The history file holds what the watchdog itself writes, a list of
      naive timestamps and a naive one or [null] under [backoff_until], or
      text that [load_restart_history] fails on.  A file the loader accepts
      but the watchdog cannot have written (a timestamp with a UTC offset,
      a missing [backoff_until] key) is outside the model.
    - A PID is looked up in the process table as it is.  [psutil.Process]
      raises [ValueError] for a negative PID, which the process table does
      not show; the statements about [scheduler_ctl.py] and about the
      outcome of [stop_scheduler] assume a PID file that holds no negative
      number. *)

From Stdlib Require Import ZArith List String Ascii Bool Lia Sorted DecimalString.
From stdpp Require Import base gmap strings sorting.
Import ListNotations.

Local Open Scope string_scope.
Local Open Scope list_scope.
Local Open Scope Z_scope.

(** ** Operating-system state *)

(** Text of [scheduler.pid]: either something [int()] accepts or not. *)
Inductive PidText :=
| PidInt (pid : Z)
| PidGarbage.

(** [RestartHistory]: the dict [{'restarts': [...], 'backoff_until': ...}]. *)
Record RestartHistory := mkHistory {
  restarts : list Z;
  backoff_until : option Z
}.

(** Text of [watchdog_restarts.json]: a history as the watchdog writes it,
    with naive timestamps and both keys, or something the loader chokes
    on.  A file that loads but that the watchdog cannot have written is
    not represented. *)
Inductive HistText :=
| HistJson (h : RestartHistory)
| HistGarbage.

(** An entry of the process table as [psutil] sees it: a process whose
    command line can be read, or one whose inspection is refused. *)
Inductive ProcEntry :=
| Inspectable (cmdline : list string)
| Protected.

Record OS := mkOS {
  pid_file : option PidText;
  history_file : option HistText;
  procs : gmap Z ProcEntry
}.

Inductive Event :=
| EvReadPidFile
| EvProbe (pid : Z)
| EvUnlinkPidFile
| EvSaveHistory (h : RestartHistory)
| EvSpawn (argv : list string) (detached : bool)
| EvSleep (ms : Z)
| EvTerminate (pid : Z)
| EvKill (pid : Z)
| EvChildStart (command : string) (cwd : option string) (timeout : Z)
| EvChildExit (command : string)
| EvShellKilled (command : string)
| EvChildKilled (command : string).

Record World := mkWorld {
  os : OS;
  reads : nat;
  epoch : nat;
  trace : list Event
}.

(** How a shell command behaves when it is run. *)
Inductive CmdBehaviour :=
| Exits (code : Z) (out err : string) (duration : Z)
| NeverExits
| CannotLaunch (not_found : bool) (msg : string).

(** How a process reacts to a termination request: it exits within the
    wait that follows, it does not, it has gone before the request is made,
    or the operating system refuses the request. *)
Inductive Reaction :=
| ExitsInTime
| Hangs
| AlreadyGone
| Refused.

Record Env := mkEnv {
  HAS_PSUTIL : bool;
  win32 : bool;
  BASE_DIR : string;
  PYTHON_EXE : string;
  pythonw : option string;
  JOB_TIMEOUT : Z;
  clock : nat -> Z;
  during_sleep : nat -> OS -> OS;
  popen : nat -> option Z;
  shell : string -> CmdBehaviour;
  dies_with_shell : string -> bool;
  on_terminate : Z -> Reaction;
  on_kill : Z -> Reaction
}.

(** ** Python exceptions and the state-and-exception monad *)

Inductive Exn :=
| KeyError (key : string)
| AttributeError (name : string)
| ScheduleValueError (msg : string)
| IntervalError (msg : string)
| ValueError (msg : string)
| TimeoutExpired
| CalledProcessError (returncode : Z) (err : string)
| FileNotFoundError
| OSError (msg : string)
| OverflowError (msg : string)
| NoSuchProcess
| AccessDenied
| Blocked.

Definition ST (S A : Type) : Type := S -> (Exn + A) * S.

Definition ret {S A} (a : A) : ST S A := fun s => (inr a, s).

Definition raise {S A} (e : Exn) : ST S A := fun s => (inl e, s).

Definition bind {S A B} (c : ST S A) (k : A -> ST S B) : ST S B :=
  fun s => match c s with
           | (inr a, s') => k a s'
           | (inl e, s') => (inl e, s')
           end.

(** [try: c except ...: h]; an exception the handlers decline ([None])
    propagates. *)
Definition try_except {S A} (c : ST S A) (h : Exn -> option (ST S A))
  : ST S A :=
  fun s => match c s with
           | (inr a, s') => (inr a, s')
           | (inl e, s') => match h e with
                            | Some k => k s'
                            | None => (inl e, s')
                            end
           end.

Declare Scope py_scope.
Delimit Scope py_scope with py.
Notation "x <- c ;; k" := (bind c (fun x => k))
  (at level 100, c at next level, right associativity) : py_scope.
Notation "c ;;; k" := (bind c (fun _ => k))
  (at level 100, right associativity) : py_scope.

(** Computations of the watchdog and of the supervisor act on the [World]. *)
Abbreviation M := (ST World).

Definition emit (e : Event) : M unit :=
  fun w => (inr tt, mkWorld (os w) (reads w) (epoch w) (trace w ++ [e])).

Definition get_os : M OS := fun w => (inr (os w), w).

Definition put_os (o : OS) : M unit :=
  fun w => (inr tt, mkWorld o (reads w) (epoch w) (trace w)).

(** ** Strings *)

Definition lower_ascii (c : ascii) : ascii :=
  let n := nat_of_ascii c in
  if (Nat.leb 65 n && Nat.leb n 90)%bool then ascii_of_nat (n + 32) else c.

Fixpoint lower (s : string) : string :=
  match s with
  | EmptyString => EmptyString
  | String c s' => String (lower_ascii c) (lower s')
  end.

(** [needle in hay]. *)
Fixpoint contains (needle hay : string) : bool :=
  if String.prefix needle hay then true
  else match hay with
       | EmptyString => false
       | String _ hay' => contains needle hay'
       end.

Definition join (sep : string) (l : list string) : string :=
  String.concat sep l.

Definition startswith (p s : string) : bool := String.prefix p s.

(** [timedelta(minutes=n)]. *)
Definition minutes (n : Z) : Z := n * 60000000.

Local Open Scope py_scope.

(** ** Primitives shared by the watchdog and the supervisor *)

Section Primitives.
Variable env : Env.

(** [datetime.now()]: the next reading of the wall clock. *)
Definition datetime_now : M Z :=
  fun w => (inr (clock env (reads w)),
            mkWorld (os w) (S (reads w)) (epoch w) (trace w)).

(** [time.sleep]: the rest of the machine moves on. *)
Definition sleep (ms : Z) : M unit :=
  fun w => (inr tt,
            mkWorld (during_sleep env (epoch w) (os w)) (reads w)
                    (S (epoch w)) (trace w ++ [EvSleep ms])).

(** [BASE_DIR / "scheduler.py"]. *)
Definition SCHEDULER_SCRIPT : string := (BASE_DIR env ++ "/scheduler.py")%string.

(** [' '.join(psutil.Process(pid).cmdline())], with psutil's two
    documented failures.  The [ValueError] that [psutil.Process] raises
    for a negative PID is not represented. *)
Definition psutil_cmdline (pid : Z) : M (list string) :=
  emit (EvProbe pid) ;;;
  o <- get_os ;;
  match procs o !! pid with
  | None => raise NoSuchProcess
  | Some Protected => raise AccessDenied
  | Some (Inspectable cmdline) => ret cmdline
  end.

(** [PID_FILE.unlink()]. *)
Definition unlink_pid_file : M unit :=
  o <- get_os ;;
  match pid_file o with
  | None => raise FileNotFoundError
  | Some _ =>
      put_os (mkOS None (history_file o) (procs o)) ;;;
      emit EvUnlinkPidFile
  end.

(** [subprocess.Popen([exe, SCHEDULER_SCRIPT], ...)] in a session or
    process group of its own. *)
Definition Popen_detached (exe : string) : M Z :=
  fun w =>
    match popen env (epoch w) with
    | None => (inl (OSError "spawn failed"), w)
    | Some child =>
        let argv := [exe; SCHEDULER_SCRIPT] in
        let o := os w in
        (inr child,
         mkWorld (mkOS (pid_file o) (history_file o)
                       (<[child := Inspectable argv]> (procs o)))
                 (reads w) (epoch w) (trace w ++ [EvSpawn argv true]))
    end.
End Primitives.

(** ** watchdog.py *)

Module Watchdog.
Section WithEnv.
Variable env : Env.

Definition MAX_RESTARTS_IN_WINDOW : nat := 5.
Definition RESTART_WINDOW_MINUTES : Z := 15.
Definition BACKOFF_MINUTES : Z := 30.

Definition is_process_running (pid : Z) : M bool :=
try_except
  (cmdline <- psutil_cmdline pid ;;
   if contains "scheduler.py" (lower (join " " cmdline))
   then ret true
   else ret false)
  (fun e => match e with
            | NoSuchProcess => Some (ret false)
            | AccessDenied => Some (ret true)
            | _ => Some (ret false)
            end).

Definition get_scheduler_pid : M (option Z) :=
try_except
  (emit EvReadPidFile ;;;
   o <- get_os ;;
   match pid_file o with
   | Some (PidInt pid) => ret (Some pid)
   | Some PidGarbage => raise (ValueError "invalid literal for int()")
   | None => ret None
   end)
  (fun _ => Some (ret None)).

Definition cleanup_stale_pid_file : M unit :=
try_except
  (o <- get_os ;;
   match pid_file o with
   | Some _ => unlink_pid_file
   | None => ret tt
   end)
  (fun _ => Some (ret tt)).

Definition empty_history : RestartHistory := mkHistory [] None.

Definition load_restart_history : M RestartHistory :=
try_except
  (o <- get_os ;;
   match history_file o with
   | Some (HistJson h) => ret h
   | Some HistGarbage => raise (ValueError "JSONDecodeError")
   | None => ret empty_history
   end)
  (fun _ => Some (ret empty_history)).

Definition save_restart_history (history : RestartHistory) : M unit :=
try_except
  (o <- get_os ;;
   put_os (mkOS (pid_file o) (Some (HistJson history)) (procs o)) ;;;
   emit (EvSaveHistory history))
  (fun _ => Some (ret tt)).

(** [[dt for dt in restarts if dt > cutoff]]. *)
Definition prune (cutoff : Z) (rs : list Z) : list Z :=
List.filter (fun dt => cutoff <? dt) rs.

(** The dict is updated in place; the updated dict is returned next to
  the function's own result. *)
Definition record_restart (history : RestartHistory)
: M (bool * RestartHistory) :=
now <- datetime_now env ;;
let appended := restarts history ++ [now] in
let cutoff := now - minutes RESTART_WINDOW_MINUTES in
let kept := prune cutoff appended in
if (MAX_RESTARTS_IN_WINDOW <=? length kept)%nat then
  let history' := mkHistory kept (Some (now + minutes BACKOFF_MINUTES)) in
  save_restart_history history' ;;;
  ret (false, history')
else
  let history' := mkHistory kept (backoff_until history) in
  save_restart_history history' ;;;
  ret (true, history').

Definition is_in_backoff (history : RestartHistory)
: M (bool * RestartHistory) :=
match backoff_until history with
| Some until =>
    now <- datetime_now env ;;
    if now <? until then ret (true, history)
    else
      let history' := mkHistory [] None in
      save_restart_history history' ;;;
      ret (false, history')
| None => ret (false, history)
end.

(** [subprocess.STARTUPINFO()] exists on Windows only. *)
Definition STARTUPINFO : M unit :=
if win32 env then ret tt else raise (AttributeError "STARTUPINFO").

Definition start_scheduler : M bool :=
try_except
  (history <- load_restart_history ;;
   r <- is_in_backoff history ;;
   let '(backing_off, history) := r in
   if backing_off : bool then ret false
   else
     r <- record_restart history ;;
     let '(go, history) := r in
     if negb go then ret false
     else
       STARTUPINFO ;;;
       _ <- Popen_detached env (PYTHON_EXE env) ;;
       sleep env 2000 ;;;
       o <- get_os ;;
       match pid_file o with
       | Some _ => ret true
       | None => ret true
       end)
  (fun _ => Some (ret false)).

(** Lines 262-277: the liveness probe and the restart that follows it. *)
Definition probe_and_restart : M bool :=
pid <- get_scheduler_pid ;;
match pid with
| None =>
    cleanup_stale_pid_file ;;;
    start_scheduler
| Some pid =>
    alive <- is_process_running pid ;;
    if alive : bool then ret true
    else
      cleanup_stale_pid_file ;;;
      start_scheduler
end.

Definition check_and_restart : M bool :=
history <- load_restart_history ;;
r <- is_in_backoff history ;;
let '(backing_off, history) := r in
if backing_off : bool then ret false
else probe_and_restart.

(** Lines 281-292: [watchdog.py reset] removes the history file and exits
    with 0. *)
Definition reset : M Z :=
try_except
  (o <- get_os ;;
   match history_file o with
   | Some _ =>
       put_os (mkOS (pid_file o) None (procs o)) ;;;
       ret 0
   | None => ret 0
   end)
  (fun _ => Some (ret 1)).

(** Lines 294-299: one check, turned into an exit code. *)
Definition run_check : M Z :=
try_except
  (success <- check_and_restart ;;
   ret (if success : bool then 0 else 1))
  (fun _ => Some (ret 1)).

(** The [__main__] block, given [sys.argv]. *)
Definition main (argv : list string) : M Z :=
match argv with
| _ :: arg :: _ => if String.eqb arg "reset" then reset else run_check
| _ => run_check
end.
End WithEnv.
End Watchdog.

(** ** scheduler_core.py *)

(** [str(n)] for an int. *)
Definition str_int (n : Z) : string := NilZero.string_of_int (Z.to_int n).

Definition str_exn (e : Exn) : string :=
  match e with
  | KeyError k => k
  | AttributeError n => n
  | ScheduleValueError m | IntervalError m | ValueError m | OSError m
  | OverflowError m => m
  | TimeoutExpired => "timeout"
  | CalledProcessError c _ => "Command returned non-zero exit status " ++ str_int c
  | FileNotFoundError => "No such file or directory"
  | NoSuchProcess => "process no longer exists"
  | AccessDenied => "access denied"
  | Blocked => ""
  end%string.

(** The dict [{'success': .., 'stdout': .., 'stderr': .., 'error': ..}]. *)
Record ExecutionResult := mkResult {
  success : bool;
  stdout : string;
  stderr : string;
  error : option string
}.

Module Core.
Section WithEnv.
Variable env : Env.

Definition dquote : string := String "034"%char EmptyString.

(** What [subprocess.run] does on expiry of the timeout.  Its child is the
  shell, and the shell is what it kills and reaps.  The command goes with
  the shell only where it is the shell's own process; otherwise it runs
  on.  On Windows [subprocess.run] then reads the pipes to their end
  before it raises [TimeoutExpired]; a command that runs on holds them for
  as long as it runs, so the call returns when that command has ended
  ([ends]), and not at all if it never ends. *)
Definition on_expiry (cmd : string) (ends : bool) : M (string * string) :=
emit (EvShellKilled cmd) ;;;
if dies_with_shell env cmd then
  emit (EvChildKilled cmd) ;;;
  raise TimeoutExpired
else if win32 env then
  if ends then
    emit (EvChildExit cmd) ;;;
    raise TimeoutExpired
  else raise Blocked
else raise TimeoutExpired.

(** [subprocess.run(cmd, shell=True, check=True, capture_output=True,
  text=True, timeout=timeout, cwd=cwd)]. *)
Definition subprocess_run (cmd : string) (cwd : option string) (timeout : Z)
: M (string * string) :=
match shell env cmd with
| CannotLaunch true _ => raise FileNotFoundError
| CannotLaunch false msg => raise (OSError msg)
| NeverExits =>
    emit (EvChildStart cmd cwd timeout) ;;;
    on_expiry cmd false
| Exits code out err duration =>
    emit (EvChildStart cmd cwd timeout) ;;;
    if timeout <? duration then on_expiry cmd true
    else
      emit (EvChildExit cmd) ;;;
      if code =? 0 then ret (out, err)
      else raise (CalledProcessError code err)
end.

(** Lines 161-175: the command line handed to the shell and its working
  directory. *)
Definition prepare (command : string) : string * option string :=
let base_dir_str := BASE_DIR env in
if win32 env then
  if startswith "\\" base_dir_str then
    ("pushd " ++ dquote ++ base_dir_str ++ dquote ++ " && "
       ++ command ++ " & popd", None)%string
  else (command, Some base_dir_str)
else (command, Some base_dir_str).

(** [timeout if timeout is not None else JOB_TIMEOUT]. *)
Definition effective_timeout (timeout : option Z) : Z :=
match timeout with
| None => JOB_TIMEOUT env
| Some t => t
end.

Definition run_command (command : string) (timeout : option Z)
: M ExecutionResult :=
let timeout := effective_timeout timeout in
let result := mkResult false "" "" None in
try_except
  (let '(final_command, working_dir) := prepare command in
   proc_result <- subprocess_run final_command working_dir timeout ;;
   ret (mkResult true (fst proc_result) (snd proc_result)
                 (error result)))
  (fun e =>
     match e with
     | TimeoutExpired =>
         Some (ret (mkResult (success result) (stdout result)
                      (stderr result)
                      (Some ("Timed out after " ++ str_int timeout
                               ++ " seconds")%string)))
     | CalledProcessError returncode err =>
         Some (ret (mkResult (success result) (stdout result) err
                      (Some ("Exit code " ++ str_int returncode)%string)))
     | FileNotFoundError =>
         Some (ret (mkResult (success result) (stdout result)
                      (stderr result)
                      (Some ("Script not found: " ++ command)%string)))
     | Blocked => None
     | _ =>
         Some (ret (mkResult (success result) (stdout result)
                      (stderr result) (Some (str_exn e))))
     end).

Definition get_pid : M (option Z) :=
try_except
  (emit EvReadPidFile ;;;
   o <- get_os ;;
   match pid_file o with
   | Some (PidInt pid) => ret (Some pid)
   | Some PidGarbage => raise (ValueError "invalid literal for int()")
   | None => ret None
   end)
  (fun e => match e with
            | ValueError _ | OSError _ | FileNotFoundError =>
                Some (ret None)
            | _ => None
            end).

Definition is_running (pid : option Z) : M bool :=
if negb (HAS_PSUTIL env) then
  o <- get_os ;;
  ret (match pid_file o with Some _ => true | None => false end)
else
  pid <- match pid with
         | None => get_pid
         | Some p => ret (Some p)
         end ;;
  match pid with
  | None => ret false
  | Some pid =>
      try_except
        (cmdline <- psutil_cmdline pid ;;
         ret (contains "scheduler.py" (lower (join " " cmdline))))
        (fun e => match e with
                  | NoSuchProcess | AccessDenied => Some (ret false)
                  | _ => None
                  end)
  end.

(** [pid and is_running(pid)]. *)
Definition pid_and_is_running (pid : option Z) : M bool :=
match pid with
| None => ret false
| Some p => if p =? 0 then ret false else is_running (Some p)
end.

(** [try: PID_FILE.unlink() except: pass]. *)
Definition try_unlink : M unit :=
try_except unlink_pid_file (fun _ => Some (ret tt)).

(** [if PID_FILE.exists(): try: PID_FILE.unlink() except: pass]. *)
Definition unlink_if_exists : M unit :=
o <- get_os ;;
match pid_file o with
| Some _ => try_unlink
| None => ret tt
end.

(** [for _ in range(n): time.sleep(0.5); if PID_FILE.exists(): break]. *)
Fixpoint wait_for_pid_file (n : nat) : M unit :=
match n with
| O => ret tt
| S n' =>
    sleep env 500 ;;;
    o <- get_os ;;
    match pid_file o with
    | Some _ => ret tt
    | None => wait_for_pid_file n'
    end
end.

Definition start_scheduler : M (bool * string * option Z) :=
pid <- get_pid ;;
running <- pid_and_is_running pid ;;
if running : bool then
  ret (true,
       ("Scheduler is already running (PID: "
          ++ str_int (default 0 pid) ++ ")")%string,
       pid)
else
  unlink_if_exists ;;;
  try_except
    (_ <- (if win32 env then
             let python_exe := match pythonw env with
                               | Some p => p
                               | None => PYTHON_EXE env
                               end in
             Popen_detached env python_exe
           else Popen_detached env (PYTHON_EXE env)) ;;
     wait_for_pid_file 10 ;;;
     new_pid <- get_pid ;;
     running <- pid_and_is_running new_pid ;;
     if running : bool then
       ret (true,
            ("Scheduler started (PID: "
               ++ str_int (default 0 new_pid) ++ ")")%string,
            new_pid)
     else ret (false, "Scheduler failed to start - check logs", None))
    (fun e => Some (ret (false,
                         ("Failed to start: " ++ str_exn e)%string,
                         None))).

(** [psutil.Process(pid)]. *)
Definition psutil_Process (pid : Z) : M unit :=
o <- get_os ;;
match procs o !! pid with
| None => raise NoSuchProcess
| Some _ => ret tt
end.

(** A termination request followed by [proc.wait(timeout=...)]. *)
Definition signal_and_wait (e : Event) (r : Reaction) (pid : Z) : M unit :=
match r with
| AlreadyGone => raise NoSuchProcess
| Refused => raise AccessDenied
| Hangs => emit e ;;; raise TimeoutExpired
| ExitsInTime =>
    emit e ;;;
    o <- get_os ;;
    put_os (mkOS (pid_file o) (history_file o) (delete pid (procs o)))
end.

Definition stop_scheduler : M (bool * string) :=
if negb (HAS_PSUTIL env) then
  ret (false, "psutil required for stop operation")
else
  pid <- get_pid ;;
  match pid with
  | None => ret (true, "Scheduler is not running (no PID file)")
  | Some pid =>
      running <- is_running (Some pid) ;;
      if negb running then
        try_unlink ;;;
        ret (true,
             ("Scheduler is not running (stale PID: "
                ++ str_int pid ++ ")")%string)
      else
        try_except
          (psutil_Process pid ;;;
           try_except
             (signal_and_wait (EvTerminate pid) (on_terminate env pid) pid)
             (fun e => match e with
                       | TimeoutExpired =>
                           Some (signal_and_wait (EvKill pid)
                                   (on_kill env pid) pid)
                       | _ => None
                       end) ;;;
           unlink_if_exists ;;;
           ret (true, "Scheduler stopped"))
          (fun e => match e with
                    | NoSuchProcess =>
                        Some (unlink_if_exists ;;;
                              ret (true, "Scheduler already stopped"))
                    | _ => Some (ret (false,
                                      ("Failed to stop: "
                                         ++ str_exn e)%string))
                    end)
  end.

Definition restart_scheduler : M (bool * string * option Z) :=
r <- stop_scheduler ;;
let '(ok, msg) := r in
if negb ok then ret (false, msg, None)
else
  sleep env 1000 ;;;
  start_scheduler.

(** Lines 256-288.  Of the dict returned only the ['pid'] entry is kept;
  the status, the start time and the memory and CPU figures are not
  modelled. *)
Definition get_process_info (pid : option Z) : M (option Z) :=
if negb (HAS_PSUTIL env) then ret None
else
  pid <- match pid with
         | None => get_pid
         | Some p => ret (Some p)
         end ;;
  match pid with
  | None => ret None
  | Some pid =>
      try_except
        (_ <- psutil_cmdline pid ;;
         ret (Some pid))
        (fun e => match e with
                  | NoSuchProcess | AccessDenied => Some (ret None)
                  | _ => None
                  end)
  end.
End WithEnv.
End Core.

(** ** scheduler_ctl.py *)

(** Each command is modelled by the exit status it returns; what it
    prints is not. *)
Module Ctl.
Section WithEnv.
Variable env : Env.

Definition status : M Z :=
pid <- Core.get_pid ;;
match pid with
| None => ret 1
| Some p =>
    running <- Core.is_running env (Some p) ;;
    if running : bool then
      _ <- Core.get_process_info env (Some p) ;;
      ret 0
    else ret 1
end.

Definition start : M Z :=
r <- Core.start_scheduler env ;;
let '(success, _, _) := r in
ret (if success : bool then 0 else 1).

Definition stop : M Z :=
if negb (HAS_PSUTIL env) then ret 1
else
  r <- Core.stop_scheduler env ;;
  let '(success, _) := r in
  ret (if success : bool then 0 else 1).

Definition restart : M Z :=
r <- Core.restart_scheduler env ;;
let '(success, _, _) := r in
ret (if success : bool then 0 else 1).

(** The [__main__] block, given [sys.argv]. *)
Definition main (argv : list string) : M Z :=
match argv with
| _ :: arg :: _ =>
    let command := lower arg in
    if String.eqb command "status" then status
    else if String.eqb command "start" then start
    else if String.eqb command "stop" then stop
    else if String.eqb command "restart" then restart
    else if existsb (String.eqb command) ["-h"; "--help"; "help"] then ret 0
    else ret 1
| _ => ret 1
end.
End WithEnv.
End Ctl.

(** ** The [schedule] package, as far as [scheduler.py] drives it *)

Module ScheduleLib.

(** A [schedule.Job] under construction. *)
Record Job := mkJob {
  interval : Z;
  job_unit : option string;
  start_day : option string;
  at_time : option string
}.

(** What an attribute lookup may hand back: the job itself (the unit and
    weekday properties return [self]) or some other object (a bound
    method, a plain field), which has neither [at] nor [do]. *)
Inductive Value :=
| VJob (j : Job)
| VOther (attribute : string).

Definition PLURAL_UNITS : list string :=
  ["seconds"; "minutes"; "hours"; "days"; "weeks"].

Definition SINGULAR_UNITS : list (string * string) :=
  [("second", "seconds"); ("minute", "minutes"); ("hour", "hours");
   ("day", "days"); ("week", "weeks")].

Definition WEEKDAYS : list string :=
  ["monday"; "tuesday"; "wednesday"; "thursday"; "friday"; "saturday";
   "sunday"].

Definition mem (s : string) (l : list string) : bool :=
  existsb (String.eqb s) l.

Fixpoint assoc (s : string) (l : list (string * string)) : option string :=
  match l with
  | [] => None
  | (k, v) :: l' => if String.eqb s k then Some v else assoc s l'
  end.

(** [schedule.every(interval)]. *)
Definition every (n : Z) : Job := mkJob n None None None.

Section WithPackage.
(** Names of the remaining attributes of a [Job] object. *)
Variable other_attribute : string -> bool.

(** [getattr(job, name)]: the plural unit properties set the unit; the
    singular ones and the weekday ones insist on an interval of 1. *)
Definition getattr (j : Job) (name : string) : Exn + Value :=
  if mem name PLURAL_UNITS then
    inr (VJob (mkJob (interval j) (Some name) (start_day j) (at_time j)))
  else
    match assoc name SINGULAR_UNITS with
    | Some plural =>
        if interval j =? 1 then
          inr (VJob (mkJob (interval j) (Some plural) (start_day j)
                           (at_time j)))
        else inl (IntervalError
                    ("Use " ++ plural ++ " instead of " ++ name)%string)
    | None =>
        if mem name WEEKDAYS then
          if interval j =? 1 then
            inr (VJob (mkJob (interval j) (Some "weeks") (Some name)
                             (at_time j)))
          else
            inl (IntervalError
                   "Scheduling weekday jobs is only allowed for weekly jobs")
        else if other_attribute name then inr (VOther name)
        else inl (AttributeError name)
    end.

(** [hasattr(job, name)] runs the lookup and swallows [AttributeError]
    only. *)
Definition hasattr (j : Job) (name : string) : Exn + bool :=
  match getattr j name with
  | inr _ => inr true
  | inl (AttributeError _) => inr false
  | inl e => inl e
  end.
End WithPackage.
End ScheduleLib.

(** ** scheduler.py *)

(** A job of [jobs.yaml] and its [schedule] entry; an absent key is
    [None]. *)
Record ScheduleSpec := mkSpec {
  s_unit : option string;
  s_every : option Z;
  s_at : option string;
  s_day : option string;
  s_day_of_month : option Z
}.

Record JobDict := mkJobDict {
  j_name : option string;
  j_command : option string;
  j_enabled : option bool;
  j_schedule : option ScheduleSpec
}.

(** What a registered job does when it fires. *)
Inductive Action :=
| RunThreaded (command job_name : string)
| RunMonthlyJob (command job_name : string) (target_day : Z).

Record Trigger := mkTrigger {
  t_job : ScheduleLib.Job;
  t_action : Action
}.

(** State of the scheduler process: the jobs registered with the
    [schedule] package and the worker threads started so far. *)
Record Sched := mkSched {
  registry : list Trigger;
  threads : list (string * string)
}.

(** The parts of the [schedule] package and of the calendar that the
    source does not fix. *)
Record Package := mkPackage {
  other_attribute : string -> bool;
  job_at : ScheduleLib.Job -> string -> Exn + ScheduleLib.Job;
  out_of_range : ScheduleLib.Job -> bool;
  due : nat -> Trigger -> bool;
  today : nat -> Z
}.

Inductive Scheduled :=
| Disabled
| Startup
| Recurring.

Module Scheduler.
Section WithPackage.
Import ScheduleLib.
Variable pkg : Package.

Definition lift {A} (r : Exn + A) : ST Sched A := fun s => (r, s).

(** Truthiness of an optional string or int. *)
Definition truthy_str (o : option string) : bool :=
match o with
| Some s => negb (String.eqb s "")
| None => false
end.

Definition truthy_int (o : option Z) : bool :=
match o with
| Some n => negb (n =? 0)
| None => false
end.

(** [d[key]]. *)
Definition item {A} (key : string) (o : option A) : ST Sched A :=
match o with
| Some a => ret a
| None => raise (KeyError key)
end.

Definition value_getattr (v : Value) (name : string) : ST Sched Value :=
match v with
| VJob j => lift (getattr (other_attribute pkg) j name)
| VOther _ => raise (AttributeError name)
end.

Definition value_hasattr (v : Value) (name : string) : ST Sched bool :=
match v with
| VJob j => lift (hasattr (other_attribute pkg) j name)
| VOther _ => ret false
end.

(** [sched.at(at)]. *)
Definition value_at (v : Value) (at_ : string) : ST Sched Value :=
match v with
| VJob j => j' <- lift (job_at pkg j at_) ;; ret (VJob j')
| VOther _ => raise (AttributeError "at")
end.

(** The first run of a job, [now + timedelta(unit=interval)], leaves the
  range of [datetime].  A step of one unit stays within it, and a monthly
  job, made by [schedule.every().day], steps by one day. *)
Definition overflows (j : Job) (a : Action) : bool :=
match a with
| RunMonthlyJob _ _ _ => false
| RunThreaded _ _ => negb (interval j =? 1) && out_of_range pkg j
end.

(** [sched.do(...)] works out the first run, and then the job joins the
  scheduler's list. *)
Definition value_do (v : Value) (a : Action) : ST Sched unit :=
match v with
| VJob j =>
    if overflows j a then raise (OverflowError "date value out of range")
    else
      fun s => (inr tt, mkSched (registry s ++ [mkTrigger j a]) (threads s))
| VOther _ => raise (AttributeError "do")
end.

(** [run_threaded(run_command_logged, command, job_name)]. *)
Definition run_threaded (command job_name : string) : ST Sched unit :=
fun s => (inr tt,
          mkSched (registry s) (threads s ++ [(command, job_name)])).

Definition run_monthly_job (tick : nat) (command job_name : string)
         (target_day : Z) : ST Sched unit :=
if today pkg tick =? target_day then run_threaded command job_name
else ret tt.

Definition schedule_job (job : JobDict) : ST Sched Scheduled :=
try_except
  (let job_name := default "unknown" (j_name job) in
   if negb (default true (j_enabled job)) then ret Disabled
   else
     spec <- item "schedule" (j_schedule job) ;;
     unit <- item "unit" (s_unit spec) ;;
     let at_ := s_at spec in
     let day := s_day spec in
     let day_of_month := s_day_of_month spec in
     let every_val := default 1 (s_every spec) in
     if String.eqb unit "startup" then ret Startup
     else if String.eqb unit "months" then
       let day_of_month :=
         if truthy_int day_of_month then default 1 day_of_month else 1 in
       sched <- value_getattr (VJob (every 1)) "day" ;;
       sched <- (if truthy_str at_
                 then value_at sched (default "" at_)
                 else ret sched) ;;
       command <- item "command" (j_command job) ;;
       value_do sched (RunMonthlyJob command job_name day_of_month) ;;;
       ret Recurring
     else
       sched <- value_getattr (VJob (every every_val)) unit ;;
       sched <-
         (if (String.eqb unit "weeks" && truthy_str day)%bool then
            let day_lower := lower (default "" day) in
            known <- value_hasattr sched day_lower ;;
            if known : bool then
              sched <- value_getattr sched day_lower ;;
              if truthy_str at_ then value_at sched (default "" at_)
              else ret sched
            else
              if truthy_str at_ then value_at sched (default "" at_)
              else ret sched
          else if truthy_str at_ then
            has_at <- value_hasattr sched "at" ;;
            if has_at : bool then value_at sched (default "" at_)
            else ret sched
          else ret sched) ;;
       command <- item "command" (j_command job) ;;
       value_do sched (RunThreaded command job_name) ;;;
       ret Recurring)
  (fun e => Some (raise e)).

(** Lines 204-208: schedule every job, collecting the startup ones. *)
Fixpoint schedule_all (jobs startup_jobs : list JobDict)
: ST Sched (list JobDict) :=
match jobs with
| [] => ret startup_jobs
| job :: rest =>
    result <- schedule_job job ;;
    match result with
    | Startup => schedule_all rest (startup_jobs ++ [job])
    | _ => schedule_all rest startup_jobs
    end
end.

(** Lines 212-214. *)
Fixpoint run_startup_jobs (startup_jobs : list JobDict) : ST Sched unit :=
match startup_jobs with
| [] => ret tt
| job :: rest =>
    command <- item "command" (j_command job) ;;
    name <- item "name" (j_name job) ;;
    run_threaded command name ;;;
    run_startup_jobs rest
end.

Definition fire (tick : nat) (t : Trigger) : ST Sched unit :=
match t_action t with
| RunThreaded command job_name => run_threaded command job_name
| RunMonthlyJob command job_name target_day =>
    run_monthly_job tick command job_name target_day
end.

Fixpoint fire_all (tick : nat) (ts : list Trigger) : ST Sched unit :=
match ts with
| [] => ret tt
| t :: rest =>
    (if due pkg tick t then fire tick t else ret tt) ;;;
    fire_all tick rest
end.

(** [schedule.run_pending()] at a given tick. *)
Definition run_pending (tick : nat) : ST Sched unit :=
fun s => fire_all tick (registry s) s.

(** The first [n] rounds of [while True: run_pending(); sleep(1)]. *)
Fixpoint loop (n tick : nat) : ST Sched unit :=
match n with
| O => ret tt
| S n' => run_pending tick ;;; loop n' (S tick)
end.

(** The [__main__] block from the moment the jobs are loaded, observed
  for [n] rounds of its loop; [Service.main] below puts [load_jobs] in
  front of it. *)
Definition main (jobs : list JobDict) (n : nat) : ST Sched unit :=
try_except
  (startup_jobs <- schedule_all jobs [] ;;
   run_startup_jobs startup_jobs ;;;
   loop n O)
  (fun e => Some (raise e)).
End WithPackage.
End Scheduler.

(** ** validate_jobs.py *)

Module Validate.
(** ["allowed": ["monday", ..., "sunday"]]: an exact, case-sensitive
    match. *)
Definition day_allowed (day : string) : bool :=
  existsb (String.eqb day)
    ["monday"; "tuesday"; "wednesday"; "thursday"; "friday"; "saturday";
     "sunday"].

(** ["allowed"] of [unit]. *)
Definition ALLOWED_UNITS : list string :=
  ["seconds"; "minutes"; "hours"; "days"; "weeks"; "months"; "startup"].

Section Schema.
(** The regular expression of [at], taken as given. *)
Variable at_matches : string -> bool.

(** The schema of the [schedule] dict, as cerberus applies it: a key
    that is present must satisfy its rules, and [unit] must be present. *)
Definition schedule_schema_ok (spec : ScheduleSpec) : bool :=
  match s_every spec with
  | Some n => 1 <=? n
  | None => true
  end
  && match s_unit spec with
     | Some unit => ScheduleLib.mem unit ALLOWED_UNITS
     | None => false
     end
  && match s_at spec with
     | Some t => at_matches t
     | None => true
     end
  && match s_day spec with
     | Some day => day_allowed day
     | None => true
     end
  && match s_day_of_month spec with
     | Some d => (1 <=? d) && (d <=? 31)
     | None => true
     end.

(** [JOB_SCHEMA] for one entry of [jobs]: [name], [command] and
    [schedule] are required, [enabled] is not. *)
Definition job_schema_ok (job : JobDict) : bool :=
  match j_name job, j_command job, j_schedule job with
  | Some _, Some _, Some spec => schedule_schema_ok spec
  | _, _, _ => false
  end.
End Schema.

Definition VALID_FIELDS_BY_UNIT : list (string * list string) :=
  [("seconds", ["every"; "unit"]);
   ("minutes", ["every"; "unit"; "at"]);
   ("hours", ["every"; "unit"; "at"]);
   ("days", ["every"; "unit"; "at"]);
   ("weeks", ["every"; "unit"; "at"; "day"]);
   ("months", ["unit"; "at"; "day_of_month"]);
   ("startup", ["unit"])].

Definition REQUIRED_FIELDS_BY_UNIT : list (string * list string) :=
  [("seconds", ["every"]);
   ("minutes", ["every"]);
   ("hours", ["every"]);
   ("days", ["every"]);
   ("weeks", ["every"]);
   ("months", []);
   ("startup", [])].

(** [table.get(key)]. *)
Fixpoint table_get {A} (key : string) (table : list (string * A))
  : option A :=
  match table with
  | [] => None
  | (k, v) :: table' => if String.eqb key k then Some v else table_get key table'
  end.

Definition present {A} (key : string) (o : option A) : list string :=
  match o with
  | Some _ => [key]
  | None => []
  end.

(** The keys of a [schedule] dict.  The dict keeps the order of the YAML
    file, which the record does not; the keys are listed in the order of
    the schema. *)
Definition keys (spec : ScheduleSpec) : list string :=
  present "every" (s_every spec) ++ present "unit" (s_unit spec)
  ++ present "at" (s_at spec) ++ present "day" (s_day spec)
  ++ present "day_of_month" (s_day_of_month spec).

Definition quote (s : string) : string := ("'" ++ s ++ "'")%string.

(** Lines 88-107: the messages for one job. *)
Definition job_field_errors (job : JobDict) : list string :=
  let name := default "unknown" (j_name job) in
  let schedule := default (mkSpec None None None None None) (j_schedule job) in
  match s_unit schedule with
  | None => []
  | Some unit =>
      match table_get unit VALID_FIELDS_BY_UNIT with
      | None => []
      | Some valid_fields =>
          let required_fields :=
            default [] (table_get unit REQUIRED_FIELDS_BY_UNIT) in
          flat_map
            (fun field =>
               if ScheduleLib.mem field valid_fields then []
               else [("Job " ++ quote name ++ ": field " ++ quote field
                        ++ " is not used for " ++ quote unit
                        ++ " schedules")%string])
            (keys schedule)
          ++ flat_map
               (fun field =>
                  if ScheduleLib.mem field (keys schedule) then []
                  else [("Job " ++ quote name ++ ": field " ++ quote field
                           ++ " is required for " ++ quote unit
                           ++ " schedules")%string])
               required_fields
      end
  end.

Definition validate_schedule_fields (jobs : list JobDict) : list string :=
  flat_map job_field_errors jobs.

Definition newline : string := String "010"%char EmptyString.

(** Lines 139-149 of [validate_config], on the parsed list of jobs; the
    text cerberus gives for a schema violation is not modelled. *)
Definition validate_config (at_matches : string -> bool)
    (jobs : list JobDict) (strict : bool) : Exn + list JobDict :=
  if negb (forallb (job_schema_ok at_matches) jobs) then
    inl (ValueError "Invalid configuration")
  else if strict then
    match validate_schedule_fields jobs with
    | [] => inr jobs
    | field_errors =>
        inl (ValueError ("Invalid configuration:" ++ newline
                           ++ join newline field_errors)%string)
    end
  else inr jobs.
End Validate.

(** ** scheduler_core.py: the jobs of [jobs.yaml] *)

(** The state is the content of [jobs.yaml], as the list of jobs it parses
    to; dumping a list of jobs and loading it again gives the same list. *)
Module Jobs.

(** [job.get("name") == name]. *)
Definition named (name : string) (job : JobDict) : bool :=
  match j_name job with
  | Some n => String.eqb n name
  | None => false
  end.

Fixpoint get_job_by_name (jobs : list JobDict) (name : string)
  : option JobDict :=
  match jobs with
  | [] => None
  | job :: rest =>
      if named name job then Some job else get_job_by_name rest name
  end.

(** [job["enabled"] = enabled]. *)
Definition set_enabled (enabled : bool) (job : JobDict) : JobDict :=
  mkJobDict (j_name job) (j_command job) (Some enabled) (j_schedule job).

Section WithSchema.
Variable at_matches : string -> bool.

(** [load_jobs]: the file is validated every time it is read. *)
Definition load_jobs : ST (list JobDict) (list JobDict) :=
  fun file => (Validate.validate_config at_matches file true, file).

Definition save_jobs (jobs : list JobDict) : ST (list JobDict) unit :=
  fun _ => (inr tt, jobs).

(** Lines 93-98: the loop over the jobs loaded, [seen] being the jobs
    already passed. *)
Fixpoint update_loop (seen rest : list JobDict) (job_name : string)
    (enabled : bool) : ST (list JobDict) bool :=
  match rest with
  | [] => ret false
  | job :: rest' =>
      if named job_name job then
        save_jobs (seen ++ set_enabled enabled job :: rest') ;;;
        ret true
      else update_loop (seen ++ [job]) rest' job_name enabled
  end.

Definition update_job_enabled (job_name : string) (enabled : bool)
  : ST (list JobDict) bool :=
  jobs <- load_jobs ;;
  update_loop [] jobs job_name enabled.
End WithSchema.
End Jobs.

(** ** scheduler.py: the service, from [jobs.yaml] to the loop *)

(** The [try] block of the [__main__] block, lines 198-226.  The jobs are
    loaded, and so validated, before any of them is scheduled;
    [Scheduler.main] is the block from there on, and its handler is the
    handler of the whole block.  The file is the list of jobs [jobs.yaml]
    parses to. *)
Module Service.
Section WithPackage.
Variable at_matches : string -> bool.
Variable pkg : Package.

(** [load_jobs(CONFIG_FILE)]. *)
Definition load_jobs (file : list JobDict) : ST Sched (list JobDict) :=
Scheduler.lift (Validate.validate_config at_matches file true).

Definition main (file : list JobDict) (n : nat) : ST Sched unit :=
try_except
  (jobs <- load_jobs file ;;
   Scheduler.main pkg jobs n)
  (fun e => Some (raise e)).
End WithPackage.
End Service.

(** ** gui.py: the job check of the editor *)

(** The values of a job have the types the schema asks for, so the
    [isinstance] tests of [validate_job] always pass. *)
Module Gui.

Definition VALID_FIELDS_BY_UNIT : list (string * list string) :=
  [("seconds", ["every"; "unit"]);
   ("minutes", ["every"; "unit"; "at"]);
   ("hours", ["every"; "unit"; "at"]);
   ("days", ["every"; "unit"; "at"]);
   ("weeks", ["every"; "unit"; "at"; "day"]);
   ("months", ["unit"; "at"; "day_of_month"]);
   ("startup", ["unit"])].

Definition REQUIRED_FIELDS_BY_UNIT : list (string * list string) :=
  [("seconds", ["every"]);
   ("minutes", ["every"]);
   ("hours", ["every"]);
   ("days", ["every"]);
   ("weeks", ["every"]);
   ("months", []);
   ("startup", [])].

Definition VALID_UNITS : list string :=
  ["seconds"; "minutes"; "hours"; "days"; "weeks"; "months"; "startup"].

Definition VALID_DAYS : list string :=
  ["monday"; "tuesday"; "wednesday"; "thursday"; "friday"; "saturday";
   "sunday"].

Section WithRegex.
(** [re.match] of the pattern for [at], taken as given. *)
Variable at_matches : string -> bool.

(** Lines 98-133: the checks made once the unit is known to be valid. *)
Definition rule_errors (schedule : ScheduleSpec) (unit : string)
  : list string :=
  let valid_fields := default [] (Validate.table_get unit VALID_FIELDS_BY_UNIT) in
  let required_fields :=
    default [] (Validate.table_get unit REQUIRED_FIELDS_BY_UNIT) in
  flat_map
    (fun field =>
       if ScheduleLib.mem field valid_fields then []
       else [("Field " ++ Validate.quote field ++ " is not used for "
                ++ Validate.quote unit ++ " schedules")%string])
    (Validate.keys schedule)
  ++ flat_map
       (fun field =>
          if ScheduleLib.mem field (Validate.keys schedule) then []
          else [("Field " ++ Validate.quote field ++ " is required for "
                   ++ Validate.quote unit ++ " schedules")%string])
       required_fields
  ++ match s_every schedule with
     | Some every =>
         if every <? 1 then ["'every' must be a positive integer"] else []
     | None => []
     end
  ++ match s_at schedule with
     | Some at_ =>
         if negb (at_matches at_) then
           [("Invalid 'at' format " ++ Validate.quote at_
               ++ " (use HH:MM or :MM)")%string]
         else []
     | None => []
     end
  ++ match s_day schedule with
     | Some day =>
         if negb (ScheduleLib.mem day VALID_DAYS) then
           [("Invalid day " ++ Validate.quote day ++ " (valid: "
               ++ join ", " VALID_DAYS ++ ")")%string]
         else []
     | None => []
     end
  ++ match s_day_of_month schedule with
     | Some dom =>
         if negb ((1 <=? dom) && (dom <=? 31)) then
           ["'day_of_month' must be an integer 1-31"]
         else []
     | None => []
     end.

Definition validate_job (job : JobDict) : list string :=
  let name := default "" (j_name job) in
  let errors := if String.eqb name "" then ["Name is required"] else [] in
  let errors :=
    if Scheduler.truthy_str (j_command job) then errors
    else errors ++ ["Command is required"] in
  match j_schedule job with
  | None => errors ++ ["Schedule is required"]
  | Some schedule =>
      match Validate.keys schedule with
      | [] => errors ++ ["Schedule is required"]
      | _ :: _ =>
          if negb (Scheduler.truthy_str (s_unit schedule)) then
            errors ++ ["Schedule unit is required"]
          else
            let unit := default "" (s_unit schedule) in
            if negb (ScheduleLib.mem unit VALID_UNITS) then
              errors ++ [("Invalid unit " ++ Validate.quote unit
                            ++ " (valid: " ++ join ", " VALID_UNITS
                            ++ ")")%string]
            else errors ++ rule_errors schedule unit
      end
  end.
End WithRegex.
End Gui.

(** ** The scheduler log: [read_log_tail] and the log filter of the GUI *)

Module Logs.

(** [scheduler.log] as [read_log_tail] finds it. *)
Inductive LogFile :=
| NoLog
| LogLines (all_lines : list string)
| LogUnreadable.

(** [l[start:]], with Python's reading of a negative and of an
    out-of-range start. *)
Definition slice_from {A} (l : list A) (start : Z) : list A :=
  let n := Z.of_nat (length l) in
  let start := if start <? 0 then Z.max (start + n) 0 else Z.min start n in
  skipn (Z.to_nat start) l.

(** [scheduler_core.py], lines 428-446. *)
Definition read_log_tail (log : LogFile) (lines : Z) : list string :=
  match log with
  | NoLog => []
  | LogLines all_lines => slice_from all_lines (- lines)
  | LogUnreadable => []
  end.

(** [gui.py], lines 1005-1010: the first of the five level names, in this
    order, that the line shows between dashes. *)
Fixpoint first_level (levels : list string) (line : string) : string :=
  match levels with
  | [] => "INFO"
  | level :: rest =>
      if contains (" - " ++ level ++ " - ") line then level
      else first_level rest line
  end.

Definition get_log_level (line : string) : string :=
  first_level ["CRITICAL"; "ERROR"; "WARNING"; "INFO"; "DEBUG"] line.

Definition level_priority : list (string * Z) :=
  [("DEBUG", 0); ("INFO", 1); ("WARNING", 2); ("ERROR", 3); ("CRITICAL", 4)].

(** [gui.py], lines 1012-1035, from the point where the filter text has
    been stripped and lower-cased; a line is skipped by either of the two
    [continue]s. *)
Definition keeps (text_filter : string) (min_level : Z) (line : string)
  : bool :=
  if (0 <=? min_level)
     && (default 0 (Validate.table_get (get_log_level line) level_priority)
         <? min_level)
  then false
  else if negb (String.eqb text_filter "")
          && negb (contains text_filter (lower line))
  then false
  else true.

Definition filter_log_lines (text_filter level_filter : string)
    (lines : list string) : list string :=
  let min_level :=
    default (-1) (Validate.table_get level_filter level_priority) in
  List.filter (keeps text_filter min_level) lines.
End Logs.

(** ** Vocabulary of the statements *)

(** The world after the watchdog has read the clock and saved [h']. *)
Definition recorded (h' : RestartHistory) (w : World) : World :=
  mkWorld (mkOS (pid_file (os w)) (Some (HistJson h')) (procs (os w)))
          (S (reads w)) (epoch w) (trace w ++ [EvSaveHistory h']).

(** What [load_restart_history] makes of the history file. *)
Definition history_of (w : World) : RestartHistory :=
  match history_file (os w) with
  | Some (HistJson h) => h
  | _ => Watchdog.empty_history
  end.

(** Sorted ascending, and nothing later than the next clock reading. *)
Definition well_kept (env : Env) (w : World) : Prop :=
  StronglySorted Z.le (restarts (history_of w))
  /\ Forall (fun dt => dt <= clock env (reads w)) (restarts (history_of w)).

(** What a history looks like right after a restart was recorded at
    [now]. *)
Definition just_recorded (now : Z) (h : RestartHistory) : Prop :=
  StronglySorted Z.le (restarts h)
  /\ Forall (fun dt => now - minutes 15 < dt <= now) (restarts h)
  /\ (forall until, backoff_until h = Some until ->
                    until = now + minutes 30 /\ now < until).

(** No timestamp older than the restart window, seen from [now]. *)
Definition within_window (now : Z) (h : RestartHistory) : Prop :=
  Forall (fun dt => now - minutes Watchdog.RESTART_WINDOW_MINUTES < dt)
         (restarts h).

(** The history file and the clock are as they were. *)
Definition same_history (w w' : World) : Prop :=
  history_file (os w') = history_file (os w) /\ reads w' = reads w.

(** [n] watchdog checks in a row. *)
Fixpoint checks (env : Env) (n : nat) (w : World) : World :=
  match n with
  | O => w
  | S n' => checks env n' (snd (Watchdog.check_and_restart env w))
  end.

(** A copy of [w] with [evs] appended to its trace. *)
Definition logged (evs : list Event) (w : World) : World :=
  mkWorld (os w) (reads w) (epoch w) (trace w ++ evs).

(** The PID the PID file holds, if it holds one. *)
Definition pid_of (o : OS) : option Z :=
  match pid_file o with
  | Some (PidInt pid) => Some pid
  | _ => None
  end.

(** A process with this PID exists, its command line can be read and
    mentions [scheduler.py]. *)
Definition alive (o : OS) (pid : Z) : bool :=
  match procs o !! pid with
  | Some (Inspectable cmdline) =>
      contains "scheduler.py" (lower (join " " cmdline))
  | _ => false
  end.

Definition pid_file_exists (o : OS) : bool :=
  match pid_file o with
  | Some _ => true
  | None => false
  end.

(** [pid and is_running(pid)], read off the state. *)
Definition passes (env : Env) (o : OS) (pid : option Z) : bool :=
  match pid with
  | Some pid =>
      negb (pid =? 0)
      && (if HAS_PSUTIL env then alive o pid else pid_file_exists o)
  | None => false
  end.

(** The test [start_scheduler] opens with. *)
Definition already_running (env : Env) (o : OS) : bool :=
  passes env o (pid_of o).

(** The interpreter [start_scheduler] launches the scheduler with. *)
Definition launcher (env : Env) : string :=
  if win32 env then
    match pythonw env with
    | Some p => p
    | None => PYTHON_EXE env
    end
  else PYTHON_EXE env.

(** Events that only look at the machine. *)
Definition observation (e : Event) : bool :=
  match e with
  | EvReadPidFile | EvProbe _ => true
  | _ => false
  end.

(** The shell children still running after a trace. *)
Fixpoint remove_first (c : string) (l : list string) : list string :=
  match l with
  | [] => []
  | x :: l' => if String.eqb c x then l' else x :: remove_first c l'
  end.

Definition child_step (running : list string) (e : Event) : list string :=
  match e with
  | EvChildStart c _ _ => c :: running
  | EvChildExit c | EvChildKilled c => remove_first c running
  | _ => running
  end.

Definition left_running (evs : list Event) : list string :=
  fold_left child_step evs [].

(** The command outlives the timeout. *)
Definition times_out (env : Env) (final_command : string) (timeout : Z)
  : bool :=
  match shell env final_command with
  | NeverExits => true
  | Exits _ _ _ duration => timeout <? duration
  | CannotLaunch _ _ => false
  end.

(** The command neither ends nor goes with its shell, on Windows: the call
    is left reading its pipes. *)
Definition waits_for_ever (env : Env) (final_command : string) : bool :=
  win32 env && negb (dies_with_shell env final_command)
  && match shell env final_command with
     | NeverExits => true
     | _ => false
     end.

(** The command is gone by the time the call returns after a timeout: it
    went with its shell, or, on Windows, the call has waited for its
    end. *)
Definition gone_on_return (env : Env) (final_command : string) : bool :=
  dies_with_shell env final_command || win32 env.

(** The operating system after [k] sleeps, the first of them taken at
    epoch [e]. *)
Fixpoint after_sleeps (env : Env) (k e : nat) (o : OS) : OS :=
  match k with
  | O => o
  | S k' => after_sleeps env k' (S e) (during_sleep env e o)
  end.

(** The operating system once the PID file is gone and the scheduler has
    been spawned as [child]. *)
Definition spawned (env : Env) (o : OS) (child : Z) : OS :=
  mkOS None (history_file o)
       (<[child := Inspectable [launcher env; SCHEDULER_SCRIPT env]]>
          (procs o)).

(** The PID file holds no negative number. *)
Definition sane (o : OS) : Prop :=
  forall pid, pid_of o = Some pid -> 0 <= pid.

(** Nothing that happens during a sleep puts a negative number there. *)
Definition keeps_sane (env : Env) : Prop :=
  forall e o, sane o -> sane (during_sleep env e o).

(** The watchdog's liveness verdict, read off the state: a process whose
    inspection is refused counts as running. *)
Definition watchdog_alive (o : OS) (pid : Z) : bool :=
  match procs o !! pid with
  | Some (Inspectable cmdline) =>
      contains "scheduler.py" (lower (join " " cmdline))
  | Some Protected => true
  | None => false
  end.

(** The watchdog finds no scheduler: the PID file is missing or unreadable,
    or names a PID that fails its liveness check. *)
Definition watchdog_down (o : OS) : bool :=
  match pid_of o with
  | Some pid => negb (watchdog_alive o pid)
  | None => true
  end.

Definition is_save (e : Event) : bool :=
  match e with
  | EvSaveHistory _ => true
  | _ => false
  end.

Definition is_spawn (e : Event) : bool :=
  match e with
  | EvSpawn _ _ => true
  | _ => false
  end.

(** The one launch the watchdog performs: the interpreter on
    [scheduler.py], detached. *)
Definition watchdog_launch (env : Env) : Event :=
  EvSpawn [PYTHON_EXE env; SCHEDULER_SCRIPT env] true.

(** The world after [stop_scheduler] has read the PID file, probed [pid],
    sent [signals], seen the process go and removed the PID file. *)
Definition stopped (w : World) (pid : Z) (signals : list Event) : World :=
  mkWorld (mkOS None (history_file (os w)) (delete pid (procs (os w))))
          (reads w) (epoch w)
          (trace w ++ [EvReadPidFile; EvProbe pid] ++ signals
                   ++ [EvUnlinkPidFile]).

(** The world once the PID file, if there is one, has been unlinked. *)
Definition without_pid_file (w : World) : World :=
  if pid_file_exists (os w) then
    mkWorld (mkOS None (history_file (os w)) (procs (os w)))
            (reads w) (epoch w) (trace w ++ [EvUnlinkPidFile])
  else w.

(** The registered job [t] launches [command] for [name] at [tick]: the
    package finds it due and, for a monthly job, today is its day. *)
Definition launched_by (pkg : Package) (tick : nat) (t : Trigger)
    (command name : string) : Prop :=
  due pkg tick t = true
  /\ (t_action t = RunThreaded command name
      \/ exists target_day,
           t_action t = RunMonthlyJob command name target_day
           /\ today pkg tick = target_day).

(** [schedule.every().day]. *)
Definition daily : ScheduleLib.Job :=
  ScheduleLib.mkJob 1 (Some "days") None None.

(** An enabled job that carries a name and a command and asks to be run
    at start-up. *)
Definition is_startup (job : JobDict) : bool :=
  default true (j_enabled job)
  && match j_schedule job with
     | Some spec =>
         match s_unit spec with
         | Some unit => String.eqb unit "startup"
         | None => false
         end
     | None => false
     end
  && match j_command job, j_name job with
     | Some _, Some _ => true
     | _, _ => false
     end.

(** The schedule gives no [at], and a day of the week only together with
    [every: 1]. *)
Definition simple_timing (job : JobDict) : bool :=
  match j_schedule job with
  | Some spec =>
      match s_at spec with
      | Some _ => false
      | None =>
          match s_day spec, s_every spec with
          | None, _ => true
          | Some _, Some every => every =? 1
          | Some _, None => false
          end
      end
  | None => true
  end.

(** The first run of the job that [every] and [unit] ask for is within the
    range of [datetime]. *)
Definition first_run_in_range (pkg : Package) (job : JobDict) : bool :=
  match j_schedule job with
  | Some spec =>
      match s_unit spec with
      | Some unit =>
          negb (out_of_range pkg
                  (ScheduleLib.mkJob (default 1 (s_every spec)) (Some unit)
                                     None None))
      | None => true
      end
  | None => true
  end.

(** No job of the list goes by this name. *)
Definition unnamed (name : string) (jobs : list JobDict) : Prop :=
  forallb (fun job => negb (Jobs.named name job)) jobs = true.

(** The line carries none of the five level markers. *)
Definition unmarked (line : string) : Prop :=
  forall level,
    In level ["CRITICAL"; "ERROR"; "WARNING"; "INFO"; "DEBUG"] ->
    contains (" - " ++ level ++ " - ") line = false.

(** The thread a startup job is run in. *)
Definition startup_thread (job : JobDict) : string * string :=
  (default "" (j_command job), default "" (j_name job)).

(** ** A concrete machine: the scheduler dies right after every start *)

(** Readings of the wall clock: one per minute for the first five, then
    minute 24, then minute 46 and onwards. *)
Definition thrash_clock (n : nat) : Z :=
  if (n <? 5)%nat then Z.of_nat n * minutes 1
  else if (n =? 5)%nat then minutes 24
  else minutes 40 + Z.of_nat n * minutes 1.

(** A Windows machine on which every spawn succeeds but the child never
    writes its PID file. *)
Definition thrash_env : Env :=
  mkEnv true true "C:/scheduler" "python.exe" None 300
        thrash_clock (fun _ o => o) (fun _ => Some 4242)
        (fun _ => NeverExits) (fun _ => true)
        (fun _ => ExitsInTime) (fun _ => ExitsInTime).

(** No PID file, no history file, no process. *)
Definition empty_world : World := mkWorld (mkOS None None ∅) 0 0 [].

(** The same machine without the [psutil] package. *)
Definition no_psutil_env : Env :=
  mkEnv false true "C:/scheduler" "python.exe" None 300
        thrash_clock (fun _ o => o) (fun _ => Some 4242)
        (fun _ => NeverExits) (fun _ => true)
        (fun _ => ExitsInTime) (fun _ => ExitsInTime).

(** A machine that is not Windows. *)
Definition posix_env : Env :=
  mkEnv true false "/opt/scheduler" "/usr/bin/python3" None 300
        thrash_clock (fun _ o => o) (fun _ => Some 4242)
        (fun _ => NeverExits) (fun _ => true)
        (fun _ => ExitsInTime) (fun _ => ExitsInTime).

(** A machine on which the scheduler ignores both the termination request
    and the kill. *)
Definition stubborn_env : Env :=
  mkEnv true true "C:/scheduler" "python.exe" None 300
        thrash_clock (fun _ o => o) (fun _ => Some 4242)
        (fun _ => NeverExits) (fun _ => true) (fun _ => Hangs) (fun _ => Hangs).

(** A machine on which the scheduler honours no termination request in
    time and the kill is refused. *)
Definition refusing_env : Env :=
  mkEnv true true "C:/scheduler" "python.exe" None 300
        thrash_clock (fun _ o => o) (fun _ => Some 4242)
        (fun _ => NeverExits) (fun _ => true) (fun _ => Hangs) (fun _ => Refused).

(** A machine on which the spawned scheduler writes its PID file while the
    supervisor sleeps. *)
Definition prompt_env : Env :=
  mkEnv true true "C:/scheduler" "python.exe" None 300
        thrash_clock
        (fun _ o => mkOS (Some (PidInt 4242)) (history_file o) (procs o))
        (fun _ => Some 4242)
        (fun _ => NeverExits) (fun _ => true)
        (fun _ => ExitsInTime) (fun _ => ExitsInTime).


(** A machine that is not Windows on which every job command takes five
    seconds and is run by the shell as a process of its own. *)
Definition forking_shell_env : Env :=
  mkEnv true false "/opt/scheduler" "/usr/bin/python3" None 300
        thrash_clock (fun _ o => o) (fun _ => Some 4242)
        (fun _ => Exits 0 "" "" 5) (fun _ => false)
        (fun _ => ExitsInTime) (fun _ => ExitsInTime).

(** A scheduler up and running under PID 4242. *)
Definition running_world : World :=
  mkWorld (mkOS (Some (PidInt 4242)) None
                {[ 4242 := Inspectable ["python.exe";
                                        "C:/scheduler/scheduler.py"] ]})
          0 0 [].

(** A PID file left behind by a dead scheduler whose PID now belongs to an
    editor. *)
Definition reused_pid_world : World :=
  mkWorld (mkOS (Some (PidInt 4242)) None
                {[ 4242 := Inspectable ["notepad.exe"; "notes.txt"] ]})
          0 0 [].

(** A PID the watchdog and the supervisor are not allowed to inspect. *)
Definition protected_pid_world : World :=
  mkWorld (mkOS (Some (PidInt 4)) None {[ 4 := Protected ]}) 0 0 [].

(** ** A concrete [jobs.yaml] *)

(** A [schedule] package whose [Job] objects have no attribute beyond the
    modelled ones and whose [at] accepts every time. *)
Definition plain_package : Package :=
  mkPackage (fun _ => false)
            (fun j t => inr (ScheduleLib.mkJob (ScheduleLib.interval j)
                                               (ScheduleLib.job_unit j)
                                               (ScheduleLib.start_day j)
                                               (Some t)))
            (fun _ => false)
            (fun _ _ => true)
            (fun _ => 1).

(** The same package on a calendar that a step of more than a million
    units leaves. *)
Definition short_calendar_package : Package :=
  mkPackage (fun _ => false)
            (fun j t => inr (ScheduleLib.mkJob (ScheduleLib.interval j)
                                               (ScheduleLib.job_unit j)
                                               (ScheduleLib.start_day j)
                                               (Some t)))
            (fun j => 1000000 <? ScheduleLib.interval j)
            (fun _ _ => true)
            (fun _ => 1).

Definition warmup_job : JobDict :=
  mkJobDict (Some "warmup") (Some "python scripts/heartbeat.py") None
            (Some (mkSpec (Some "startup") None None None None)).

(** Passes the schema and the field check, yet [every(2).weeks.monday]
    raises. *)
Definition fortnightly_job : JobDict :=
  mkJobDict (Some "fortnightly-backup") (Some "python scripts/backup.py") None
            (Some (mkSpec (Some "weeks") (Some 2) None (Some "monday") None)).

Definition heartbeat_job : JobDict :=
  mkJobDict (Some "heartbeat") (Some "python scripts/heartbeat.py") None
            (Some (mkSpec (Some "seconds") (Some 10) None None None)).

Definition eon_job : JobDict :=
  mkJobDict (Some "eon") (Some "python scripts/heartbeat.py") None
            (Some (mkSpec (Some "weeks") (Some 1000000000000) None None
                          None)).

Definition funday_job : JobDict :=
  mkJobDict (Some "weekly-report") (Some "python scripts/report.py") None
            (Some (mkSpec (Some "weeks") (Some 1) None (Some "Funday") None)).

(** Switched off, and with no schedule at all. *)
Definition retired_job : JobDict :=
  mkJobDict (Some "old-report") (Some "python scripts/old_report.py")
            (Some false) None.

(** Switched off, with its schedule kept. *)
Definition paused_job : JobDict :=
  mkJobDict (Some "nightly-sync") (Some "python scripts/sync.py")
            (Some false)
            (Some (mkSpec (Some "days") (Some 1) None None None)).

Definition monthly_job : JobDict :=
  mkJobDict (Some "invoices") (Some "python scripts/invoices.py") None
            (Some (mkSpec (Some "months") (Some 3) None None (Some 15))).

Definition capital_monday_job : JobDict :=
  mkJobDict (Some "weekly-report") (Some "python scripts/report.py") None
            (Some (mkSpec (Some "weeks") None None (Some "Monday") None)).

Definition idle : Sched := mkSched [] [].

(** The computation leaves the scheduler state alone. *)
Definition pure {A} (c : ST Sched A) : Prop := forall s, snd (c s) = s.

(** The computation either leaves the state alone or succeeds without
    starting a thread. *)
Definition tidy {A} (c : ST Sched A) : Prop :=
  forall s,
    snd (c s) = s
    \/ (exists a, fst (c s) = inr a) /\ threads (snd (c s)) = threads s.

(** * Properties *)

(** ** Watchdog thrash guard *)

Section WatchdogFacts.
Import Watchdog.
Variable env : Env.

(** Saving replaces the history file and nothing else. *)
Lemma save_restart_history_spec h w :
  save_restart_history h w =
    (inr tt,
     mkWorld (mkOS (pid_file (os w)) (Some (HistJson h)) (procs (os w)))
             (reads w) (epoch w) (trace w ++ [EvSaveHistory h])).
Proof. reflexivity. Qed.

Lemma load_restart_history_spec h w :
  history_file (os w) = Some (HistJson h) ->
  load_restart_history w = (inr h, w).
Proof.
  intros Hf. unfold load_restart_history, try_except, bind, get_os.
  rewrite Hf. reflexivity.
Qed.

Lemma record_restart_thrashing h w :
  let now := clock env (reads w) in
  let kept := prune (now - minutes 15) (restarts h ++ [now]) in
  let h' := mkHistory kept (Some (now + minutes 30)) in
  (5 <= length kept)%nat ->
  record_restart env h w = (inr (false, h'), recorded h' w).
Proof.
  intros now kept h' Hlen.
  unfold record_restart, bind, datetime_now.
  fold now. change (minutes RESTART_WINDOW_MINUTES) with (minutes 15).
  fold kept. unfold MAX_RESTARTS_IN_WINDOW.
  destruct (Nat.leb_spec 5 (length kept)) as [_ | Hlt]; [| lia].
  reflexivity.
Qed.

Lemma record_restart_normal h w :
  let now := clock env (reads w) in
  let kept := prune (now - minutes 15) (restarts h ++ [now]) in
  let h' := mkHistory kept (backoff_until h) in
  (length kept < 5)%nat ->
  record_restart env h w = (inr (true, h'), recorded h' w).
Proof.
  intros now kept h' Hlen.
  unfold record_restart, bind, datetime_now.
  fold now. change (minutes RESTART_WINDOW_MINUTES) with (minutes 15).
  fold kept. unfold MAX_RESTARTS_IN_WINDOW.
  destruct (Nat.leb_spec 5 (length kept)) as [Hge | _]; [lia |].
  reflexivity.
Qed.

Lemma is_in_backoff_active h w until :
  backoff_until h = Some until ->
  clock env (reads w) < until ->
  is_in_backoff env h w =
    (inr (true, h), mkWorld (os w) (S (reads w)) (epoch w) (trace w)).
Proof.
  intros Hb Hlt. unfold is_in_backoff, bind, datetime_now. rewrite Hb.
  cbn. destruct (Z.ltb_spec (clock env (reads w)) until); [reflexivity | lia].
Qed.

Lemma is_in_backoff_expired h w until :
  backoff_until h = Some until ->
  until <= clock env (reads w) ->
  is_in_backoff env h w =
    (inr (false, mkHistory [] None), recorded (mkHistory [] None) w).
Proof.
  intros Hb Hle. unfold is_in_backoff, bind, datetime_now. rewrite Hb.
  cbn. destruct (Z.ltb_spec (clock env (reads w)) until); [lia | reflexivity].
Qed.

Lemma is_in_backoff_unset h w :
  backoff_until h = None ->
  is_in_backoff env h w = (inr (false, h), w).
Proof. intros Hb. unfold is_in_backoff. rewrite Hb. reflexivity. Qed.

(** C1. When the restart just recorded brings the number of restarts of
    the last 15 minutes to 5 or more, [record_restart] sets
    [backoff_until] to [now] plus 30 minutes (strictly later than [now]),
    persists the history and reports that no restart may happen; the
    watchdog's [start_scheduler] of that cycle then returns without
    spawning anything; and every later check that finds this history while
    the clock is before [backoff_until] reads no PID file, probes no
    process and restarts nothing. *)
Theorem C1_thrashing_enters_backoff (h : RestartHistory) (w : World) :
  let now := clock env (reads w) in
  let kept := prune (now - minutes 15) (restarts h ++ [now]) in
  let h' := mkHistory kept (Some (now + minutes 30)) in
  (5 <= length kept)%nat ->
  record_restart env h w = (inr (false, h'), recorded h' w)
  /\ history_file (os (recorded h' w)) = Some (HistJson h')
  /\ now < now + minutes 30
  /\ (history_file (os w) = Some (HistJson h) ->
      backoff_until h = None ->
      start_scheduler env w = (inr false, recorded h' w))
  /\ (forall w2 : World,
        history_file (os w2) = Some (HistJson h') ->
        clock env (reads w2) < now + minutes 30 ->
        check_and_restart env w2 =
          (inr false,
           mkWorld (os w2) (S (reads w2)) (epoch w2) (trace w2))).
Proof.
  intros now kept h' Hlen.
  pose proof (record_restart_thrashing h w Hlen) as Hrec.
  repeat split.
  - exact Hrec.
  - unfold minutes. lia.
  - intros Hfile Hnone.
    unfold start_scheduler, try_except, bind.
    rewrite (load_restart_history_spec h w Hfile).
    rewrite (is_in_backoff_unset h w Hnone).
    cbv zeta in Hrec. rewrite Hrec. reflexivity.
  - intros w2 Hfile Hlt.
    unfold check_and_restart, bind.
    rewrite (load_restart_history_spec h' w2 Hfile).
    rewrite (is_in_backoff_active h' w2 (now + minutes 30) eq_refl Hlt).
    reflexivity.
Qed.

Lemma load_restart_history_total w :
  load_restart_history w = (inr (history_of w), w).
Proof.
  unfold load_restart_history, history_of, try_except, bind, get_os.
  destruct (history_file (os w)) as [[h |] |]; reflexivity.
Qed.

Lemma history_of_recorded h w : history_of (recorded h w) = h.
Proof. reflexivity. Qed.

(** C5. When the loaded history carries a [backoff_until] that the clock
    has reached or passed, the check clears [backoff_until], empties
    [restarts], persists that state and carries on with the liveness
    probe and restart exactly as from the cleared state; in particular,
    with no PID file around, it records the restart and spawns the
    scheduler again. *)
Theorem C5_backoff_expiry (h : RestartHistory) (w : World) (until : Z) :
  history_file (os w) = Some (HistJson h) ->
  backoff_until h = Some until ->
  until <= clock env (reads w) ->
  let cleared := mkHistory [] None in
  is_in_backoff env h w = (inr (false, cleared), recorded cleared w)
  /\ history_file (os (recorded cleared w)) = Some (HistJson cleared)
  /\ check_and_restart env w = probe_and_restart env (recorded cleared w)
  /\ (forall child : Z,
        pid_file (os w) = None ->
        win32 env = true ->
        popen env (epoch w) = Some child ->
        exists w' : World,
          check_and_restart env w = (inr true, w')
          /\ In (EvSpawn [PYTHON_EXE env; SCHEDULER_SCRIPT env] true)
                (trace w')).
Proof.
  intros Hfile Hb Hle cleared.
  pose proof (is_in_backoff_expired h w until Hb Hle) as Hexp.
  assert (Hcheck : check_and_restart env w
                   = probe_and_restart env (recorded cleared w)).
  { unfold check_and_restart, bind.
    rewrite (load_restart_history_spec h w Hfile), Hexp. reflexivity. }
  repeat split; try assumption.
  intros child Hpid Hwin Hpopen. rewrite Hcheck.
  unfold probe_and_restart, get_scheduler_pid, cleanup_stale_pid_file,
    start_scheduler, try_except, bind, emit, get_os.
  cbn [recorded os pid_file]. rewrite Hpid.
  cbn [ret os pid_file]. 
  rewrite load_restart_history_total. cbn [history_of os history_file].
  rewrite is_in_backoff_unset by reflexivity.
  rewrite record_restart_normal by (cbn; destruct (_ <? _); cbn; lia).
  cbn [negb]. unfold STARTUPINFO. rewrite Hwin.
  unfold Popen_detached. cbn [ret recorded epoch]. rewrite Hpopen.
  cbn.
  match goal with
  | |- context [match pid_file ?o with _ => _ end] => destruct (pid_file o)
  end; (eexists; split; [reflexivity |]); cbn;
    rewrite !in_app_iff; cbn; tauto.
Qed.
End WatchdogFacts.

Lemma C1_thrashing_witness :
  let w := checks thrash_env 4 empty_world in
  let now := clock thrash_env (reads w) in
  let kept := Watchdog.prune (now - minutes 15)
                             (restarts (history_of w) ++ [now]) in
  (5 <= length kept)%nat
  /\ Watchdog.record_restart thrash_env (history_of w) w
     = (inr (false, mkHistory kept (Some (now + minutes 30))),
        recorded (mkHistory kept (Some (now + minutes 30))) w).
Proof.
  intros w now kept.
  assert (Hlen : (5 <= length kept)%nat) by (vm_compute; lia).
  split; [exact Hlen |].
  exact (proj1 (C1_thrashing_enters_backoff thrash_env (history_of w) w Hlen)).
Defined.

Lemma C5_expiry_witness :
  let w := checks thrash_env 6 empty_world in
  history_file (os w) = Some (HistJson (history_of w))
  /\ backoff_until (history_of w) = Some (minutes 34)
  /\ minutes 34 <= clock thrash_env (reads w)
  /\ Watchdog.check_and_restart thrash_env w
     = Watchdog.probe_and_restart thrash_env
         (recorded (mkHistory [] None) w).
Proof.
  intros w.
  assert (Hfile : history_file (os w) = Some (HistJson (history_of w)))
    by (vm_compute; reflexivity).
  assert (Hb : backoff_until (history_of w) = Some (minutes 34))
    by (vm_compute; reflexivity).
  assert (Hle : minutes 34 <= clock thrash_env (reads w))
    by (vm_compute; discriminate).
  split; [exact Hfile |]. split; [exact Hb |]. split; [exact Hle |].
  exact (proj1 (proj2 (proj2
    (C5_backoff_expiry thrash_env (history_of w) w (minutes 34) Hfile Hb Hle)))).
Defined.

(** ** The restart history across checks *)

Lemma prune_Forall cutoff l : Forall (fun dt => cutoff < dt) (Watchdog.prune cutoff l).
Proof.
  induction l as [| x l IH]; cbn; [constructor |].
  destruct (Z.ltb_spec cutoff x); [constructor |]; assumption.
Qed.

Lemma prune_keeps_Forall (P : Z -> Prop) cutoff l :
  Forall P l -> Forall P (Watchdog.prune cutoff l).
Proof.
  induction 1 as [| x l Hx Hl IH]; cbn; [constructor |].
  destruct (cutoff <? x); [constructor |]; assumption.
Qed.

Lemma prune_sorted cutoff l :
  StronglySorted Z.le l -> StronglySorted Z.le (Watchdog.prune cutoff l).
Proof.
  induction 1 as [| x l Hs IH Hx]; cbn; [constructor |].
  destruct (cutoff <? x); [| assumption].
  constructor; [assumption | now apply prune_keeps_Forall].
Qed.

Lemma snoc_sorted l x :
  StronglySorted Z.le l -> Forall (fun dt => dt <= x) l ->
  StronglySorted Z.le (l ++ [x]).
Proof.
  induction 1 as [| y l Hs IH Hy]; intros Hle; cbn.
  - repeat constructor.
  - inversion Hle as [| ? ? Hyx Hl]; subst.
    constructor; [now apply IH |].
    apply Forall_app; split; [assumption | now repeat constructor].
Qed.

Section WatchdogInvariant.
Import Watchdog.
Variable env : Env.

(** The wall clock never runs backwards. *)
Hypothesis clock_monotone : forall n, clock env n <= clock env (S n).

(** Nobody but the watchdog writes the history file. *)
Hypothesis history_is_private :
  forall n o, history_file (during_sleep env n o) = history_file o.

Lemma clock_le n m : (n <= m)%nat -> clock env n <= clock env m.
Proof.
  induction 1 as [| m Hle IH]; [lia |].
  specialize (clock_monotone m). lia.
Qed.

Lemma record_restart_keeps h w :
  StronglySorted Z.le (restarts h) ->
  Forall (fun dt => dt <= clock env (reads w)) (restarts h) ->
  backoff_until h = None ->
  exists go h',
    record_restart env h w = (inr (go, h'), recorded h' w)
    /\ just_recorded (clock env (reads w)) h'.
Proof.
  intros Hs Hle Hnone.
  set (now := clock env (reads w)).
  set (kept := prune (now - minutes 15) (restarts h ++ [now])).
  assert (Hkept : StronglySorted Z.le kept
                  /\ Forall (fun dt => now - minutes 15 < dt <= now) kept).
  { split.
    - apply prune_sorted, snoc_sorted; assumption.
    - assert (H1 : Forall (fun dt => dt <= now) kept).
      { apply prune_keeps_Forall, Forall_app; split;
          [assumption | repeat constructor; lia]. }
      pose proof (prune_Forall (now - minutes 15) (restarts h ++ [now]))
        as H2.
      fold kept in H2. rewrite Forall_forall in *.
      intros x Hx. split; [apply H2 | apply H1]; assumption. }
  destruct Hkept as [Hsk Hfk].
  destruct (le_lt_dec 5 (length kept)) as [Hge | Hlt].
  - exists false, (mkHistory kept (Some (now + minutes 30))). split.
    + apply record_restart_thrashing. exact Hge.
    + split; [assumption |]. split; [assumption |].
      cbn. intros u [= <-]. unfold minutes. lia.
  - exists true, (mkHistory kept (backoff_until h)). split.
    + apply record_restart_normal. exact Hlt.
    + split; [assumption |]. split; [assumption |].
      cbn. rewrite Hnone. intros u [=].
Qed.

Lemma start_scheduler_keeps w :
  well_kept env w ->
  backoff_until (history_of w) = None ->
  exists b w',
    start_scheduler env w = (inr b, w')
    /\ reads w' = S (reads w)
    /\ just_recorded (clock env (reads w)) (history_of w').
Proof.
  intros [Hs Hle] Hnone.
  destruct (record_restart_keeps (history_of w) w Hs Hle Hnone)
    as (go & h' & Hrec & Hjust).
  unfold start_scheduler, try_except, bind.
  rewrite load_restart_history_total, is_in_backoff_unset by assumption.
  rewrite Hrec. destruct go; cbn [negb].
  - unfold STARTUPINFO. destruct (win32 env); cbn.
    + unfold Popen_detached. cbn.
      destruct (popen env (epoch w)); cbn.
      * match goal with
        | |- context [match pid_file ?o with _ => _ end] =>
            destruct (pid_file o)
        end;
          (eexists _, _; split; [reflexivity |]; split; [reflexivity |]);
          unfold history_of; cbn; rewrite history_is_private; exact Hjust.
      * eexists _, _; split; [reflexivity |]. split; [reflexivity |].
        exact Hjust.
    + eexists _, _; split; [reflexivity |]. split; [reflexivity |].
      exact Hjust.
  - eexists _, _; split; [reflexivity |]. split; [reflexivity |].
    exact Hjust.
Qed.

Lemma get_scheduler_pid_frame w :
  exists pid w', get_scheduler_pid w = (inr pid, w') /\ same_history w w'.
Proof.
  unfold get_scheduler_pid, try_except, bind, emit, get_os. cbn.
  destruct (pid_file (os w)) as [[pid |] |];
    eexists _, _; (split; [reflexivity | split; reflexivity]).
Qed.

Lemma cleanup_stale_pid_file_frame w :
  exists w', cleanup_stale_pid_file w = (inr tt, w') /\ same_history w w'.
Proof.
  unfold cleanup_stale_pid_file, unlink_pid_file, try_except, bind, get_os.
  cbn. destruct (pid_file (os w)) as [t |] eqn:E; cbn; rewrite ?E; cbn;
    eexists; (split; [reflexivity | split; reflexivity]).
Qed.

Lemma is_process_running_frame pid w :
  exists b w', is_process_running pid w = (inr b, w') /\ same_history w w'.
Proof.
  unfold is_process_running, psutil_cmdline, try_except, bind, emit, get_os.
  cbn. destruct (procs (os w) !! pid) as [[cmdline |] |]; cbn;
    [destruct (contains _ _) | |];
    eexists _, _; (split; [reflexivity | split; reflexivity]).
Qed.

Lemma well_kept_same w w' :
  same_history w w' -> well_kept env w -> well_kept env w'.
Proof.
  intros [Hf Hr]. unfold well_kept, history_of. rewrite Hf, Hr. tauto.
Qed.

Lemma history_of_same w w' :
  same_history w w' -> history_of w' = history_of w.
Proof. intros [Hf _]. unfold history_of. rewrite Hf. reflexivity. Qed.

Lemma probe_and_restart_keeps w :
  well_kept env w ->
  backoff_until (history_of w) = None ->
  exists b w',
    probe_and_restart env w = (inr b, w')
    /\ (same_history w w'
        \/ (reads w' = S (reads w)
            /\ just_recorded (clock env (reads w)) (history_of w'))).
Proof.
  intros Hk Hnone. unfold probe_and_restart, bind.
  destruct (get_scheduler_pid_frame w) as (pid & w1 & -> & H1).
  assert (Hrestart : forall v, same_history w v ->
            exists b w',
              bind cleanup_stale_pid_file (fun _ => start_scheduler env) v
              = (inr b, w')
              /\ reads w' = S (reads w)
              /\ just_recorded (clock env (reads w)) (history_of w')).
  { intros v Hv. unfold bind.
    destruct (cleanup_stale_pid_file_frame v) as (v' & -> & Hv').
    assert (Hwv : same_history w v').
    { destruct Hv, Hv'. split; congruence. }
    destruct (start_scheduler_keeps v') as (b & w' & Hst & Hr & Hj).
    - eapply well_kept_same; eassumption.
    - rewrite (history_of_same _ _ Hwv). assumption.
    - exists b, w'. destruct Hwv as [_ Hreads].
      rewrite Hreads in Hr, Hj. auto. }
  destruct pid as [pid |].
  - destruct (is_process_running_frame pid w1) as (alive & w2 & -> & H2).
    assert (H12 : same_history w w2).
    { destruct H1, H2. split; congruence. }
    destruct alive.
    + exists true, w2. split; [reflexivity | left; assumption].
    + destruct (Hrestart w2 H12) as (b & w' & Hrun & Hrest).
      unfold bind in Hrun. exists b, w'. split; [exact Hrun | right; exact Hrest].
  - destruct (Hrestart w1 H1) as (b & w' & Hrun & Hrest).
    unfold bind in Hrun. exists b, w'. split; [exact Hrun | right; exact Hrest].
Qed.

(** C4, amended.  With a clock that never runs backwards and a history
    file only the watchdog writes, every check keeps [restarts] sorted
    ascending and free of timestamps later than the clock.  The check
    either leaves the persisted history as it found it, or leaves it
    emptied after an expired backoff, or has recorded a restart at some
    reading [now]: then every persisted timestamp lies within the 15
    minutes before [now], and [backoff_until], if set, equals [now] plus
    30 minutes, strictly later than [now]. *)
Theorem C4_history_invariant (w : World) :
  well_kept env w ->
  exists b w',
    check_and_restart env w = (inr b, w')
    /\ well_kept env w'
    /\ (history_of w' = history_of w
        \/ history_of w' = mkHistory [] None
        \/ exists now,
             now <= clock env (reads w')
             /\ just_recorded now (history_of w')).
Proof.
  intros Hk.
  assert (Hstep : forall v : World,
            well_kept env v -> backoff_until (history_of v) = None ->
            exists b w',
              probe_and_restart env v = (inr b, w')
              /\ well_kept env w'
              /\ (history_of w' = history_of v
                  \/ exists now,
                       now <= clock env (reads w')
                       /\ just_recorded now (history_of w'))).
  { intros v Hv Hnone.
    destruct (probe_and_restart_keeps v Hv Hnone)
      as (b & w' & Hrun & [Hsame | [Hreads Hjust]]).
    - exists b, w'. split; [exact Hrun |]. split.
      + eapply well_kept_same; eassumption.
      + left. now apply history_of_same.
    - assert (Hnow : clock env (reads v) <= clock env (reads w')).
      { rewrite Hreads. apply clock_monotone. }
      exists b, w'. split; [exact Hrun |]. split.
      + destruct Hjust as (Hs & Hf & _). split; [exact Hs |].
        eapply List.Forall_impl; [| exact Hf]. cbn. intros dt Hdt. lia.
      + right. exists (clock env (reads v)). split; assumption. }
  unfold check_and_restart, bind. rewrite load_restart_history_total.
  destruct (backoff_until (history_of w)) as [until |] eqn:Hb.
  - destruct (Z.lt_ge_cases (clock env (reads w)) until) as [Hlt | Hge].
    + rewrite (is_in_backoff_active env _ w until Hb Hlt).
      eexists _, _. split; [reflexivity |]. split; [| left; reflexivity].
      destruct Hk as [Hs Hf]. split; [exact Hs |].
      eapply List.Forall_impl; [| exact Hf]. cbn. intros dt Hdt.
      specialize (clock_monotone (reads w)). lia.
    + rewrite (is_in_backoff_expired env _ w until Hb Hge).
      destruct (Hstep (recorded (mkHistory [] None) w))
        as (b & w' & Hrun & Hk' & Hcase).
      * split; cbn; constructor.
      * reflexivity.
      * exists b, w'. split; [exact Hrun |]. split; [exact Hk' |].
        destruct Hcase as [Hsame | Hrec]; [right; left | right; right];
          assumption.
  - rewrite (is_in_backoff_unset env _ w Hb).
    destruct (Hstep w Hk Hb) as (b & w' & Hrun & Hk' & Hcase).
    exists b, w'. split; [exact Hrun |]. split; [exact Hk' |].
    destruct Hcase as [Hsame | Hrec]; [left | right; right]; assumption.
Qed.
End WatchdogInvariant.

Lemma thrash_clock_monotone n : clock thrash_env n <= clock thrash_env (S n).
Proof.
  change (thrash_clock n <= thrash_clock (S n)). unfold thrash_clock, minutes.
  destruct (Nat.ltb_spec n 5), (Nat.ltb_spec (S n) 5),
    (Nat.eqb_spec n 5), (Nat.eqb_spec (S n) 5); lia.
Defined.

Lemma C4_invariant_witness :
  let w := checks thrash_env 4 empty_world in
  (forall n, clock thrash_env n <= clock thrash_env (S n))
  /\ (forall n o, history_file (during_sleep thrash_env n o) = history_file o)
  /\ well_kept thrash_env w
  /\ exists b w',
       Watchdog.check_and_restart thrash_env w = (inr b, w')
       /\ well_kept thrash_env w'
       /\ (history_of w' = history_of w
           \/ history_of w' = mkHistory [] None
           \/ exists now,
                now <= clock thrash_env (reads w')
                /\ just_recorded now (history_of w')).
Proof.
  intros w.
  assert (Hpriv : forall n o,
             history_file (during_sleep thrash_env n o) = history_file o)
    by reflexivity.
  assert (Hk : well_kept thrash_env w).
  { assert (E : history_of w
                = mkHistory [0; 60000000; 120000000; 180000000] None)
      by (vm_compute; reflexivity).
    unfold well_kept. rewrite E. cbn [restarts].
    change (clock thrash_env (reads w)) with 240000000.
    split; repeat constructor; lia. }
  split; [exact thrash_clock_monotone |].
  split; [exact Hpriv |].
  split; [exact Hk |].
  exact (C4_history_invariant thrash_env thrash_clock_monotone Hpriv w Hk).
Defined.

(** C4 as stated fails.  Five checks in five minutes find the scheduler
    dead each time; the fifth detects thrashing and sets [backoff_until]
    to minute 34.  The sixth check reads the clock at minute 24, is in
    backoff and returns at once: the history it leaves on disk still holds
    the five restarts of minutes 0 to 4, all older than the 15-minute
    window. *)
Lemma C4_counterexample :
  let w5 := checks thrash_env 5 empty_world in
  let w6 := snd (Watchdog.check_and_restart thrash_env w5) in
  fst (Watchdog.check_and_restart thrash_env w5) = inr false
  /\ clock thrash_env (reads w5) = minutes 24
  /\ history_of w6
     = mkHistory [0; minutes 1; minutes 2; minutes 3; minutes 4]
                 (Some (minutes 34))
  /\ ~ within_window (minutes 24) (history_of w6).
Proof.
  intros w5 w6.
  assert (E : history_of w6
              = mkHistory [0; minutes 1; minutes 2; minutes 3; minutes 4]
                          (Some (minutes 34)))
    by (vm_compute; reflexivity).
  split; [vm_compute; reflexivity |].
  split; [vm_compute; reflexivity |].
  split; [exact E |].
  rewrite E. unfold within_window. cbn [restarts]. intros H.
  apply Forall_inv in H. vm_compute in H. discriminate.
Qed.

(** ** Process supervisor: liveness and stop *)

Section SupervisorFacts.
Variable env : Env.

Lemma get_pid_spec w :
  Core.get_pid w = (inr (pid_of (os w)), logged [EvReadPidFile] w).
Proof.
  unfold Core.get_pid, try_except, bind, emit, get_os, pid_of. cbn.
  destruct (pid_file (os w)) as [[pid |] |]; reflexivity.
Qed.

Lemma is_running_spec pid w :
  HAS_PSUTIL env = true ->
  Core.is_running env (Some pid) w
  = (inr (alive (os w) pid), logged [EvProbe pid] w).
Proof.
  intros Hps. unfold Core.is_running. rewrite Hps. cbn [negb].
  unfold try_except, bind, psutil_cmdline, emit, get_os, alive. cbn.
  destruct (procs (os w) !! pid) as [[cmdline |] |]; reflexivity.
Qed.

Lemma is_running_fallback pid w :
  HAS_PSUTIL env = false ->
  Core.is_running env pid w = (inr (pid_file_exists (os w)), w).
Proof. intros Hps. unfold Core.is_running. rewrite Hps. reflexivity. Qed.


(** C10. A PID whose inspection is refused is reported as not running by
    the supervisor and as running by the watchdog, so the two liveness
    checks differ as functions of the PID. *)
Theorem C10_access_denied_is_classified_oppositely (pid : Z) (w : World) :
  HAS_PSUTIL env = true ->
  procs (os w) !! pid = Some Protected ->
  fst (Core.is_running env (Some pid) w) = inr false
  /\ fst (Watchdog.is_process_running pid w) = inr true
  /\ fst (Core.is_running env (Some pid) w)
     <> fst (Watchdog.is_process_running pid w).
Proof.
  intros Hps Hprot.
  assert (Hcore : fst (Core.is_running env (Some pid) w) = inr false).
  { rewrite (is_running_spec pid w Hps). cbn. unfold alive.
    rewrite Hprot. reflexivity. }
  assert (Hdog : fst (Watchdog.is_process_running pid w) = inr true).
  { unfold Watchdog.is_process_running, try_except, bind, psutil_cmdline,
      emit, get_os. cbn. rewrite Hprot. reflexivity. }
  split; [exact Hcore |]. split; [exact Hdog |].
  rewrite Hcore, Hdog. discriminate.
Qed.

(** C8, amended.  With [psutil] available: when there is no PID file,
    [stop_scheduler] reports success with the message that the scheduler
    is not running, after reading the PID file and nothing else; when the
    PID file names a PID that fails the liveness check, it removes the
    PID file and still reports success; in both cases no process is
    signalled. *)
Theorem C8_stop_when_not_running (w : World) :
  HAS_PSUTIL env = true ->
  (pid_file (os w) = None ->
   Core.stop_scheduler env w
   = (inr (true, "Scheduler is not running (no PID file)"),
      logged [EvReadPidFile] w))
  /\ (forall pid,
        pid_file (os w) = Some (PidInt pid) ->
        alive (os w) pid = false ->
        exists w',
          Core.stop_scheduler env w
          = (inr (true,
                  ("Scheduler is not running (stale PID: "
                     ++ str_int pid ++ ")")%string), w')
          /\ pid_file (os w') = None
          /\ procs (os w') = procs (os w)
          /\ trace w'
             = trace w ++ [EvReadPidFile; EvProbe pid; EvUnlinkPidFile]).
Proof.
  intros Hps. split.
  - intros Hnone. unfold Core.stop_scheduler. rewrite Hps. cbn [negb].
    unfold bind. rewrite get_pid_spec. unfold pid_of. rewrite Hnone.
    reflexivity.
  - intros pid Hfile Hdead. unfold Core.stop_scheduler. rewrite Hps.
    cbn [negb]. unfold bind. rewrite get_pid_spec. unfold pid_of.
    rewrite Hfile. rewrite (is_running_spec pid _ Hps).
    cbn [logged os]. rewrite Hdead. cbn [negb].
    unfold Core.try_unlink, try_except, unlink_pid_file, bind, get_os,
      put_os, emit. cbn. rewrite Hfile. cbn.
    eexists. split; [reflexivity |]. cbn.
    rewrite <- !app_assoc. auto.
Qed.
End SupervisorFacts.



Lemma C10_opposite_witness :
  HAS_PSUTIL thrash_env = true
  /\ procs (os protected_pid_world) !! 4 = Some Protected
  /\ fst (Core.is_running thrash_env (Some 4) protected_pid_world) = inr false
  /\ fst (Watchdog.is_process_running 4 protected_pid_world) = inr true.
Proof.
  assert (Hprot : procs (os protected_pid_world) !! 4 = Some Protected)
    by (vm_compute; reflexivity).
  split; [reflexivity |]. split; [exact Hprot |].
  pose proof (C10_access_denied_is_classified_oppositely thrash_env 4
                protected_pid_world eq_refl Hprot) as (H1 & H2 & _).
  split; [exact H1 | exact H2].
Defined.

Lemma C8_no_psutil_counterexample :
  pid_file (os empty_world) = None
  /\ Core.stop_scheduler no_psutil_env empty_world
     = (inr (false, "psutil required for stop operation"), empty_world).
Proof. split; reflexivity. Qed.

Lemma C8_stop_witness :
  HAS_PSUTIL thrash_env = true
  /\ pid_file (os empty_world) = None
  /\ Core.stop_scheduler thrash_env empty_world
     = (inr (true, "Scheduler is not running (no PID file)"),
        logged [EvReadPidFile] empty_world).
Proof.
  split; [reflexivity |]. split; [reflexivity |].
  exact (proj1 (C8_stop_when_not_running thrash_env empty_world eq_refl)
           eq_refl).
Defined.

(** ** Process supervisor: start *)

Section StartFacts.
Variable env : Env.

Lemma pid_and_is_running_spec p w :
  exists evs w',
    Core.pid_and_is_running env p w = (inr (passes env (os w) p), w')
    /\ os w' = os w
    /\ epoch w' = epoch w
    /\ trace w' = trace w ++ evs
    /\ forallb observation evs = true.
Proof.
  unfold Core.pid_and_is_running, passes.
  destruct p as [pid |].
  - destruct (pid =? 0); cbn [negb andb].
    + exists [], w. rewrite app_nil_r. auto.
    + destruct (HAS_PSUTIL env) eqn:Hps.
      * rewrite (is_running_spec env pid w Hps).
        exists [EvProbe pid], (logged [EvProbe pid] w). auto.
      * rewrite (is_running_fallback env (Some pid) w Hps).
        exists [], w. rewrite app_nil_r. auto.
  - exists [], w. rewrite app_nil_r. auto.
Qed.

Lemma unlink_if_exists_spec w :
  exists w',
    Core.unlink_if_exists w = (inr tt, w')
    /\ pid_file (os w') = None
    /\ epoch w' = epoch w
    /\ trace w'
       = trace w ++ (if pid_file_exists (os w) then [EvUnlinkPidFile] else []).
Proof.
  unfold Core.unlink_if_exists, Core.try_unlink, try_except,
    unlink_pid_file, bind, get_os, put_os, emit, pid_file_exists.
  destruct (pid_file (os w)) as [t |] eqn:E; cbn; rewrite ?E; cbn.
  - eexists. split; [reflexivity |]. auto.
  - exists w. rewrite app_nil_r. auto.
Qed.

Lemma wait_for_pid_file_spec n w :
  exists k w',
    Core.wait_for_pid_file env n w = (inr tt, w')
    /\ (k <= n)%nat
    /\ trace w' = trace w ++ repeat (EvSleep 500) k.
Proof.
  revert w. induction n as [| n IH]; intros w; cbn [Core.wait_for_pid_file].
  - exists O, w. cbn. rewrite app_nil_r. auto.
  - unfold bind, sleep, get_os. cbn.
    match goal with
    | |- context [match pid_file ?o with _ => _ end] =>
        destruct (pid_file o) as [t |]
    end.
    + exists 1%nat. eexists. split; [reflexivity |]. split; [lia |].
      reflexivity.
    + match goal with
      | |- context [Core.wait_for_pid_file env n ?v] =>
          destruct (IH v) as (k & w' & Hrun & Hk & Htr)
      end.
      exists (S k), w'. split; [exact Hrun |]. split; [lia |].
      rewrite Htr. cbn. rewrite <- app_assoc. reflexivity.
Qed.

Lemma unlink_if_exists_exact w :
  Core.unlink_if_exists w = (inr tt, without_pid_file w).
Proof.
  unfold Core.unlink_if_exists, Core.try_unlink, try_except,
    unlink_pid_file, bind, get_os, put_os, emit, without_pid_file,
    pid_file_exists.
  destruct (pid_file (os w)) as [t |] eqn:E; cbn; rewrite ?E; reflexivity.
Qed.

(** The polling loop sleeps until the first sleep after which the PID
    file is there, and [n] times if there is none. *)
Lemma wait_for_pid_file_polls n w :
  exists k,
    Core.wait_for_pid_file env n w
    = (inr tt,
       mkWorld (after_sleeps env k (epoch w) (os w)) (reads w)
               (k + epoch w) (trace w ++ repeat (EvSleep 500) k))
    /\ (k <= n)%nat
    /\ ((0 < n)%nat -> (1 <= k)%nat)
    /\ (forall j, (1 <= j < k)%nat ->
                  pid_file (after_sleeps env j (epoch w) (os w)) = None)
    /\ ((k < n)%nat ->
        pid_file (after_sleeps env k (epoch w) (os w)) <> None)
    /\ (n = O -> k = O).
Proof.
  revert w. induction n as [| n IH]; intros w; cbn [Core.wait_for_pid_file].
  - exists O. cbn. rewrite app_nil_r. destruct w.
    split; [reflexivity |]. repeat split; intros; lia.
  - unfold bind, sleep, get_os. cbn [os reads epoch trace].
    destruct (pid_file (during_sleep env (epoch w) (os w))) as [t |] eqn:E.
    + exists 1%nat. cbn [after_sleeps repeat Nat.add].
      split; [reflexivity |]. split; [lia |]. split; [lia |].
      split; [intros j Hj; lia |]. split; [| discriminate].
      intros _. rewrite E. discriminate.
    + destruct (IH (mkWorld (during_sleep env (epoch w) (os w)) (reads w)
                            (S (epoch w)) (trace w ++ [EvSleep 500])))
        as (k & Hrun & Hk & Hpos & Hnone & Hsome & _).
      cbn [os reads epoch trace] in *.
      exists (S k). rewrite Hrun. cbn [after_sleeps repeat].
      rewrite <- app_assoc, Nat.add_succ_r. cbn [app Nat.add].
      split; [reflexivity |]. split; [lia |]. split; [lia |].
      split; [| split; [| discriminate]].
      * intros j Hj. destruct j as [| [| j]]; [lia | exact E |].
        cbn [after_sleeps]. apply (Hnone (S j)). lia.
      * intros Hlt. apply Hsome. lia.
Qed.

End StartFacts.

(** With no PID file ever appearing, [start_scheduler] gives up after ten
    polls. *)
Example start_scheduler_gives_up :
  exists w',
    Core.start_scheduler thrash_env empty_world
    = (inr (false, "Scheduler failed to start - check logs", None), w')
    /\ trace w'
       = [EvReadPidFile; EvSpawn ["python.exe"; "C:/scheduler/scheduler.py"] true]
           ++ repeat (EvSleep 500) 10 ++ [EvReadPidFile].
Proof. eexists. split; vm_compute; reflexivity. Qed.

(** ** Command executor *)

Section ExecutorFacts.
Variable env : Env.

(** C6, amended.  For every command and timeout [run_command] returns a
    result record and raises nothing, with one exception: on Windows a
    command that never ends and does not go with its shell keeps the call
    reading its pipes for ever.  When the command outlives the timeout,
    the result has [success] false and an [error] that names the timeout,
    and the shell the command was started in has been killed.  The
    command itself is gone on return only where it went with its shell
    or, on Windows, where the call waited for its end; otherwise it is
    left running. *)
Theorem C6_run_command_returns_a_result
        (command : string) (timeout : option Z) (w : World) :
  let final_command := fst (Core.prepare env command) in
  let cwd := snd (Core.prepare env command) in
  let t := match timeout with
           | None => JOB_TIMEOUT env
           | Some t => t
           end in
  if waits_for_ever env final_command then
    fst (Core.run_command env command timeout w) = inl Blocked
  else
    exists r w',
      Core.run_command env command timeout w = (inr r, w')
      /\ os w' = os w
      /\ (success r = true -> error r = None)
      /\ (times_out env final_command t = true ->
          r = mkResult false "" ""
                (Some ("Timed out after " ++ str_int t ++ " seconds")%string)
          /\ (exists rest,
                 trace w'
                 = trace w ++ [EvChildStart final_command cwd t;
                               EvShellKilled final_command] ++ rest)
          /\ left_running (trace w')
             = if gone_on_return env final_command
               then left_running (trace w)
               else final_command :: left_running (trace w)).
Proof.
  intros final_command cwd t.
  unfold Core.run_command, Core.effective_timeout, try_except, bind,
    times_out, waits_for_ever, gone_on_return.
  fold t. subst final_command cwd.
  destruct (Core.prepare env command) as [fc wd]. cbn [fst snd].
  unfold Core.subprocess_run, Core.on_expiry, bind, emit.
  destruct (shell env fc) as [code out err duration | | [|] msg]; cbn.
  - rewrite andb_false_r.
    destruct (t <? duration); cbn.
    + destruct (dies_with_shell env fc), (win32 env); cbn.
      all: eexists _, _; split; [reflexivity |]; cbn;
        split; [reflexivity |]; split; [discriminate |]; intros _;
        split; [reflexivity |];
        rewrite <- ?app_assoc; cbn [app];
        (split; [eexists; reflexivity |]).
      all: unfold left_running; rewrite !fold_left_app; cbn;
        rewrite ?String.eqb_refl; reflexivity.
    + destruct (code =? 0); cbn;
        (eexists _, _; split; [reflexivity |]; cbn;
         split; [reflexivity |];
         split; [first [reflexivity | discriminate] | discriminate]).
  - rewrite andb_true_r.
    destruct (dies_with_shell env fc), (win32 env); cbn.
    all: try reflexivity.
    all: eexists _, _; split; [reflexivity |]; cbn;
      split; [reflexivity |]; split; [discriminate |]; intros _;
      split; [reflexivity |];
      rewrite <- ?app_assoc; cbn [app];
      (split; [eexists; reflexivity |]).
    all: unfold left_running; rewrite !fold_left_app; cbn;
      rewrite ?String.eqb_refl; reflexivity.
  - rewrite andb_false_r.
    eexists _, _. split; [reflexivity |]. cbn.
    repeat split; discriminate.
  - rewrite andb_false_r.
    eexists _, _. split; [reflexivity |]. cbn.
    repeat split; discriminate.
Qed.
End ExecutorFacts.

(** C6 as stated fails.  The shell runs [sleep 5 && echo done] as a
    process of its own.  After one second [run_command] reports the
    timeout, having killed the shell, and the command is still running. *)
Lemma C6_counterexample :
  exists w',
    Core.run_command forking_shell_env "sleep 5 && echo done" (Some 1)
                     empty_world
    = (inr (mkResult false "" "" (Some "Timed out after 1 seconds")), w')
    /\ trace w'
       = [EvChildStart "sleep 5 && echo done" (Some "/opt/scheduler") 1;
          EvShellKilled "sleep 5 && echo done"]
    /\ left_running (trace empty_world) = []
    /\ left_running (trace w') = ["sleep 5 && echo done"].
Proof. eexists. repeat split; vm_compute; reflexivity. Qed.

(** [sleep 5] under a one-second timeout, where the shell replaces itself
    by the command. *)
Example run_command_sleep_5_times_out :
  let env := mkEnv true false "/opt/scheduler" "python3" None 300
               thrash_clock (fun _ o => o) (fun _ => None)
               (fun _ => Exits 0 "" "" 5) (fun _ => true)
               (fun _ => ExitsInTime) (fun _ => ExitsInTime) in
  Core.run_command env "sleep 5" (Some 1) empty_world
  = (inr (mkResult false "" "" (Some "Timed out after 1 seconds")),
     mkWorld (os empty_world) 0 0
             [EvChildStart "sleep 5" (Some "/opt/scheduler") 1;
              EvShellKilled "sleep 5"; EvChildKilled "sleep 5"]).
Proof. vm_compute. reflexivity. Qed.

(** ** Scheduling loop and schedule compiler *)

Section SchedulerFacts.
Import ScheduleLib Scheduler.
Variable pkg : Package.

Lemma pure_ret {A} (a : A) : pure (ret a).
Proof. intros s. reflexivity. Qed.

Lemma pure_raise {A} e : pure (@raise Sched A e).
Proof. intros s. reflexivity. Qed.

Lemma pure_lift {A} (r : Exn + A) : pure (lift r).
Proof. intros s. reflexivity. Qed.

Lemma pure_item {A} key (o : option A) : pure (item key o).
Proof. destruct o; intros s; reflexivity. Qed.

Lemma pure_bind {A B} (c : ST Sched A) (k : A -> ST Sched B) :
  pure c -> (forall a, pure (k a)) -> pure (bind c k).
Proof.
  intros Hc Hk s. unfold bind. specialize (Hc s).
  destruct (c s) as [[e | a] s']; cbn in *; subst; [reflexivity |].
  apply Hk.
Qed.

Lemma pure_value_getattr v name : pure (value_getattr pkg v name).
Proof. destruct v; intros s; reflexivity. Qed.

Lemma pure_value_hasattr v name : pure (value_hasattr pkg v name).
Proof. destruct v; intros s; reflexivity. Qed.

Lemma pure_value_at v t : pure (value_at pkg v t).
Proof.
  destruct v as [j | a]; [| intros s; reflexivity].
  apply pure_bind; [apply pure_lift | intros; apply pure_ret].
Qed.

Lemma pure_tidy {A} (c : ST Sched A) : pure c -> tidy c.
Proof. intros Hc s. left. apply Hc. Qed.

Lemma tidy_bind {A B} (c : ST Sched A) (k : A -> ST Sched B) :
  pure c -> (forall a, tidy (k a)) -> tidy (bind c k).
Proof.
  intros Hc Hk s. unfold bind. specialize (Hc s).
  destruct (c s) as [[e | a] s']; cbn in *; subst; [left; reflexivity |].
  apply Hk.
Qed.

Lemma tidy_do {A} v action (a : A) :
  tidy (bind (value_do pkg v action) (fun _ => ret a)).
Proof.
  intros s. destruct v as [j | o]; unfold bind, value_do.
  - destruct (overflows pkg j action).
    + left. reflexivity.
    + right. split; [eauto | reflexivity].
  - left. reflexivity.
Qed.

Lemma tidy_reraise {A} (c : ST Sched A) :
  tidy c -> tidy (try_except c (fun e => Some (raise e))).
Proof.
  intros Hc s. unfold try_except. specialize (Hc s).
  destruct (c s) as [[e | a] s']; exact Hc.
Qed.

Ltac purity :=
  repeat first
    [ apply pure_ret | apply pure_raise | apply pure_lift | apply pure_item
    | apply pure_value_getattr | apply pure_value_hasattr
    | apply pure_value_at
    | apply pure_bind; [| intros ?]
    | match goal with
      | |- pure (if ?b then _ else _) => destruct b
      end ].

Lemma schedule_job_tidy job : tidy (schedule_job pkg job).
Proof.
  unfold schedule_job. apply tidy_reraise. cbv zeta.
  destruct (negb (default true (j_enabled job)));
    [apply pure_tidy, pure_ret |].
  apply tidy_bind; [purity | intros spec].
  apply tidy_bind; [purity | intros unit].
  destruct (String.eqb unit "startup"); [apply pure_tidy, pure_ret |].
  destruct (String.eqb unit "months").
  - apply tidy_bind; [purity | intros sched].
    apply tidy_bind; [purity | intros sched'].
    apply tidy_bind; [purity | intros command].
    apply tidy_do.
  - apply tidy_bind; [purity | intros sched].
    apply tidy_bind; [purity | intros sched'].
    apply tidy_bind; [purity | intros command].
    apply tidy_do.
Qed.

Lemma schedule_job_fails_cleanly job s e s' :
  schedule_job pkg job s = (inl e, s') -> s' = s.
Proof.
  intros Hrun. destruct (schedule_job_tidy job s) as [Hs | [[a Ha] _]];
    rewrite Hrun in *; cbn in *; [assumption | discriminate].
Qed.

Lemma schedule_job_keeps_threads job s :
  threads (snd (schedule_job pkg job s)) = threads s.
Proof.
  destruct (schedule_job_tidy job s) as [Hs | [_ Ht]];
    [rewrite Hs; reflexivity | exact Ht].
Qed.

Lemma schedule_all_keeps_threads jobs acc s :
  threads (snd (schedule_all pkg jobs acc s)) = threads s.
Proof.
  revert acc s. induction jobs as [| job rest IH]; intros acc s;
    [reflexivity |].
  cbn [schedule_all]. unfold bind.
  pose proof (schedule_job_keeps_threads job s) as Hjob.
  destruct (schedule_job pkg job s) as [[e | r] s1]; cbn in Hjob;
    [exact Hjob |].
  destruct r; rewrite IH; exact Hjob.
Qed.

Lemma schedule_all_app before rest acc s :
  schedule_all pkg (before ++ rest) acc s
  = match schedule_all pkg before acc s with
    | (inr acc1, s1) => schedule_all pkg rest acc1 s1
    | (inl e, s1) => (inl e, s1)
    end.
Proof.
  revert acc s. induction before as [| job before IH]; intros acc s;
    [reflexivity |].
  cbn [app schedule_all]. unfold bind.
  destruct (schedule_job pkg job s) as [[e | r] s1]; [reflexivity |].
  destruct r; apply IH.
Qed.

(** C2, amended.  When the jobs listed before a job have been scheduled
    and that job's schedule raises, the exception leaves [schedule_job]
    and the [__main__] block, however long the loop is watched: the jobs
    listed before it stay registered, nothing listed after it is
    scheduled, and no command is run, startup jobs included. *)
Theorem C2_schedule_error_is_fatal
        (before after : list JobDict) (bad : JobDict)
        (startup_jobs : list JobDict) (s s1 : Sched) (e : Exn) :
  schedule_all pkg before [] s = (inr startup_jobs, s1) ->
  fst (schedule_job pkg bad s1) = inl e ->
  forall n,
    main pkg (before ++ bad :: after) n s = (inl e, s1)
    /\ threads s1 = threads s.
Proof.
  intros Hbefore Hbad n.
  assert (Hjob : schedule_job pkg bad s1 = (inl e, s1)).
  { destruct (schedule_job pkg bad s1) as [r s2] eqn:Hrun. cbn in Hbad.
    subst r. rewrite (schedule_job_fails_cleanly _ _ _ _ Hrun) in *.
    reflexivity. }
  split.
  - unfold main, try_except, bind.
    rewrite schedule_all_app, Hbefore. cbn [schedule_all]. unfold bind.
    rewrite Hjob. reflexivity.
  - pose proof (schedule_all_keeps_threads before [] s) as Ht.
    rewrite Hbefore in Ht. exact Ht.
Qed.

Lemma weekday_is_recognised j day :
  Validate.day_allowed day = true ->
  lower day = day /\ hasattr (other_attribute pkg) j day <> inr false.
Proof.
  unfold Validate.day_allowed. cbn [existsb].
  repeat match goal with
         | |- context [String.eqb day ?name] =>
             destruct (String.eqb_spec day name) as [-> | _];
             [intros _; split; [reflexivity |];
              unfold hasattr, getattr; cbn;
              destruct (interval j =? 1); discriminate |]
         end.
  cbn. intros [=].
Qed.

Lemma unknown_day_is_not_allowed day :
  mem (lower day) WEEKDAYS = false -> Validate.day_allowed day = false.
Proof.
  intros Hunknown.
  destruct (Validate.day_allowed day) eqn:Hallowed; [| reflexivity].
  destruct (weekday_is_recognised (every 1) day Hallowed) as [Hlow _].
  rewrite Hlow in Hunknown.
  change (mem day WEEKDAYS) with (Validate.day_allowed day) in Hunknown.
  congruence.
Qed.

(** C3.  A [jobs.yaml] with a weekly schedule whose [day], lower-cased,
    is not one of the seven weekday names stops the scheduler with an
    error: loading the file raises [ValueError], which leaves the
    [__main__] block however long it is watched, and no trigger is
    registered and no command run, with the day or without it.  The
    branch of [schedule_job] that would drop such a day is never
    reached, as [schedule_job] only sees jobs that [load_jobs] returned. *)
Theorem C3_unknown_day_is_an_error
        (at_matches : string -> bool) (file : list JobDict) (job : JobDict)
        (spec : ScheduleSpec) (day : string) (n : nat) (s : Sched) :
  In job file ->
  j_schedule job = Some spec ->
  s_unit spec = Some "weeks" ->
  s_day spec = Some day ->
  mem (lower day) WEEKDAYS = false ->
  exists msg,
    Validate.validate_config at_matches file true = inl (ValueError msg)
    /\ Service.main at_matches pkg file n s = (inl (ValueError msg), s).
Proof.
  intros Hin Hspec _ Hday Hunknown.
  assert (Hjob : Validate.job_schema_ok at_matches job = false).
  { unfold Validate.job_schema_ok, Validate.schedule_schema_ok.
    rewrite Hspec, Hday, (unknown_day_is_not_allowed day Hunknown).
    destruct (j_name job), (j_command job); try reflexivity.
    rewrite andb_false_r. reflexivity. }
  assert (Hall : forallb (Validate.job_schema_ok at_matches) file = false).
  { destruct (forallb (Validate.job_schema_ok at_matches) file) eqn:Hall;
      [| reflexivity].
    rewrite forallb_forall in Hall. rewrite (Hall job Hin) in Hjob.
    discriminate. }
  exists "Invalid configuration".
  unfold Service.main, Service.load_jobs, try_except, bind, lift,
    Validate.validate_config.
  rewrite Hall. split; reflexivity.
Qed.
End SchedulerFacts.

(** C2 as stated fails.  The second of three valid jobs raises when it is
    scheduled; the whole start-up raises with it: the third job is never
    registered and nothing runs, not even the startup job listed first. *)
Lemma C2_counterexample :
  fst (Scheduler.schedule_job plain_package heartbeat_job idle)
  = inr Recurring
  /\ Scheduler.main plain_package
       [warmup_job; fortnightly_job; heartbeat_job] 60 idle
     = (inl (IntervalError
               "Scheduling weekday jobs is only allowed for weekly jobs"),
        mkSched [] []).
Proof. split; vm_compute; reflexivity. Qed.

Lemma C2_fatal_witness :
  Scheduler.schedule_all plain_package [warmup_job] [] idle
  = (inr [warmup_job], idle)
  /\ fst (Scheduler.schedule_job plain_package fortnightly_job idle)
     = inl (IntervalError
              "Scheduling weekday jobs is only allowed for weekly jobs")
  /\ Scheduler.main plain_package
       ([warmup_job] ++ fortnightly_job :: [heartbeat_job]) 60 idle
     = (inl (IntervalError
               "Scheduling weekday jobs is only allowed for weekly jobs"),
        idle).
Proof.
  assert (H1 : Scheduler.schedule_all plain_package [warmup_job] [] idle
               = (inr [warmup_job], idle)) by (vm_compute; reflexivity).
  assert (H2 : fst (Scheduler.schedule_job plain_package fortnightly_job idle)
               = inl (IntervalError
                  "Scheduling weekday jobs is only allowed for weekly jobs"))
    by (vm_compute; reflexivity).
  split; [exact H1 |]. split; [exact H2 |].
  exact (proj1 (C2_schedule_error_is_fatal plain_package [warmup_job]
                  [heartbeat_job] fortnightly_job [warmup_job] idle idle _
                  H1 H2 60%nat)).
Defined.

Lemma C3_unknown_day_witness :
  exists msg,
    Validate.validate_config (fun _ => true) [warmup_job; funday_job] true
    = inl (ValueError msg)
    /\ Service.main (fun _ => true) plain_package [warmup_job; funday_job]
         60 idle
       = (inl (ValueError msg), idle).
Proof.
  apply (C3_unknown_day_is_an_error plain_package (fun _ => true)
           [warmup_job; funday_job] funday_job
           (mkSpec (Some "weeks") (Some 1) None (Some "Funday") None)
           "Funday" 60%nat idle).
  - simpl. auto.
  - reflexivity.
  - reflexivity.
  - reflexivity.
  - vm_compute. reflexivity.
Defined.

(** Called on its own, [schedule_job] takes the weekly job on "Funday"
    and registers it with no day set. *)
Example schedule_job_alone_drops_the_day :
  Scheduler.schedule_job plain_package funday_job idle
  = (inr Recurring,
     mkSched [mkTrigger (ScheduleLib.mkJob 1 (Some "weeks") None None)
                (RunThreaded "python scripts/report.py" "weekly-report")]
             []).
Proof. vm_compute. reflexivity. Qed.

(** * Further properties *)

(** ** Watchdog: what one check does *)

Lemma saves_are_not_spawns (l : list Event) :
  forallb is_save l = true -> List.filter is_spawn l = [].
Proof.
  induction l as [| e l IH]; [reflexivity |].
  cbn [forallb]. intros H. apply andb_prop in H as [He Hl].
  destruct e; try discriminate He. cbn. exact (IH Hl).
Qed.

Lemma observations_are_not_spawns (l : list Event) :
  forallb observation l = true -> List.filter is_spawn l = [].
Proof.
  induction l as [| e l IH]; [reflexivity |].
  cbn [forallb]. intros H. apply andb_prop in H as [He Hl].
  destruct e; try discriminate He; cbn; exact (IH Hl).
Qed.

Section WatchdogChecks.
Import Watchdog.
Variable env : Env.

Lemma get_scheduler_pid_spec w :
  get_scheduler_pid w = (inr (pid_of (os w)), logged [EvReadPidFile] w).
Proof.
  unfold get_scheduler_pid, try_except, bind, emit, get_os, pid_of, logged.
  cbn. destruct (pid_file (os w)) as [[pid |] |]; reflexivity.
Qed.

Lemma is_process_running_spec pid w :
  is_process_running pid w
  = (inr (watchdog_alive (os w) pid), logged [EvProbe pid] w).
Proof.
  unfold is_process_running, psutil_cmdline, try_except, bind, emit, get_os,
    watchdog_alive, logged.
  cbn. destruct (procs (os w) !! pid) as [[cmdline |] |]; cbn;
    [destruct (contains _ _) | |]; reflexivity.
Qed.

Lemma cleanup_stale_pid_file_spec w :
  cleanup_stale_pid_file w = (inr tt, without_pid_file w).
Proof.
  unfold cleanup_stale_pid_file, unlink_pid_file, try_except, bind, get_os,
    without_pid_file, pid_file_exists.
  cbn. destruct (pid_file (os w)) as [t |] eqn:E; cbn; rewrite ?E; reflexivity.
Qed.

(** [is_in_backoff] always returns; it writes at most the cleared
    history. *)
Lemma is_in_backoff_shape h w :
  exists b h' w' saves,
    is_in_backoff env h w = (inr (b, h'), w')
    /\ forallb is_save saves = true
    /\ trace w' = trace w ++ saves
    /\ pid_file (os w') = pid_file (os w)
    /\ procs (os w') = procs (os w)
    /\ epoch w' = epoch w
    /\ (b = true -> saves = []).
Proof.
  unfold is_in_backoff, bind, datetime_now.
  destruct (backoff_until h) as [until |].
  - cbn. destruct (_ <? _); cbn.
    + exists true, h. eexists. exists []. cbn. rewrite app_nil_r. tauto.
    + exists false. eexists. eexists. exists [EvSaveHistory (mkHistory [] None)].
      cbn. split; [reflexivity |]. repeat split; discriminate.
  - exists false, h, w, []. cbn. rewrite app_nil_r. repeat split; discriminate.
Qed.

Lemma record_restart_shape h w :
  exists go h',
    record_restart env h w = (inr (go, h'), recorded h' w).
Proof.
  unfold record_restart, bind, datetime_now.
  destruct (_ <=? _)%nat; eexists _, _; reflexivity.
Qed.

(** The watchdog's [start_scheduler] always returns.  It reports [True]
    exactly when it has launched the scheduler; before that it only writes
    the restart history. *)
Lemma start_scheduler_shape w :
  exists b w' saves,
    start_scheduler env w = (inr b, w')
    /\ forallb is_save saves = true
    /\ trace w' = trace w ++ saves ++ (if b then [watchdog_launch env; EvSleep 2000] else [])
    /\ (win32 env = false -> b = false).
Proof.
  unfold start_scheduler, try_except, bind.
  rewrite load_restart_history_total.
  destruct (is_in_backoff_shape (history_of w) w)
    as (b0 & h0 & w0 & s0 & -> & Hs0 & Ht0 & _ & _ & _ & Hb0).
  destruct b0.
  { exists false, w0, []. cbn. rewrite Ht0, (Hb0 eq_refl). tauto. }
  destruct (record_restart_shape h0 w0) as (go & h1 & ->).
  destruct go; cbn [negb].
  - unfold STARTUPINFO. destruct (win32 env); cbn.
    + unfold Popen_detached. cbn. destruct (popen env (epoch w0)); cbn.
      * match goal with
        | |- context [match pid_file ?o with _ => _ end] =>
            destruct (pid_file o)
        end;
          (exists true; eexists; exists (s0 ++ [EvSaveHistory h1]);
           split; [reflexivity |]; cbn;
           rewrite forallb_app, Hs0, Ht0, <- !app_assoc; cbn;
           repeat split; discriminate).
      * exists false; eexists; exists (s0 ++ [EvSaveHistory h1]).
        split; [reflexivity |]. cbn.
        rewrite forallb_app, Hs0, Ht0, <- !app_assoc; cbn. rewrite ?app_nil_r.
        tauto.
    + exists false; eexists; exists (s0 ++ [EvSaveHistory h1]).
      split; [reflexivity |]. cbn.
      rewrite forallb_app, Hs0, Ht0, <- !app_assoc; cbn. rewrite ?app_nil_r.
      tauto.
  - exists false; eexists; exists (s0 ++ [EvSaveHistory h1]).
    split; [reflexivity |]. cbn.
    rewrite forallb_app, Hs0, Ht0, <- !app_assoc; cbn. rewrite ?app_nil_r.
    tauto.
Qed.

(** What the probe-and-restart part of a check can do. *)
Lemma probe_and_restart_shape w :
  exists b w' evs,
    probe_and_restart env w = (inr b, w')
    /\ trace w' = trace w ++ evs
    /\ (List.filter is_spawn evs = []
        \/ (b = true /\ List.filter is_spawn evs = [watchdog_launch env]))
    /\ (b = true -> List.filter is_spawn evs = [] ->
        exists pid, pid_of (os w) = Some pid
                    /\ watchdog_alive (os w) pid = true)
    /\ (win32 env = false -> List.filter is_spawn evs = []).
Proof.
  assert (Hrestart : forall pre v,
    forallb observation pre = true ->
    trace v = trace w ++ pre ->
    exists b w' evs,
      start_scheduler env (without_pid_file v) = (inr b, w')
      /\ trace w' = trace w ++ evs
      /\ (List.filter is_spawn evs = []
          \/ (b = true /\ List.filter is_spawn evs = [watchdog_launch env]))
      /\ (b = true -> List.filter is_spawn evs = [] -> False)
      /\ (win32 env = false -> List.filter is_spawn evs = [])).
  { intros pre v Hpre Hv.
    destruct (start_scheduler_shape (without_pid_file v))
      as (b & w' & saves & Hrun & Hsaves & Ht & Hwin).
    set (unl := if pid_file_exists (os v) then [EvUnlinkPidFile] else []).
    assert (Hcl : trace (without_pid_file v) = trace w ++ pre ++ unl).
    { unfold without_pid_file, unl.
      destruct (pid_file_exists (os v)); cbn; rewrite Hv;
        rewrite <- ?app_assoc, ?app_nil_r; reflexivity. }
    assert (Hunl : List.filter is_spawn unl = [])
      by (unfold unl; destruct (pid_file_exists (os v)); reflexivity).
    exists b, w',
      (pre ++ unl ++ saves
           ++ (if b then [watchdog_launch env; EvSleep 2000] else [])).
    split; [exact Hrun |]. split.
    { rewrite Ht, Hcl, <- !app_assoc. reflexivity. }
    rewrite !List.filter_app, (observations_are_not_spawns _ Hpre), Hunl,
      (saves_are_not_spawns _ Hsaves).
    destruct b; cbn.
    - split; [right; split; reflexivity |].
      split; [intros _ [=] |]. intros Hw. discriminate (Hwin Hw).
    - split; [left; reflexivity |]. split; [intros [=] | reflexivity]. }
  unfold probe_and_restart, bind.
  rewrite get_scheduler_pid_spec.
  destruct (pid_of (os w)) as [pid |] eqn:Hpid.
  - rewrite is_process_running_spec. cbn [logged os].
    destruct (watchdog_alive (os w) pid) eqn:Halive.
    + exists true. eexists. exists [EvReadPidFile; EvProbe pid].
      split; [reflexivity |]. cbn. rewrite <- app_assoc. cbn.
      split; [reflexivity |]. split; [left; reflexivity |].
      split; [| reflexivity]. intros _ _. exists pid. split; [reflexivity | exact Halive].
    + rewrite cleanup_stale_pid_file_spec.
      destruct (Hrestart [EvReadPidFile; EvProbe pid]
                  (logged [EvProbe pid] (logged [EvReadPidFile] w)) eq_refl)
        as (b & w' & evs & Hrun & Ht & Hsp & Hno & Hwin).
      { cbn. rewrite <- app_assoc. reflexivity. }
      exists b, w', evs. split; [exact Hrun |]. split; [exact Ht |].
      split; [exact Hsp |]. split; [| exact Hwin].
      intros Hb He. destruct (Hno Hb He).
  - rewrite cleanup_stale_pid_file_spec.
    destruct (Hrestart [EvReadPidFile] (logged [EvReadPidFile] w) eq_refl)
      as (b & w' & evs & Hrun & Ht & Hsp & Hno & Hwin); [reflexivity |].
    exists b, w', evs. split; [exact Hrun |]. split; [exact Ht |].
    split; [exact Hsp |]. split; [| exact Hwin].
    intros Hb He. destruct (Hno Hb He).
Qed.

Lemma check_and_restart_shape w :
  exists b w' evs,
    check_and_restart env w = (inr b, w')
    /\ trace w' = trace w ++ evs
    /\ (List.filter is_spawn evs = []
        \/ (b = true /\ List.filter is_spawn evs = [watchdog_launch env]))
    /\ (b = true -> List.filter is_spawn evs = [] ->
        exists pid, pid_of (os w) = Some pid
                    /\ watchdog_alive (os w) pid = true)
    /\ (win32 env = false -> List.filter is_spawn evs = []).
Proof.
  unfold check_and_restart, bind. rewrite load_restart_history_total.
  destruct (is_in_backoff_shape (history_of w) w)
    as (b0 & h0 & w0 & s0 & -> & Hs0 & Ht0 & Hpf & Hpr & _ & Hb0).
  destruct b0.
  - exists false, w0, []. cbn. rewrite Ht0, (Hb0 eq_refl).
    split; [reflexivity |]. split; [reflexivity |].
    split; [left; reflexivity |]. split; [intros [=] | reflexivity].
  - destruct (probe_and_restart_shape w0)
      as (b & w' & evs & Hrun & Ht & Hsp & Hlive & Hwin).
    exists b, w', (s0 ++ evs). split; [exact Hrun |].
    split; [rewrite Ht, Ht0, <- app_assoc; reflexivity |].
    rewrite List.filter_app, (saves_are_not_spawns _ Hs0). cbn [app].
    split; [exact Hsp |]. split; [| exact Hwin].
    intros Hb He. destruct (Hlive Hb He) as (pid & Hpid & Halive).
    exists pid. unfold pid_of, watchdog_alive in *.
    rewrite <- Hpf, <- Hpr. split; assumption.
Qed.

(** X1.  With a history file that is missing, that the loader fails on, or
    that holds what the watchdog itself wrote, and whatever the PID file
    and the process table hold, a watchdog check returns a verdict and
    raises nothing; it launches at most one process, and that one is the
    scheduler; and it answers [True] only when the PID file named a
    process that passed the liveness check or when it has just launched
    the scheduler.  (A history file written by another hand, with a UTC
    offset in [backoff_until], makes [is_in_backoff] raise [TypeError];
    such a file is no [HistText].) *)
Theorem watchdog_check_launches_at_most_one (w : World) :
  exists b w' evs,
    check_and_restart env w = (inr b, w')
    /\ trace w' = trace w ++ evs
    /\ (List.filter is_spawn evs = []
        \/ (b = true /\ List.filter is_spawn evs = [watchdog_launch env]))
    /\ (b = true -> List.filter is_spawn evs = [] ->
        exists pid, pid_of (os w) = Some pid
                    /\ watchdog_alive (os w) pid = true).
Proof.
  destruct (check_and_restart_shape w)
    as (b & w' & evs & Hrun & Ht & Hsp & Hlive & _).
  exists b, w', evs. tauto.
Qed.

(** X2.  On a platform without [subprocess.STARTUPINFO] the watchdog can
    observe the scheduler but never restart it: no check launches
    anything, and the answer is [True] only when the scheduler was found
    alive. *)
Theorem watchdog_never_restarts_off_windows (w : World) :
  win32 env = false ->
  exists b w' evs,
    check_and_restart env w = (inr b, w')
    /\ trace w' = trace w ++ evs
    /\ List.filter is_spawn evs = []
    /\ (b = true ->
        exists pid, pid_of (os w) = Some pid
                    /\ watchdog_alive (os w) pid = true).
Proof.
  intros Hwin.
  destruct (check_and_restart_shape w)
    as (b & w' & evs & Hrun & Ht & _ & Hlive & Hno).
  exists b, w', evs. specialize (Hno Hwin).
  split; [exact Hrun |]. split; [exact Ht |]. split; [exact Hno |].
  intros Hb. exact (Hlive Hb Hno).
Qed.

(** X3.  A check that finds the scheduler alive, with no backoff pending, only
    looks: it reads the PID file, probes that one process, answers [True]
    and writes nothing, neither the PID file nor the restart history. *)
Theorem watchdog_healthy_check_is_read_only (w : World) (pid : Z) :
  backoff_until (history_of w) = None ->
  pid_of (os w) = Some pid ->
  watchdog_alive (os w) pid = true ->
  check_and_restart env w
  = (inr true, logged [EvProbe pid] (logged [EvReadPidFile] w)).
Proof.
  intros Hb Hpid Halive.
  unfold check_and_restart, bind.
  rewrite load_restart_history_total, (is_in_backoff_unset env _ _ Hb).
  unfold probe_and_restart, bind.
  rewrite get_scheduler_pid_spec, Hpid, is_process_running_spec.
  cbn [logged os]. rewrite Halive. reflexivity.
Qed.

Lemma prune_length cutoff l : (length (prune cutoff l) <= length l)%nat.
Proof.
  unfold prune. induction l as [| x l IH]; cbn; [lia |].
  destruct (cutoff <? x); cbn; lia.
Qed.

Lemma prune_keeps_now now l : In now (prune (now - minutes 15) (l ++ [now])).
Proof.
  unfold prune. apply filter_In. split.
  - apply in_or_app. right. left. reflexivity.
  - apply Z.ltb_lt. unfold minutes. lia.
Qed.

(** The watchdog's [start_scheduler] when nothing holds it back. *)
Lemma start_scheduler_launches w child :
  backoff_until (history_of w) = None ->
  (length (restarts (history_of w)) < 4)%nat ->
  win32 env = true ->
  popen env (epoch w) = Some child ->
  let now := clock env (reads w) in
  let h' := mkHistory (prune (now - minutes 15)
                             (restarts (history_of w) ++ [now])) None in
  start_scheduler env w
  = (inr true,
     mkWorld (during_sleep env (epoch w)
                (mkOS (pid_file (os w)) (Some (HistJson h'))
                      (<[child := Inspectable [PYTHON_EXE env;
                                               SCHEDULER_SCRIPT env]]>
                         (procs (os w)))))
             (S (reads w)) (S (epoch w))
             (trace w ++ [EvSaveHistory h'; watchdog_launch env;
                          EvSleep 2000])).
Proof.
  intros Hb Hlen Hwin Hpopen now h'.
  unfold start_scheduler, try_except, bind.
  rewrite load_restart_history_total, (is_in_backoff_unset env _ _ Hb).
  rewrite record_restart_normal.
  2:{ pose proof (prune_length (clock env (reads w) - minutes 15)
                    (restarts (history_of w) ++ [clock env (reads w)])) as Hp.
      rewrite length_app in Hp. cbn in Hp. lia. }
  cbn [negb]. unfold STARTUPINFO. rewrite Hwin.
  unfold Popen_detached. cbn [ret recorded epoch]. rewrite Hpopen.
  rewrite Hb. fold now. fold h'. cbn.
  match goal with
  | |- context [match pid_file ?o with _ => _ end] => destruct (pid_file o)
  end; cbn; rewrite <- !app_assoc; reflexivity.
Qed.

(** X4.  With no backoff pending and fewer than four restarts on record, a
    check that finds the scheduler down (no PID file, an unreadable one, or
    a PID that fails the liveness check) removes the PID file, records the
    restart at the current clock reading, launches the scheduler detached
    and answers [True] after a sleep of two seconds, whether or not a PID
    file has appeared by then. *)
Theorem watchdog_restarts_dead_scheduler (w : World) (child : Z) :
  backoff_until (history_of w) = None ->
  (length (restarts (history_of w)) < 4)%nat ->
  watchdog_down (os w) = true ->
  win32 env = true ->
  popen env (epoch w) = Some child ->
  let now := clock env (reads w) in
  let h' := mkHistory (prune (now - minutes 15)
                             (restarts (history_of w) ++ [now])) None in
  let probe := match pid_of (os w) with
               | Some pid => [EvProbe pid]
               | None => []
               end in
  let unlink := if pid_file_exists (os w) then [EvUnlinkPidFile] else [] in
  exists w',
    check_and_restart env w = (inr true, w')
    /\ os w' = during_sleep env (epoch w)
                 (mkOS None (Some (HistJson h'))
                       (<[child := Inspectable [PYTHON_EXE env;
                                                SCHEDULER_SCRIPT env]]>
                          (procs (os w))))
    /\ In now (restarts h')
    /\ trace w' = trace w ++ EvReadPidFile :: probe ++ unlink
                     ++ [EvSaveHistory h'; watchdog_launch env; EvSleep 2000].
Proof.
  intros Hb Hlen Hdown Hwin Hpopen now h' probe unlink.
  assert (Hstart : forall v,
    history_file (os v) = history_file (os w) ->
    reads v = reads w -> epoch v = epoch w -> procs (os v) = procs (os w) ->
    exists w',
      start_scheduler env (without_pid_file v) = (inr true, w')
      /\ os w' = during_sleep env (epoch w)
                   (mkOS None (Some (HistJson h'))
                         (<[child := Inspectable [PYTHON_EXE env;
                                                  SCHEDULER_SCRIPT env]]>
                            (procs (os w))))
      /\ trace w' = trace v
                      ++ (if pid_file_exists (os v) then [EvUnlinkPidFile]
                          else [])
                      ++ [EvSaveHistory h'; watchdog_launch env;
                          EvSleep 2000]).
  { intros v Hh Hr He Hp.
    assert (Hhist : history_of (without_pid_file v) = history_of w).
    { unfold history_of, without_pid_file.
      destruct (pid_file_exists (os v)); cbn; rewrite Hh; reflexivity. }
    assert (Hreads : reads (without_pid_file v) = reads w).
    { unfold without_pid_file. destruct (pid_file_exists (os v)); exact Hr. }
    assert (Hepoch : epoch (without_pid_file v) = epoch w).
    { unfold without_pid_file. destruct (pid_file_exists (os v)); exact He. }
    rewrite (start_scheduler_launches (without_pid_file v) child).
    2:{ rewrite Hhist. exact Hb. }
    2:{ rewrite Hhist. exact Hlen. }
    2:{ exact Hwin. }
    2:{ rewrite Hepoch. exact Hpopen. }
    rewrite Hhist, Hreads, Hepoch. fold now. fold h'.
    eexists. split; [reflexivity |]. cbn [os trace].
    unfold without_pid_file, pid_file_exists.
    destruct (pid_file (os v)) eqn:E; cbn; rewrite ?E, Hp, <- ?app_assoc;
      split; reflexivity. }
  unfold check_and_restart, bind.
  rewrite load_restart_history_total, (is_in_backoff_unset env _ _ Hb).
  unfold probe_and_restart, bind.
  rewrite get_scheduler_pid_spec.
  unfold watchdog_down in Hdown. subst probe.
  destruct (pid_of (os w)) as [pid |] eqn:Hpid.
  - rewrite is_process_running_spec. cbn [logged os].
    apply negb_true_iff in Hdown. rewrite Hdown.
    rewrite cleanup_stale_pid_file_spec.
    destruct (Hstart (logged [EvProbe pid] (logged [EvReadPidFile] w))
                eq_refl eq_refl eq_refl eq_refl) as (w' & Hrun & Hos & Ht).
    exists w'. split; [exact Hrun |]. split; [exact Hos |].
    split; [apply prune_keeps_now |].
    rewrite Ht. cbn. rewrite <- !app_assoc. reflexivity.
  - rewrite cleanup_stale_pid_file_spec.
    destruct (Hstart (logged [EvReadPidFile] w)
                eq_refl eq_refl eq_refl eq_refl) as (w' & Hrun & Hos & Ht).
    exists w'. split; [exact Hrun |]. split; [exact Hos |].
    split; [apply prune_keeps_now |].
    rewrite Ht. cbn. rewrite <- !app_assoc. reflexivity.
Qed.

(** X5.  [watchdog.py reset] exits with 0 leaving no history file behind and
    touching nothing else, so the next check goes straight to the liveness
    probe: no backoff is pending and no earlier restart counts. *)
Theorem watchdog_reset_clears_backoff (argv0 : string) (rest : list string)
    (w : World) :
  let w' := mkWorld (mkOS (pid_file (os w)) None (procs (os w)))
                    (reads w) (epoch w) (trace w) in
  main env (argv0 :: "reset" :: rest) w = (inr 0, w')
  /\ history_of w' = empty_history
  /\ check_and_restart env w' = probe_and_restart env w'.
Proof.
  intros w'. split; [| split].
  - cbn [main String.eqb Ascii.eqb Bool.eqb].
    unfold reset, try_except, bind, get_os, put_os. cbn.
    destruct w as [[pf [hf |] pr] r e t]; reflexivity.
  - reflexivity.
  - unfold check_and_restart, bind.
    rewrite load_restart_history_total. reflexivity.
Qed.

End WatchdogChecks.

Lemma watchdog_off_windows_witness :
  win32 posix_env = false
  /\ exists b w' evs,
       Watchdog.check_and_restart posix_env reused_pid_world = (inr b, w')
       /\ trace w' = trace reused_pid_world ++ evs
       /\ List.filter is_spawn evs = []
       /\ (b = true ->
           exists pid, pid_of (os reused_pid_world) = Some pid
                       /\ watchdog_alive (os reused_pid_world) pid = true).
Proof.
  split; [reflexivity |].
  exact (watchdog_never_restarts_off_windows posix_env reused_pid_world
           eq_refl).
Defined.

Lemma watchdog_healthy_witness :
  backoff_until (history_of protected_pid_world) = None
  /\ pid_of (os protected_pid_world) = Some 4
  /\ watchdog_alive (os protected_pid_world) 4 = true
  /\ Watchdog.check_and_restart thrash_env protected_pid_world
     = (inr true,
        logged [EvProbe 4] (logged [EvReadPidFile] protected_pid_world)).
Proof.
  assert (Halive : watchdog_alive (os protected_pid_world) 4 = true)
    by (vm_compute; reflexivity).
  split; [reflexivity |]. split; [reflexivity |]. split; [exact Halive |].
  exact (watchdog_healthy_check_is_read_only thrash_env protected_pid_world 4
           eq_refl eq_refl Halive).
Defined.

Lemma watchdog_restart_witness :
  backoff_until (history_of reused_pid_world) = None
  /\ (length (restarts (history_of reused_pid_world)) < 4)%nat
  /\ watchdog_down (os reused_pid_world) = true
  /\ win32 thrash_env = true
  /\ popen thrash_env (epoch reused_pid_world) = Some 4242
  /\ exists w',
       Watchdog.check_and_restart thrash_env reused_pid_world = (inr true, w')
       /\ pid_file (os w') = None
       /\ In EvUnlinkPidFile (trace w')
       /\ In (watchdog_launch thrash_env) (trace w').
Proof.
  assert (Hlen : (length (restarts (history_of reused_pid_world)) < 4)%nat)
    by (vm_compute; lia).
  assert (Hdown : watchdog_down (os reused_pid_world) = true)
    by (vm_compute; reflexivity).
  split; [reflexivity |]. split; [exact Hlen |]. split; [exact Hdown |].
  split; [reflexivity |]. split; [reflexivity |].
  destruct (watchdog_restarts_dead_scheduler thrash_env reused_pid_world 4242
              eq_refl Hlen Hdown eq_refl eq_refl)
    as (w' & Hrun & Hos & _ & Ht).
  exists w'. split; [exact Hrun |].
  split; [rewrite Hos; reflexivity |].
  rewrite Ht. split.
  - apply in_or_app. right. right. right. left. reflexivity.
  - apply in_or_app. right. do 4 right. left. reflexivity.
Defined.

(** ** Starting the scheduler: the supervisor and the watchdog *)

Section StartOperations.
Variable env : Env.

(** C7, amended.  The supervisor's [start_scheduler]: when the PID file
    names a scheduler that passes the liveness check, it reports success
    with that PID and does nothing but look.  Otherwise it removes the PID file if
    there is one and spawns the scheduler detached; when the spawn fails
    it reports failure at once.  After the spawn it sleeps half a second
    and looks for the PID file, again and again, and stops at the first
    look that finds the file or after the tenth; then it reads the PID
    file, and reports success exactly when it holds a PID that passes the
    liveness check, so it reports failure when the file never appeared.
    The watchdog's [start_scheduler] neither looks whether the scheduler
    is running nor polls: it reports success exactly when it has launched
    the scheduler, after one sleep of two seconds. *)
Theorem C7_start_scheduler (w : World) :
  (already_running env (os w) = true ->
   exists msg pid w' probes,
     Core.start_scheduler env w = (inr (true, msg, Some pid), w')
     /\ pid_of (os w) = Some pid
     /\ os w' = os w
     /\ trace w' = trace w ++ probes
     /\ forallb observation probes = true)
  /\ (already_running env (os w) = false ->
      match popen env (epoch w) with
      | None =>
          exists msg w' probes,
            Core.start_scheduler env w = (inr (false, msg, None), w')
            /\ pid_file (os w') = None
            /\ trace w'
               = trace w ++ probes
                   ++ (if pid_file_exists (os w) then [EvUnlinkPidFile]
                       else [])
            /\ forallb observation probes = true
      | Some child =>
          let o := spawned env (os w) child in
          exists ok msg pid w' probes polls rest,
            Core.start_scheduler env w = (inr (ok, msg, pid), w')
            /\ trace w'
               = trace w ++ probes
                   ++ (if pid_file_exists (os w) then [EvUnlinkPidFile]
                       else [])
                   ++ [EvSpawn [launcher env; SCHEDULER_SCRIPT env] true]
                   ++ repeat (EvSleep 500) polls ++ rest
            /\ forallb observation probes = true
            /\ forallb observation rest = true
            /\ (1 <= polls <= 10)%nat
            /\ (forall j, (1 <= j < polls)%nat ->
                          pid_file (after_sleeps env j (epoch w) o) = None)
            /\ ((polls < 10)%nat ->
                pid_file (after_sleeps env polls (epoch w) o) <> None)
            /\ os w' = after_sleeps env polls (epoch w) o
            /\ ok = passes env (os w') (pid_of (os w'))
            /\ (pid_file (os w') = None -> ok = false)
            /\ (ok = true -> pid = pid_of (os w'))
            /\ (ok = false ->
                msg = "Scheduler failed to start - check logs"
                /\ pid = None)
      end)
  /\ (exists b w' saves,
        Watchdog.start_scheduler env w = (inr b, w')
        /\ forallb is_save saves = true
        /\ trace w'
           = trace w ++ saves
               ++ (if b then [watchdog_launch env; EvSleep 2000] else [])).
Proof.
  split; [| split].
  - intros Hrun. unfold already_running in Hrun.
    unfold Core.start_scheduler, bind. rewrite get_pid_spec.
    destruct (pid_and_is_running_spec env (pid_of (os w))
                (logged [EvReadPidFile] w))
      as (evs & w1 & -> & Hos1 & Hep1 & Htr1 & Hobs1).
    cbn [logged os epoch trace] in *. rewrite Hrun.
    destruct (pid_of (os w)) as [pid |] eqn:Hpid; [| discriminate].
    exists ("Scheduler is already running (PID: "
              ++ str_int pid ++ ")")%string, pid, w1,
      (EvReadPidFile :: evs).
    split; [reflexivity |]. split; [reflexivity |]. split; [exact Hos1 |].
    split; [| exact Hobs1]. rewrite Htr1, <- app_assoc. reflexivity.
  - intros Hrun. unfold already_running in Hrun.
    unfold Core.start_scheduler, bind. rewrite get_pid_spec.
    destruct (pid_and_is_running_spec env (pid_of (os w))
                (logged [EvReadPidFile] w))
      as (evs & w1 & -> & Hos1 & Hep1 & Htr1 & Hobs1).
    cbn [logged os epoch trace] in *. rewrite Hrun.
    rewrite unlink_if_exists_exact.
    assert (Hw2 : exists w2,
               without_pid_file w1 = w2
               /\ os w2 = mkOS None (history_file (os w)) (procs (os w))
               /\ epoch w2 = epoch w
               /\ trace w2
                  = trace w ++ (EvReadPidFile :: evs)
                      ++ (if pid_file_exists (os w) then [EvUnlinkPidFile]
                          else [])).
    { eexists. split; [reflexivity |].
      unfold without_pid_file, pid_file_exists. rewrite Hos1.
      destruct (pid_file (os w)) eqn:E; cbn [os epoch trace].
      - rewrite Htr1, <- !app_assoc. auto.
      - rewrite Hos1, Hep1, Htr1, <- !app_assoc, app_nil_r.
        destruct (os w); cbn in *. subst. auto. }
    destruct Hw2 as (w2 & -> & Hos2 & Hep2 & Htr2).
    assert (Hexe : (if win32 env
                    then Popen_detached env
                           match pythonw env with
                           | Some p => p
                           | None => PYTHON_EXE env
                           end
                    else Popen_detached env (PYTHON_EXE env))
                   = Popen_detached env (launcher env)).
    { unfold launcher. destruct (win32 env); reflexivity. }
    unfold try_except, bind. rewrite Hexe. unfold Popen_detached.
    rewrite Hep2.
    destruct (popen env (epoch w)) as [child |].
    + cbv zeta. rewrite Hos2. cbn [pid_file history_file procs].
      match goal with
      | |- context [Core.wait_for_pid_file env 10 ?v] =>
          destruct (wait_for_pid_file_polls env 10 v)
            as (k & -> & Hk & Hpos & Hnone & Hsome & _)
      end.
      cbn [os reads epoch trace] in *. fold (spawned env (os w) child) in *.
      rewrite get_pid_spec.
      match goal with
      | |- context [Core.pid_and_is_running env ?p ?v] =>
          destruct (pid_and_is_running_spec env p v)
            as (evs' & w4 & -> & Hos4 & Hep4 & Htr4 & Hobs4)
      end.
      cbn [logged os epoch trace] in *.
      set (o := after_sleeps env k (epoch w) (spawned env (os w) child)) in *.
      assert (Htrace : trace w4
                = trace w ++ (EvReadPidFile :: evs)
                    ++ (if pid_file_exists (os w)
                        then [EvUnlinkPidFile] else [])
                    ++ [EvSpawn [launcher env; SCHEDULER_SCRIPT env] true]
                    ++ repeat (EvSleep 500) k ++ EvReadPidFile :: evs').
      { rewrite Htr4, Htr2, <- !app_assoc. reflexivity. }
      assert (Hgone : pid_file o = None -> passes env o (pid_of o) = false).
      { intros Hgone. unfold pid_of. rewrite Hgone. reflexivity. }
      destruct (passes env o (pid_of o)) eqn:Hpass.
      * eexists true, _, _, w4, (EvReadPidFile :: evs), k,
          (EvReadPidFile :: evs').
        split; [reflexivity |]. split; [exact Htrace |].
        split; [exact Hobs1 |]. split; [exact Hobs4 |].
        split; [lia |]. split; [exact Hnone |]. split; [exact Hsome |].
        split; [exact Hos4 |]. rewrite Hos4.
        split; [symmetry; exact Hpass |]. split; [exact Hgone |].
        split; [reflexivity | discriminate].
      * eexists false, _, _, w4, (EvReadPidFile :: evs), k,
          (EvReadPidFile :: evs').
        split; [reflexivity |]. split; [exact Htrace |].
        split; [exact Hobs1 |]. split; [exact Hobs4 |].
        split; [lia |]. split; [exact Hnone |]. split; [exact Hsome |].
        split; [exact Hos4 |]. rewrite Hos4.
        split; [symmetry; exact Hpass |]. split; [reflexivity |].
        split; [discriminate | auto].
    + eexists _, w2, (EvReadPidFile :: evs).
      split; [reflexivity |]. rewrite Hos2.
      split; [reflexivity |]. split; [exact Htr2 | exact Hobs1].
  - destruct (start_scheduler_shape env w)
      as (b & w' & saves & Hrun & Hsaves & Htr & _).
    exists b, w', saves. auto.
Qed.
End StartOperations.

(** C7 as stated fails for the watchdog's [start_scheduler].  A check
    that finds no PID file hands over to it; the scheduler it launches
    never writes its PID file; after a single sleep of two seconds it
    reports success all the same, and so does the check. *)
Lemma C7_watchdog_counterexample :
  (exists w',
     Watchdog.start_scheduler thrash_env empty_world = (inr true, w')
     /\ pid_file (os w') = None
     /\ trace w'
        = [EvSaveHistory (mkHistory [0] None);
           watchdog_launch thrash_env; EvSleep 2000])
  /\ (exists w',
        Watchdog.check_and_restart thrash_env empty_world = (inr true, w')
        /\ pid_file (os w') = None
        /\ trace w'
           = [EvReadPidFile; EvSaveHistory (mkHistory [0] None);
              watchdog_launch thrash_env; EvSleep 2000]).
Proof.
  split; eexists; (split; [vm_compute; reflexivity |]);
    split; vm_compute; reflexivity.
Qed.

(** ** Process supervisor: stopping a live scheduler *)

Section SupervisorStop.
Variable env : Env.
Hypothesis has_psutil : HAS_PSUTIL env = true.

(** Every path of [stop_scheduler] through a scheduler that passes the
    liveness check. *)
Lemma stop_scheduler_alive w pid :
  pid_of (os w) = Some pid ->
  alive (os w) pid = true ->
  Core.stop_scheduler env w
  = match on_terminate env pid with
    | ExitsInTime =>
        (inr (true, "Scheduler stopped"), stopped w pid [EvTerminate pid])
    | Hangs =>
        match on_kill env pid with
        | ExitsInTime =>
            (inr (true, "Scheduler stopped"),
             stopped w pid [EvTerminate pid; EvKill pid])
        | Hangs =>
            (inr (false, ("Failed to stop: " ++ str_exn TimeoutExpired)%string),
             logged [EvReadPidFile; EvProbe pid; EvTerminate pid; EvKill pid]
                    w)
        | AlreadyGone =>
            (inr (true, "Scheduler already stopped"),
             mkWorld (mkOS None (history_file (os w)) (procs (os w)))
                     (reads w) (epoch w)
                     (trace w ++ [EvReadPidFile; EvProbe pid; EvTerminate pid;
                                  EvUnlinkPidFile]))
        | Refused =>
            (inr (false, ("Failed to stop: " ++ str_exn AccessDenied)%string),
             logged [EvReadPidFile; EvProbe pid; EvTerminate pid] w)
        end
    | AlreadyGone =>
        (inr (true, "Scheduler already stopped"),
         mkWorld (mkOS None (history_file (os w)) (procs (os w)))
                 (reads w) (epoch w)
                 (trace w ++ [EvReadPidFile; EvProbe pid; EvUnlinkPidFile]))
    | Refused =>
        (inr (false, ("Failed to stop: " ++ str_exn AccessDenied)%string),
         logged [EvReadPidFile; EvProbe pid] w)
    end.
Proof.
  intros Hpid Halive.
  assert (Hfile : pid_file (os w) = Some (PidInt pid)).
  { unfold pid_of in Hpid.
    destruct (pid_file (os w)) as [[q |] |]; congruence. }
  assert (Hproc : exists entry, procs (os w) !! pid = Some entry).
  { unfold alive in Halive. destruct (procs (os w) !! pid); eauto.
    discriminate. }
  destruct Hproc as [entry Hproc].
  unfold Core.stop_scheduler. rewrite has_psutil. cbn [negb].
  unfold bind at 1. rewrite get_pid_spec, Hpid.
  unfold bind at 1. rewrite (is_running_spec env pid _ has_psutil).
  cbn [logged os]. rewrite Halive. cbn [negb].
  unfold logged, stopped, Core.psutil_Process, Core.signal_and_wait,
    Core.unlink_if_exists, Core.try_unlink, unlink_pid_file.
  unfold try_except, bind, get_os, put_os, emit, raise, ret.
  cbn [os reads epoch trace pid_file history_file procs].
  rewrite Hproc.
  destruct (on_terminate env pid); [| destruct (on_kill env pid) | |];
    repeat (progress (cbn [os reads epoch trace pid_file history_file procs];
                      rewrite ?Hfile));
    rewrite <- ?app_assoc; reflexivity.
Qed.

Lemma stop_scheduler_no_pid w :
  pid_of (os w) = None ->
  Core.stop_scheduler env w
  = (inr (true, "Scheduler is not running (no PID file)"),
     logged [EvReadPidFile] w).
Proof.
  intros Hpid. unfold Core.stop_scheduler. rewrite has_psutil. cbn [negb].
  unfold bind. rewrite get_pid_spec, Hpid. reflexivity.
Qed.

Lemma stop_scheduler_stale w pid :
  pid_of (os w) = Some pid ->
  alive (os w) pid = false ->
  Core.stop_scheduler env w
  = (inr (true,
          ("Scheduler is not running (stale PID: "
             ++ str_int pid ++ ")")%string),
     mkWorld (mkOS None (history_file (os w)) (procs (os w)))
             (reads w) (epoch w)
             (trace w ++ [EvReadPidFile; EvProbe pid; EvUnlinkPidFile])).
Proof.
  intros Hpid Hdead.
  assert (Hfile : pid_file (os w) = Some (PidInt pid)).
  { unfold pid_of in Hpid.
    destruct (pid_file (os w)) as [[q |] |]; congruence. }
  unfold Core.stop_scheduler. rewrite has_psutil. cbn [negb].
  unfold bind at 1. rewrite get_pid_spec, Hpid.
  unfold bind at 1. rewrite (is_running_spec env pid _ has_psutil).
  cbn [logged os]. rewrite Hdead. cbn [negb].
  unfold Core.try_unlink, try_except, unlink_pid_file, bind, get_os,
    put_os, emit. cbn. rewrite Hfile. cbn.
  rewrite <- !app_assoc. reflexivity.
Qed.

(** X6.  Stopping a scheduler that passes the liveness check: a termination
    request first; the kill only when the process has not gone within the
    wait; once the process has gone it is out of the process table and the
    PID file is removed.  When it survives the kill as well, the failure
    is reported and the PID file stays. *)
Theorem stop_scheduler_terminates_then_kills (w : World) (pid : Z) :
  pid_of (os w) = Some pid ->
  alive (os w) pid = true ->
  (on_terminate env pid = ExitsInTime ->
   Core.stop_scheduler env w
   = (inr (true, "Scheduler stopped"), stopped w pid [EvTerminate pid]))
  /\ (on_terminate env pid = Hangs ->
      on_kill env pid = ExitsInTime ->
      Core.stop_scheduler env w
      = (inr (true, "Scheduler stopped"),
         stopped w pid [EvTerminate pid; EvKill pid]))
  /\ (on_terminate env pid = Hangs ->
      on_kill env pid = Hangs ->
      exists msg,
        Core.stop_scheduler env w
        = (inr (false, msg),
           logged [EvReadPidFile; EvProbe pid; EvTerminate pid; EvKill pid]
                  w)).
Proof.
  intros Hpid Halive. rewrite (stop_scheduler_alive w pid Hpid Halive).
  split; [| split].
  - intros ->. reflexivity.
  - intros -> ->. reflexivity.
  - intros -> ->. eexists. reflexivity.
Qed.

Ltac which_event H :=
  cbn in H;
  repeat (destruct H as [H | H];
          [first [discriminate H | injection H as <-] |]);
  try contradiction.

(** X7.  With [psutil] at hand and a PID file that holds no negative
    number, [stop_scheduler] returns and raises nothing, whatever else the
    PID file and the process table hold, and never touches the restart
    history.  A reported success leaves no PID file that names a PID.  A
    failure means that the scheduler named by the PID file passed the
    liveness check and then either the termination request was refused,
    or it was not honoured in time and the kill was refused or not
    honoured in time either; nothing was changed then.  Only the PID of
    the PID file is ever signalled, only after it passed the liveness
    check, and it is killed only after a termination request that it did
    not honour in time. *)
Theorem stop_scheduler_outcome (w : World) :
  sane (os w) ->
  exists ok msg w' evs,
    Core.stop_scheduler env w = (inr (ok, msg), w')
    /\ trace w' = trace w ++ evs
    /\ history_file (os w') = history_file (os w)
    /\ (ok = true -> pid_of (os w') = None)
    /\ (ok = false ->
        os w' = os w
        /\ exists pid, pid_of (os w) = Some pid
                       /\ alive (os w) pid = true
                       /\ (on_terminate env pid = Refused
                           \/ on_terminate env pid = Hangs
                              /\ (on_kill env pid = Hangs
                                  \/ on_kill env pid = Refused)))
    /\ (forall p, In (EvTerminate p) evs ->
                  pid_of (os w) = Some p /\ alive (os w) p = true)
    /\ (forall p, In (EvKill p) evs ->
                  on_terminate env p = Hangs
                  /\ exists pre post,
                       evs = pre ++ EvTerminate p :: post
                       /\ In (EvKill p) post).
Proof.
  intros _.
  destruct (pid_of (os w)) as [pid |] eqn:Hpid.
  2:{ rewrite (stop_scheduler_no_pid w Hpid).
      eexists _, _, _, [EvReadPidFile]. split; [reflexivity |].
      split; [reflexivity |]. split; [reflexivity |].
      split; [intros _; exact Hpid |]. split; [discriminate |].
      split; intros p Hin; which_event Hin. }
  destruct (alive (os w) pid) eqn:Halive.
  2:{ rewrite (stop_scheduler_stale w pid Hpid Halive).
      eexists _, _, _, [EvReadPidFile; EvProbe pid; EvUnlinkPidFile].
      split; [reflexivity |]. split; [reflexivity |].
      split; [reflexivity |]. split; [reflexivity |].
      split; [discriminate |].
      split; intros p Hin; which_event Hin. }
  rewrite (stop_scheduler_alive w pid Hpid Halive).
  destruct (on_terminate env pid) eqn:Hterm;
    [| destruct (on_kill env pid) eqn:Hkill | |].
  - eexists _, _, _,
      [EvReadPidFile; EvProbe pid; EvTerminate pid; EvUnlinkPidFile].
    split; [reflexivity |]. split; [reflexivity |].
    split; [reflexivity |]. split; [reflexivity |].
    split; [discriminate |].
    split; intros p Hin; which_event Hin. split; [reflexivity | exact Halive].
  - eexists _, _, _,
      [EvReadPidFile; EvProbe pid; EvTerminate pid; EvKill pid;
       EvUnlinkPidFile].
    split; [reflexivity |]. split; [reflexivity |].
    split; [reflexivity |]. split; [reflexivity |].
    split; [discriminate |].
    split; intros p Hin; which_event Hin.
    + split; [reflexivity | exact Halive].
    + split; [exact Hterm |].
      exists [EvReadPidFile; EvProbe pid], [EvKill pid; EvUnlinkPidFile].
      split; [reflexivity | left; reflexivity].
  - eexists _, _, _,
      [EvReadPidFile; EvProbe pid; EvTerminate pid; EvKill pid].
    split; [reflexivity |]. split; [reflexivity |].
    split; [reflexivity |]. split; [discriminate |].
    split.
    { intros _. split; [reflexivity |]. exists pid.
      split; [reflexivity |]. split; [exact Halive |].
      right; split; [exact Hterm | left; exact Hkill]. }
    split; intros p Hin; which_event Hin.
    + split; [reflexivity | exact Halive].
    + split; [exact Hterm |].
      exists [EvReadPidFile; EvProbe pid], [EvKill pid].
      split; [reflexivity | left; reflexivity].
  - eexists _, _, _,
      [EvReadPidFile; EvProbe pid; EvTerminate pid; EvUnlinkPidFile].
    split; [reflexivity |]. split; [reflexivity |].
    split; [reflexivity |]. split; [reflexivity |].
    split; [discriminate |].
    split; intros p Hin; which_event Hin. split; [reflexivity | exact Halive].
  - eexists _, _, _, [EvReadPidFile; EvProbe pid; EvTerminate pid].
    split; [reflexivity |]. split; [reflexivity |].
    split; [reflexivity |]. split; [discriminate |].
    split.
    { intros _. split; [reflexivity |]. exists pid.
      split; [reflexivity |]. split; [exact Halive |].
      right; split; [exact Hterm | right; exact Hkill]. }
    split; intros p Hin; which_event Hin.
    split; [reflexivity | exact Halive].
  - eexists _, _, _, [EvReadPidFile; EvProbe pid; EvUnlinkPidFile].
    split; [reflexivity |]. split; [reflexivity |].
    split; [reflexivity |]. split; [reflexivity |].
    split; [discriminate |].
    split; intros p Hin; which_event Hin.
  - eexists _, _, _, [EvReadPidFile; EvProbe pid].
    split; [reflexivity |]. split; [reflexivity |].
    split; [reflexivity |]. split; [discriminate |].
    split.
    { intros _. split; [reflexivity |]. exists pid.
      split; [reflexivity |]. split; [exact Halive |].
      left; exact Hterm. }
    split; intros p Hin; which_event Hin.
Qed.

End SupervisorStop.

Lemma stop_outcome_witness :
  HAS_PSUTIL refusing_env = true
  /\ sane (os running_world)
  /\ exists ok msg w' evs,
       Core.stop_scheduler refusing_env running_world = (inr (ok, msg), w')
       /\ trace w' = trace running_world ++ evs
       /\ (ok = true -> pid_of (os w') = None)
       /\ (ok = false ->
           os w' = os running_world
           /\ exists pid,
                pid_of (os running_world) = Some pid
                /\ alive (os running_world) pid = true
                /\ (on_terminate refusing_env pid = Refused
                    \/ on_terminate refusing_env pid = Hangs
                       /\ (on_kill refusing_env pid = Hangs
                           \/ on_kill refusing_env pid = Refused)))
       /\ (forall p, In (EvTerminate p) evs ->
                     pid_of (os running_world) = Some p
                     /\ alive (os running_world) p = true).
Proof.
  assert (Hsane : sane (os running_world)).
  { intros pid Hpid. vm_compute in Hpid. injection Hpid as <-. lia. }
  split; [reflexivity |]. split; [exact Hsane |].
  destruct (stop_scheduler_outcome refusing_env eq_refl running_world Hsane)
    as (ok & msg & w' & evs & Hrun & Ht & _ & Hok & Hfail & Hterm & _).
  exists ok, msg, w', evs. auto.
Defined.

Lemma stop_escalation_witness :
  HAS_PSUTIL thrash_env = true
  /\ pid_of (os running_world) = Some 4242
  /\ alive (os running_world) 4242 = true
  /\ on_terminate thrash_env 4242 = ExitsInTime
  /\ Core.stop_scheduler thrash_env running_world
     = (inr (true, "Scheduler stopped"),
        stopped running_world 4242 [EvTerminate 4242]).
Proof.
  assert (Halive : alive (os running_world) 4242 = true)
    by (vm_compute; reflexivity).
  split; [reflexivity |]. split; [reflexivity |]. split; [exact Halive |].
  split; [reflexivity |].
  exact (proj1 (stop_scheduler_terminates_then_kills thrash_env eq_refl
                  running_world 4242 eq_refl Halive) eq_refl).
Defined.

(** ** Process supervisor: restart and start *)

Section SupervisorRestart.
Variable env : Env.

(** X8.  A scheduler that survives both the termination request and the kill
    is not replaced: [restart_scheduler] reports the failure of the stop,
    launches nothing and leaves the PID file and the process table as they
    were. *)
Theorem restart_scheduler_gives_up_when_stop_fails (w : World) (pid : Z) :
  HAS_PSUTIL env = true ->
  pid_of (os w) = Some pid ->
  alive (os w) pid = true ->
  on_terminate env pid = Hangs ->
  on_kill env pid = Hangs ->
  exists msg,
    Core.restart_scheduler env w
    = (inr (false, msg, None),
       logged [EvReadPidFile; EvProbe pid; EvTerminate pid; EvKill pid] w).
Proof.
  intros Hps Hpid Halive Hterm Hkill.
  unfold Core.restart_scheduler, bind.
  rewrite (stop_scheduler_alive env Hps w pid Hpid Halive), Hterm, Hkill.
  eexists. reflexivity.
Qed.

Lemma passes_true o pid :
  passes env o pid = true ->
  exists p, pid = Some p /\ p <> 0
            /\ (if HAS_PSUTIL env then alive o p else pid_file_exists o)
               = true.
Proof.
  unfold passes. destruct pid as [p |]; [| discriminate].
  intros H. apply andb_prop in H as [Hnz Hck].
  exists p. split; [reflexivity |]. split; [| exact Hck].
  apply negb_true_iff, Z.eqb_neq in Hnz. exact Hnz.
Qed.

(** X9.  A success reported by the supervisor's [start_scheduler] is a
    verified one: the PID it returns is the one the PID file holds at that
    moment, it is not 0, and it has just passed the liveness check (with
    [psutil], a live process whose command line mentions [scheduler.py];
    without it, the mere existence of the PID file). *)
Theorem start_scheduler_success_is_verified
    (w w' : World) (msg : string) (pid : option Z) :
  Core.start_scheduler env w = (inr (true, msg, pid), w') ->
  exists p,
    pid = Some p
    /\ pid_of (os w') = Some p
    /\ p <> 0
    /\ (if HAS_PSUTIL env then alive (os w') p
        else pid_file_exists (os w')) = true.
Proof.
  unfold Core.start_scheduler, bind. rewrite get_pid_spec.
  destruct (pid_and_is_running_spec env (pid_of (os w))
              (logged [EvReadPidFile] w))
    as (evs & w1 & -> & Hos1 & _ & _ & _).
  cbn [logged os] in *.
  destruct (passes env (os w) (pid_of (os w))) eqn:Hpass.
  - intros [= <- <- <-]. rewrite Hos1.
    destruct (passes_true _ _ Hpass) as (p & Hp & Hnz & Hck).
    exists p. rewrite Hp. auto.
  - destruct (unlink_if_exists_spec w1) as (w2 & -> & _ & _ & _).
    unfold try_except, bind.
    match goal with
    | |- context [(if win32 env then ?a else ?b) w2] =>
        destruct ((if win32 env then a else b) w2) as [[e | child] w3]
    end; [intros [=] |].
    destruct (wait_for_pid_file_spec env 10 w3) as (k & w4 & -> & _ & _).
    rewrite get_pid_spec.
    destruct (pid_and_is_running_spec env (pid_of (os w4))
                (logged [EvReadPidFile] w4))
      as (evs' & w5 & -> & Hos5 & _ & _ & _).
    cbn [logged os] in *.
    destruct (passes env (os w4) (pid_of (os w4))) eqn:Hpass';
      [| intros [=]].
    intros [= <- <- <-]. rewrite Hos5.
    destruct (passes_true _ _ Hpass') as (p & Hp & Hnz & Hck).
    exists p. rewrite Hp. auto.
Qed.

End SupervisorRestart.

Lemma restart_gives_up_witness :
  HAS_PSUTIL stubborn_env = true
  /\ pid_of (os running_world) = Some 4242
  /\ alive (os running_world) 4242 = true
  /\ on_terminate stubborn_env 4242 = Hangs
  /\ on_kill stubborn_env 4242 = Hangs
  /\ exists msg,
       Core.restart_scheduler stubborn_env running_world
       = (inr (false, msg, None),
          logged [EvReadPidFile; EvProbe 4242; EvTerminate 4242; EvKill 4242]
                 running_world).
Proof.
  assert (Halive : alive (os running_world) 4242 = true)
    by (vm_compute; reflexivity).
  split; [reflexivity |]. split; [reflexivity |]. split; [exact Halive |].
  split; [reflexivity |]. split; [reflexivity |].
  exact (restart_scheduler_gives_up_when_stop_fails stubborn_env
           running_world 4242 eq_refl eq_refl Halive eq_refl eq_refl).
Defined.

Lemma start_success_witness :
  let w' := snd (Core.start_scheduler prompt_env empty_world) in
  Core.start_scheduler prompt_env empty_world
  = (inr (true, "Scheduler started (PID: 4242)", Some 4242), w')
  /\ exists p,
       Some 4242 = Some p
       /\ pid_of (os w') = Some p
       /\ p <> 0
       /\ (if HAS_PSUTIL prompt_env then alive (os w') p
           else pid_file_exists (os w')) = true.
Proof.
  intros w'.
  assert (Hrun : Core.start_scheduler prompt_env empty_world
                 = (inr (true, "Scheduler started (PID: 4242)", Some 4242),
                    w'))
    by (vm_compute; reflexivity).
  split; [exact Hrun |].
  exact (start_scheduler_success_is_verified prompt_env empty_world w'
           "Scheduler started (PID: 4242)" (Some 4242) Hrun).
Defined.

(** ** Command executor: what the result record says *)

Section ExecutorResults.
Variable env : Env.


End ExecutorResults.


(** ** Scheduling loop: what runs, and when *)

Section SchedulerRuns.
Import ScheduleLib Scheduler.
Variable pkg : Package.

Lemma fire_all_spec tick ts s :
  exists added,
    fire_all pkg tick ts s
    = (inr tt, mkSched (registry s) (threads s ++ added))
    /\ forall command name,
         In (command, name) added
         <-> exists t, In t ts /\ launched_by pkg tick t command name.
Proof.
  revert s. induction ts as [| t ts IH]; intros s.
  - exists []. cbn. rewrite app_nil_r. destruct s. split; [reflexivity |].
    intros c n. split; [intros [] | intros (t & [] & _)].
  - cbn [fire_all]. unfold bind.
    assert (Hone : exists one,
      (if due pkg tick t then fire pkg tick t else ret tt) s
      = (inr tt, mkSched (registry s) (threads s ++ one))
      /\ forall c n, In (c, n) one <-> launched_by pkg tick t c n).
    { unfold launched_by, fire, run_monthly_job, run_threaded.
      destruct (due pkg tick t).
      - destruct (t_action t) as [c0 n0 | c0 n0 d0].
        + exists [(c0, n0)]. split; [reflexivity |]. intros c n. cbn. split.
          * intros [[= <- <-] | []]. split; [reflexivity | left; reflexivity].
          * intros [_ [[= <- <-] | (d & [=] & _)]]. left. reflexivity.
        + destruct (Z.eqb_spec (today pkg tick) d0) as [Hd | Hd].
          * exists [(c0, n0)]. split; [reflexivity |]. intros c n. cbn. split.
            -- intros [[= <- <-] | []]. split; [reflexivity |].
               right. exists d0. split; [reflexivity | exact Hd].
            -- intros [_ [[=] | (d & [= <- <- <-] & _)]]. left. reflexivity.
          * exists []. cbn. rewrite app_nil_r. destruct s.
            split; [reflexivity |]. intros c n. split; [intros [] |].
            intros [_ [[=] | (d & [= <- <- <-] & Hd')]]. contradiction.
      - exists []. cbn. rewrite app_nil_r. destruct s.
        split; [reflexivity |]. intros c n. split; [intros [] |].
        intros [[=] _]. }
    destruct Hone as (one & -> & Hone).
    destruct (IH (mkSched (registry s) (threads s ++ one)))
      as (more & -> & Hmore).
    exists (one ++ more). cbn [registry threads]. rewrite <- app_assoc.
    split; [reflexivity |].
    intros c n. rewrite in_app_iff, Hone, Hmore. split.
    + intros [H | (t' & Hin & H)]; [exists t | exists t']; cbn; auto.
    + intros (t' & [<- | Hin] & H); [left; exact H | right; eauto].
Qed.

Lemma loop_total n tick s :
  exists s', loop pkg n tick s = (inr tt, s').
Proof.
  revert tick s. induction n as [| n IH]; intros tick s; [cbn; eauto |].
  cbn [loop]. unfold bind, run_pending.
  destruct (fire_all_spec tick (registry s) s) as (added & -> & _).
  apply IH.
Qed.

(** With no job registered the loop does nothing. *)
Lemma loop_idle n tick th :
  loop pkg n tick (mkSched [] th) = (inr tt, mkSched [] th).
Proof.
  revert tick. induction n as [| n IH]; intros tick; [reflexivity |].
  cbn [loop]. unfold bind, run_pending. cbn. apply IH.
Qed.

(** X11.  The scheduling loop never raises and never changes the list of
    registered jobs; it only starts threads, and over [n] rounds it starts
    a thread for a command exactly when, at one of these rounds, a
    registered job for that command is due and, if the job is a monthly
    one, the day of the month is the job's day. *)
Theorem loop_runs_exactly_the_due_jobs (n tick : nat) (s : Sched) :
  exists added,
    loop pkg n tick s = (inr tt, mkSched (registry s) (threads s ++ added))
    /\ forall command name,
         In (command, name) added
         <-> exists t k,
               In t (registry s) /\ (tick <= k < tick + n)%nat
               /\ launched_by pkg k t command name.
Proof.
  revert tick s. induction n as [| n IH]; intros tick s.
  - exists []. cbn. rewrite app_nil_r. destruct s. split; [reflexivity |].
    intros c nm. split; [intros [] | intros (t & k & _ & Hk & _); lia].
  - cbn [loop]. unfold bind, run_pending.
    destruct (fire_all_spec tick (registry s) s) as (now_ & -> & Hnow).
    destruct (IH (S tick) (mkSched (registry s) (threads s ++ now_)))
      as (later & -> & Hlater).
    exists (now_ ++ later). cbn [registry threads]. rewrite <- app_assoc.
    split; [reflexivity |].
    intros c nm. rewrite in_app_iff, Hnow, Hlater. split.
    + intros [(t & Hin & H) | (t & k & Hin & Hk & H)].
      * exists t, tick. split; [exact Hin |]. split; [lia | exact H].
      * exists t, k. split; [exact Hin |]. split; [lia | exact H].
    + intros (t & k & Hin & Hk & H).
      destruct (Nat.eq_dec k tick) as [-> | Hne].
      * left. eauto.
      * right. exists t, k. split; [exact Hin |]. split; [lia | exact H].
Qed.

Lemma schedule_job_disabled job s :
  j_enabled job = Some false ->
  schedule_job pkg job s = (inr Disabled, s).
Proof.
  intros Hen. unfold schedule_job, try_except. cbv zeta. rewrite Hen.
  reflexivity.
Qed.

Lemma schedule_all_skips_disabled
    (before after acc : list JobDict) (job : JobDict) (s : Sched) :
  j_enabled job = Some false ->
  schedule_all pkg (before ++ job :: after) acc s
  = schedule_all pkg (before ++ after) acc s.
Proof.
  intros Hen. rewrite !schedule_all_app.
  destruct (schedule_all pkg before acc s) as [[e | acc1] s1]; [reflexivity |].
  cbn [schedule_all]. unfold bind.
  rewrite (schedule_job_disabled job s1 Hen). reflexivity.
Qed.

(** X12.  A job switched off with [enabled: false] is validated like any
    other.  If its entry passes the schema and the field check, it is as
    good as absent from [jobs.yaml]: the scheduler started with it behaves
    exactly as the scheduler started without it.  If its entry does not,
    for want of a schedule say, the scheduler stops with [ValueError]
    while loading the file, and nothing is scheduled or run. *)
Theorem disabled_job_is_inert
    (at_matches : string -> bool) (before after : list JobDict)
    (job : JobDict) (n : nat) (s : Sched) :
  j_enabled job = Some false ->
  (Validate.job_schema_ok at_matches job = true ->
   Validate.job_field_errors job = [] ->
   Service.main at_matches pkg (before ++ job :: after) n s
   = Service.main at_matches pkg (before ++ after) n s)
  /\ (Validate.job_schema_ok at_matches job = false
      \/ Validate.job_field_errors job <> [] ->
      exists msg,
        Service.main at_matches pkg (before ++ job :: after) n s
        = (inl (ValueError msg), s)).
Proof.
  intros Hen.
  unfold Service.main, Service.load_jobs, lift, Validate.validate_config,
    Validate.validate_schedule_fields.
  unfold try_except at 1 3. unfold bind at 1 3.
  rewrite !forallb_app, !flat_map_app. cbn [forallb flat_map].
  split.
  - intros Hschema Hfields. rewrite Hschema, Hfields. cbn [andb app].
    destruct (forallb (Validate.job_schema_ok at_matches) before
              && forallb (Validate.job_schema_ok at_matches) after);
      cbn [negb]; [| reflexivity].
    destruct (flat_map Validate.job_field_errors before
              ++ flat_map Validate.job_field_errors after);
      [| reflexivity].
    unfold main, try_except, bind.
    rewrite (schedule_all_skips_disabled before after [] job s Hen).
    reflexivity.
  - intros Hbad.
    destruct (forallb (Validate.job_schema_ok at_matches) before
              && (Validate.job_schema_ok at_matches job
                  && forallb (Validate.job_schema_ok at_matches) after))
      eqn:Hall; cbn [negb]; [| eexists; reflexivity].
    destruct (flat_map Validate.job_field_errors before
              ++ Validate.job_field_errors job
              ++ flat_map Validate.job_field_errors after) eqn:Herrs;
      [| eexists; reflexivity].
    exfalso.
    apply andb_prop in Hall as [_ Hall]. apply andb_prop in Hall as [Hjob _].
    apply app_eq_nil in Herrs as [_ Herrs].
    apply app_eq_nil in Herrs as [Herrs _].
    destruct Hbad as [Hbad | Hbad]; [congruence | contradiction].
Qed.

Lemma schedule_job_startup job s :
  is_startup job = true ->
  schedule_job pkg job s = (inr Startup, s).
Proof.
  unfold is_startup. intros H.
  apply andb_prop in H as [H _]. apply andb_prop in H as [Hen Hunit].
  unfold schedule_job, try_except, bind. cbv zeta. rewrite Hen. cbn [negb].
  destruct (j_schedule job) as [spec |]; [| discriminate]. cbn [item ret].
  destruct (s_unit spec) as [unit |]; [| discriminate].
  cbn [item ret]. rewrite Hunit. reflexivity.
Qed.

Lemma schedule_all_startup jobs acc s :
  Forall (fun job => is_startup job = true) jobs ->
  schedule_all pkg jobs acc s = (inr (acc ++ jobs), s).
Proof.
  intros Hall. revert acc. induction Hall as [| job jobs Hjob _ IH];
    intros acc.
  - cbn. rewrite app_nil_r. reflexivity.
  - cbn [schedule_all]. unfold bind.
    rewrite (schedule_job_startup job s Hjob), IH, <- app_assoc.
    reflexivity.
Qed.

Lemma run_startup_jobs_spec jobs s :
  Forall (fun job => is_startup job = true) jobs ->
  run_startup_jobs jobs s
  = (inr tt, mkSched (registry s) (threads s ++ map startup_thread jobs)).
Proof.
  intros Hall. revert s. induction Hall as [| job jobs Hjob _ IH]; intros s.
  - cbn. rewrite app_nil_r. destruct s. reflexivity.
  - cbn [run_startup_jobs map]. unfold is_startup in Hjob.
    apply andb_prop in Hjob as [_ Hboth]. unfold startup_thread at 1.
    destruct (j_command job) as [command |]; [| discriminate].
    destruct (j_name job) as [name |]; [| discriminate].
    unfold bind, run_threaded. cbn [item ret default].
    rewrite IH. cbn [registry threads]. rewrite <- app_assoc. reflexivity.
Qed.

(** X13.  Startup jobs are never handed to the scheduling loop, and each of
    their commands is started exactly once, in the order of [jobs.yaml],
    before the loop's first round: with nothing but startup jobs
    configured the threads started are the same however long the
    scheduler runs. *)
Theorem startup_jobs_run_once (jobs : list JobDict) (n : nat) :
  Forall (fun job => is_startup job = true) jobs ->
  main pkg jobs n idle = (inr tt, mkSched [] (map startup_thread jobs)).
Proof.
  intros Hall. unfold main, try_except, bind.
  rewrite (schedule_all_startup jobs [] idle Hall). cbn [app].
  rewrite (run_startup_jobs_spec jobs idle Hall). cbn [idle registry threads app].
  rewrite loop_idle. reflexivity.
Qed.

End SchedulerRuns.

Lemma disabled_job_witness :
  j_enabled paused_job = Some false
  /\ Validate.job_schema_ok (fun _ => true) paused_job = true
  /\ Validate.job_field_errors paused_job = []
  /\ Service.main (fun _ => true) plain_package
       ([warmup_job] ++ paused_job :: [heartbeat_job]) 60 idle
     = Service.main (fun _ => true) plain_package
         ([warmup_job] ++ [heartbeat_job]) 60 idle.
Proof.
  split; [reflexivity |]. split; [reflexivity |]. split; [reflexivity |].
  exact (proj1 (disabled_job_is_inert plain_package (fun _ => true)
                  [warmup_job] [heartbeat_job] paused_job 60 idle eq_refl)
               eq_refl eq_refl).
Defined.

(** A job switched off and left without a schedule keeps the scheduler
    from starting. *)
Example retired_job_stops_the_start_up :
  Service.main (fun _ => true) plain_package
    [warmup_job; retired_job; heartbeat_job] 60 idle
  = (inl (ValueError "Invalid configuration"), idle).
Proof. vm_compute. reflexivity. Qed.

Lemma startup_jobs_witness :
  Forall (fun job => is_startup job = true) [warmup_job]
  /\ Scheduler.main plain_package [warmup_job] 3600 idle
     = (inr tt, mkSched [] [("python scripts/heartbeat.py", "warmup")]).
Proof.
  assert (Hall : Forall (fun job => is_startup job = true) [warmup_job]).
  { constructor; [reflexivity | constructor]. }
  split; [exact Hall |].
  exact (startup_jobs_run_once plain_package [warmup_job] 3600 Hall).
Defined.

(** ** Schedule compiler: monthly jobs and days of the week *)

Section CompilerFacts.
Import ScheduleLib Scheduler.
Variable pkg : Package.

Lemma every_day s :
  value_getattr pkg (VJob (every 1)) "day" s = (inr (VJob daily), s).
Proof. reflexivity. Qed.

Lemma every_weeks s :
  value_getattr pkg (VJob (every 1)) "weeks" s
  = (inr (VJob (mkJob 1 (Some "weeks") None None)), s).
Proof. reflexivity. Qed.

(** X14.  A monthly job is registered as a job that comes up every day,
    whatever [every] and [day] say, and whose action runs the command
    only when the day of the month is [day_of_month], or the 1st when
    [day_of_month] is missing or 0. *)
Theorem monthly_job_is_a_daily_check
    (job : JobDict) (spec : ScheduleSpec) (command : string) (j : Job)
    (s : Sched) :
  default true (j_enabled job) = true ->
  j_schedule job = Some spec ->
  s_unit spec = Some "months" ->
  j_command job = Some command ->
  (if truthy_str (s_at spec)
   then job_at pkg daily (default "" (s_at spec))
   else inr daily) = inr j ->
  schedule_job pkg job s
  = (inr Recurring,
     mkSched (registry s
                ++ [mkTrigger j
                      (RunMonthlyJob command
                         (default "unknown" (j_name job))
                         (if truthy_int (s_day_of_month spec)
                          then default 1 (s_day_of_month spec)
                          else 1))])
             (threads s)).
Proof.
  intros Hen Hspec Hunit Hcmd Hat.
  unfold schedule_job, try_except, bind. cbv zeta.
  rewrite Hen. cbn [negb]. rewrite Hspec. cbn [item ret].
  rewrite Hunit. cbn [item ret].
  change (String.eqb "months" "startup") with false.
  change (String.eqb "months" "months") with true.
  cbv iota.
  cbv beta. rewrite every_day.
  destruct (truthy_str (s_at spec)).
  - cbn [value_at]. unfold bind, lift. rewrite Hat. cbn [ret].
    rewrite Hcmd. reflexivity.
  - injection Hat as <-. cbn [ret]. rewrite Hcmd. reflexivity.
Qed.

Lemma weekday_getattr (j : Job) (day : string) :
  mem day WEEKDAYS = true ->
  interval j = 1 ->
  getattr (other_attribute pkg) j day
  = inr (VJob (mkJob 1 (Some "weeks") (Some day) (at_time j))).
Proof.
  unfold mem, WEEKDAYS. cbn [existsb]. intros Hday Hone. revert Hday.
  repeat match goal with
         | |- context [String.eqb day ?name] =>
             destruct (String.eqb_spec day name) as [-> | _];
             [intros _; unfold getattr; cbn; rewrite Hone; reflexivity |]
         end.
  cbn. intros [=].
Qed.

(** X15.  The day of a weekly job is matched without regard to case: with
    [every] 1 or absent and no [at], a [day] that is one of the seven
    names once lower-cased gives a weekly job on that day. *)
Theorem weekly_day_is_matched_case_insensitively
    (job : JobDict) (spec : ScheduleSpec) (day command : string)
    (s : Sched) :
  default true (j_enabled job) = true ->
  j_schedule job = Some spec ->
  s_unit spec = Some "weeks" ->
  default 1 (s_every spec) = 1 ->
  s_day spec = Some day ->
  mem (lower day) WEEKDAYS = true ->
  truthy_str (s_at spec) = false ->
  j_command job = Some command ->
  schedule_job pkg job s
  = (inr Recurring,
     mkSched (registry s
                ++ [mkTrigger (mkJob 1 (Some "weeks") (Some (lower day)) None)
                      (RunThreaded command
                         (default "unknown" (j_name job)))])
             (threads s)).
Proof.
  intros Hen Hspec Hunit Hevery Hday Hknown Hat Hcmd.
  assert (Htruthy : truthy_str (Some day) = true).
  { destruct day; [discriminate Hknown | reflexivity]. }
  unfold schedule_job, try_except, bind. cbv zeta.
  rewrite Hen. cbn [negb]. rewrite Hspec. cbn [item ret].
  rewrite Hunit. cbn [item ret].
  change (String.eqb "weeks" "startup") with false.
  change (String.eqb "weeks" "months") with false.
  change (String.eqb "weeks" "weeks") with true.
  cbv iota. rewrite Hevery.
  cbv beta. rewrite every_weeks.
  rewrite Hday, Hat, Htruthy. cbn [andb default].
  cbn [value_hasattr value_getattr lift]. unfold hasattr, id.
  rewrite (weekday_getattr (mkJob 1 (Some "weeks") None None) (lower day)
             Hknown eq_refl).
  cbn [at_time ret]. rewrite Hcmd. reflexivity.
Qed.

End CompilerFacts.

Lemma monthly_job_witness :
  Scheduler.schedule_job plain_package monthly_job idle
  = (inr Recurring,
     mkSched [mkTrigger daily
                (RunMonthlyJob "python scripts/invoices.py" "invoices" 15)]
             []).
Proof.
  exact (monthly_job_is_a_daily_check plain_package monthly_job
           (mkSpec (Some "months") (Some 3) None None (Some 15))
           "python scripts/invoices.py" daily idle
           eq_refl eq_refl eq_refl eq_refl eq_refl).
Defined.

Lemma capital_monday_witness :
  Validate.day_allowed "Monday" = false
  /\ ScheduleLib.mem (lower "Monday") ScheduleLib.WEEKDAYS = true
  /\ Scheduler.schedule_job plain_package capital_monday_job idle
     = (inr Recurring,
        mkSched [mkTrigger (ScheduleLib.mkJob 1 (Some "weeks") (Some "monday")
                                              None)
                   (RunThreaded "python scripts/report.py" "weekly-report")]
                []).
Proof.
  split; [reflexivity |]. split; [reflexivity |].
  exact (weekly_day_is_matched_case_insensitively plain_package
           capital_monday_job
           (mkSpec (Some "weeks") None None (Some "Monday") None)
           "Monday" "python scripts/report.py" idle
           eq_refl eq_refl eq_refl eq_refl eq_refl eq_refl eq_refl eq_refl).
Defined.

(** ** Validation of [jobs.yaml] against what the scheduler does *)

Section ValidatorFacts.
Import ScheduleLib Scheduler Validate.
Variable at_matches : string -> bool.
Variable pkg : Package.

Lemma allowed_unit_cases unit :
  mem unit ALLOWED_UNITS = true ->
  unit = "seconds" \/ unit = "minutes" \/ unit = "hours" \/ unit = "days"
  \/ unit = "weeks" \/ unit = "months" \/ unit = "startup".
Proof.
  unfold mem, ALLOWED_UNITS. cbn [existsb].
  repeat match goal with
         | |- context [String.eqb unit ?name] =>
             destruct (String.eqb_spec unit name) as [-> | _];
             [intros _; tauto |]
         end.
  cbn. intros [=].
Qed.

Ltac table_row :=
  cbn; split;
  [ intros HL; try discriminate HL;
    repeat split; intros; first [reflexivity | discriminate | congruence]
  | intros ((H1 & H2) & H3 & H4 & H5);
    try reflexivity; exfalso;
    first
      [ assert (X : false = true) by (apply H1; discriminate);
        discriminate X
      | apply (H2 eq_refl); reflexivity
      | destruct H3 as [X Y];
        [discriminate | first [apply X; reflexivity | apply Y; reflexivity]]
      | assert (X : _ = "weeks") by (apply H4; discriminate);
        discriminate X
      | assert (X : _ = "months") by (apply H5; discriminate);
        discriminate X ] ].

(** X16.  For a schedule whose unit is one of the seven the schema allows, the
    field check of [validate_schedule_fields] passes exactly when [every]
    is given for the five interval units and for no other, [at] is given
    neither for seconds nor for startup jobs, [day] only for weeks and
    [day_of_month] only for months. *)
Theorem field_check_decision_table
    (job : JobDict) (spec : ScheduleSpec) (unit : string) :
  j_schedule job = Some spec ->
  s_unit spec = Some unit ->
  mem unit ALLOWED_UNITS = true ->
  validate_schedule_fields [job] = []
  <-> ((s_every spec <> None <-> mem unit PLURAL_UNITS = true)
       /\ (s_at spec <> None -> unit <> "seconds" /\ unit <> "startup")
       /\ (s_day spec <> None -> unit = "weeks")
       /\ (s_day_of_month spec <> None -> unit = "months")).
Proof.
  intros Hspec Hunit Hallowed.
  unfold validate_schedule_fields, job_field_errors. cbn [flat_map].
  rewrite Hspec. cbn [default]. unfold id. rewrite Hunit. unfold keys.
  rewrite Hunit. rewrite app_nil_r.
  destruct (allowed_unit_cases unit Hallowed)
    as [-> | [-> | [-> | [-> | [-> | [-> | ->]]]]]];
    destruct (s_every spec) as [e |], (s_at spec) as [a |],
      (s_day spec) as [d |], (s_day_of_month spec) as [dm |];
    table_row.
Qed.

Lemma flat_map_nil {A B} (f : A -> list B) (l : list A) (x : A) :
  flat_map f l = [] -> In x l -> f x = [].
Proof.
  induction l as [| y l IH]; cbn; [intros _ [] |].
  intros H [<- | Hin].
  - apply app_eq_nil in H. tauto.
  - apply app_eq_nil in H. apply IH; tauto.
Qed.

(** What an accepted configuration is. *)
Lemma validate_config_accepts jobs jobs' :
  validate_config at_matches jobs true = inr jobs' ->
  jobs' = jobs
  /\ forall job, In job jobs ->
                 job_schema_ok at_matches job = true
                 /\ job_field_errors job = [].
Proof.
  unfold validate_config.
  destruct (forallb (job_schema_ok at_matches) jobs) eqn:Hschema;
    cbn [negb]; [| discriminate].
  destruct (validate_schedule_fields jobs) eqn:Hfields; [| discriminate].
  intros [= <-]. split; [reflexivity |]. intros job Hin. split.
  - rewrite forallb_forall in Hschema. exact (Hschema job Hin).
  - exact (flat_map_nil _ _ _ Hfields Hin).
Qed.

Lemma weekday_getattr_fails (j : Job) (day : string) :
  mem day WEEKDAYS = true ->
  interval j <> 1 ->
  getattr (other_attribute pkg) j day
  = inl (IntervalError
           "Scheduling weekday jobs is only allowed for weekly jobs").
Proof.
  unfold mem, WEEKDAYS. cbn [existsb]. intros Hday Hone. revert Hday.
  apply Z.eqb_neq in Hone.
  repeat match goal with
         | |- context [String.eqb day ?name] =>
             destruct (String.eqb_spec day name) as [-> | _];
             [intros _; unfold getattr; cbn; rewrite Hone; reflexivity |]
         end.
  cbn. intros [=].
Qed.

Lemma every_n_weeks n s :
  value_getattr pkg (VJob (every n)) "weeks" s
  = (inr (VJob (mkJob n (Some "weeks") None None)), s).
Proof. reflexivity. Qed.

(** X17.  A configuration that [validate_config] accepts can still stop the
    scheduler at start-up: an enabled weekly job with a [day] and an
    [every] other than 1 passes the schema and the field check, and
    [schedule_job] raises [IntervalError] for it. *)
Theorem validated_weekly_job_can_still_fail
    (jobs : list JobDict) (job : JobDict) (spec : ScheduleSpec)
    (day : string) (n : Z) (s : Sched) :
  validate_config at_matches jobs true = inr jobs ->
  In job jobs ->
  default true (j_enabled job) = true ->
  j_schedule job = Some spec ->
  s_unit spec = Some "weeks" ->
  s_day spec = Some day ->
  s_every spec = Some n ->
  n <> 1 ->
  schedule_job pkg job s
  = (inl (IntervalError
            "Scheduling weekday jobs is only allowed for weekly jobs"), s).
Proof.
  intros Hvalid Hin Hen Hspec Hunit Hday Hevery Hn.
  destruct (validate_config_accepts jobs jobs Hvalid) as [_ Hall].
  destruct (Hall job Hin) as [Hschema _].
  assert (Hallowed : day_allowed day = true).
  { unfold job_schema_ok in Hschema. rewrite Hspec in Hschema.
    destruct (j_name job); [| discriminate].
    destruct (j_command job); [| discriminate].
    unfold schedule_schema_ok in Hschema. rewrite Hday in Hschema.
    repeat (apply andb_prop in Hschema as [Hschema ?]). assumption. }
  destruct (weekday_is_recognised pkg (every n) day Hallowed) as [Hlow _].
  assert (Htruthy : truthy_str (Some day) = true).
  { destruct day; [discriminate Hallowed | reflexivity]. }
  unfold schedule_job, try_except, bind. cbv zeta.
  rewrite Hen. cbn [negb]. rewrite Hspec. cbn [item ret].
  rewrite Hunit. cbn [item ret].
  change (String.eqb "weeks" "startup") with false.
  change (String.eqb "weeks" "months") with false.
  change (String.eqb "weeks" "weeks") with true.
  cbv iota. rewrite Hevery. cbn [default]. unfold id. cbv beta.
  rewrite every_n_weeks.
  rewrite Hday, Htruthy. cbn [andb default].
  cbn [value_hasattr lift]. unfold hasattr, id. rewrite Hlow.
  rewrite (weekday_getattr_fails (mkJob n (Some "weeks") None None) day
             Hallowed Hn).
  reflexivity.
Qed.

(** One accepted job with simple timing and a first run within range:
    [schedule_job] returns, and what it files under start-up is a startup
    job. *)
Lemma validated_job_schedules (job : JobDict) (s : Sched) :
  job_schema_ok at_matches job = true ->
  job_field_errors job = [] ->
  simple_timing job = true ->
  first_run_in_range pkg job = true ->
  exists r s',
    schedule_job pkg job s = (inr r, s')
    /\ (r = Startup -> is_startup job = true).
Proof.
  intros Hschema Hfields Htiming Hrange.
  destruct (default true (j_enabled job)) eqn:Hen.
  2:{ exists Disabled, s. split; [| discriminate].
      unfold schedule_job, try_except. cbv zeta. rewrite Hen. reflexivity. }
  unfold job_schema_ok in Hschema.
  destruct (j_name job) as [name |] eqn:Hname; [| discriminate].
  destruct (j_command job) as [command |] eqn:Hcmd; [| discriminate].
  destruct (j_schedule job) as [spec |] eqn:Hspec; [| discriminate].
  unfold schedule_schema_ok in Hschema.
  repeat (apply andb_prop in Hschema as [Hschema ?]).
  destruct (s_unit spec) as [unit |] eqn:Hunit; [| discriminate].
  unfold simple_timing in Htiming. rewrite Hspec in Htiming.
  unfold first_run_in_range in Hrange. rewrite Hspec, Hunit in Hrange.
  apply negb_true_iff in Hrange.
  destruct (s_at spec) as [a |] eqn:Hat; [discriminate |].
  unfold job_field_errors in Hfields. rewrite Hspec in Hfields.
  cbn [default] in Hfields. unfold id, keys in Hfields.
  rewrite Hunit, Hat in Hfields.
  destruct (s_day spec) as [day |] eqn:Hday.
  - (* a day of the week: the field check leaves weekly jobs only *)
    destruct (s_every spec) as [n |] eqn:Hevery; [| discriminate].
    apply Z.eqb_eq in Htiming. subst n.
    assert (Hweeks : unit = "weeks").
    { destruct (allowed_unit_cases unit ltac:(assumption))
        as [-> | [-> | [-> | [-> | [-> | [-> | ->]]]]]];
        first [reflexivity | destruct (s_day_of_month spec); discriminate]. }
    subst unit.
    match goal with H : day_allowed day = true |- _ =>
      destruct (weekday_is_recognised pkg (every 1) day H) as [Hlow _];
      pose proof H as Hknown
    end.
    assert (Htruthy : truthy_str (Some day) = true).
    { destruct day; [discriminate Hknown | reflexivity]. }
    eexists Recurring, _. split; [| discriminate].
    unfold schedule_job, try_except, bind. cbv zeta.
    rewrite Hen. cbn [negb]. rewrite Hspec. cbn [item ret].
    rewrite Hunit. cbn [item ret].
    change (String.eqb "weeks" "startup") with false.
    change (String.eqb "weeks" "months") with false.
    change (String.eqb "weeks" "weeks") with true.
    cbv iota. rewrite Hevery. cbn [default]. unfold id. cbv beta.
    rewrite every_n_weeks.
    rewrite Hday, Htruthy, Hat. cbn [andb default truthy_str].
    cbn [value_hasattr value_getattr lift]. unfold hasattr, id. rewrite Hlow.
    rewrite (weekday_getattr pkg (mkJob 1 (Some "weeks") None None) day
               Hknown eq_refl).
    cbn [at_time ret]. rewrite Hcmd. reflexivity.
  - destruct (allowed_unit_cases unit ltac:(assumption))
      as [-> | [-> | [-> | [-> | [-> | [-> | ->]]]]]];
      destruct (s_every spec) as [n |] eqn:Hevery;
      destruct (s_day_of_month spec) as [dm |] eqn:Hdm;
      try discriminate Hfields;
      cbn [default] in Hrange; unfold id in Hrange;
      unfold schedule_job, try_except, bind; cbv zeta;
      rewrite Hen; cbn [negb]; rewrite Hspec; cbn [item ret];
      rewrite Hunit; cbn [item ret];
      rewrite ?Hevery, ?Hat, ?Hday, ?Hdm, ?Hcmd; cbn;
      rewrite ?Hcmd; cbn; rewrite ?Hrange, ?andb_false_r; cbn;
      (eexists _, _; split; [reflexivity |]);
      try discriminate;
      intros _; unfold is_startup;
      rewrite Hen, Hspec, Hunit, Hcmd, Hname; reflexivity.
Qed.

Lemma validated_jobs_schedule (jobs acc : list JobDict) (s : Sched) :
  (forall job, In job jobs ->
               job_schema_ok at_matches job = true
               /\ job_field_errors job = []) ->
  forallb simple_timing jobs = true ->
  forallb (first_run_in_range pkg) jobs = true ->
  exists startups s',
    schedule_all pkg jobs acc s = (inr (acc ++ startups), s')
    /\ Forall (fun job => is_startup job = true) startups.
Proof.
  revert acc s. induction jobs as [| job jobs IH];
    intros acc s Hall Htiming Hrange.
  - exists [], s. cbn. rewrite app_nil_r. split; [reflexivity | constructor].
  - cbn [forallb] in Htiming. apply andb_prop in Htiming as [Hjob Hrest].
    cbn [forallb] in Hrange. apply andb_prop in Hrange as [Hfirst Hothers].
    destruct (Hall job (or_introl eq_refl)) as [Hschema Hfields].
    destruct (validated_job_schedules job s Hschema Hfields Hjob Hfirst)
      as (r & s1 & Hrun & Hstartup).
    cbn [schedule_all]. unfold bind. rewrite Hrun.
    assert (Hall' : forall j, In j jobs ->
                      job_schema_ok at_matches j = true
                      /\ job_field_errors j = []).
    { intros j Hin. apply Hall. right. exact Hin. }
    destruct r.
    + destruct (IH acc s1 Hall' Hrest Hothers) as (st & s' & -> & Hst).
      eauto.
    + destruct (IH (acc ++ [job]) s1 Hall' Hrest Hothers)
        as (st & s' & -> & Hst).
      exists (job :: st), s'. rewrite <- app_assoc. split; [reflexivity |].
      constructor; [exact (Hstartup eq_refl) | exact Hst].
    + destruct (IH acc s1 Hall' Hrest Hothers) as (st & s' & -> & Hst).
      eauto.
Qed.

(** X18.  A [jobs.yaml] that [validate_config] accepts, whose jobs give no
    [at] and a day of the week only together with [every: 1], and whose
    intervals keep every first run within the range of [datetime], always
    starts: the file is loaded, every job is scheduled, the startup jobs
    are run, and the loop goes round without an exception, however long
    it is watched.  An interval beyond that range stops the start-up with
    [OverflowError]. *)
Theorem validated_jobs_always_start
    (file : list JobDict) (n : nat) (s : Sched) :
  validate_config at_matches file true = inr file ->
  forallb simple_timing file = true ->
  (forallb (first_run_in_range pkg) file = true ->
   exists s', Service.main at_matches pkg file n s = (inr tt, s'))
  /\ (forall before job after spec unit command m,
        file = before ++ job :: after ->
        forallb (first_run_in_range pkg) before = true ->
        default true (j_enabled job) = true ->
        j_schedule job = Some spec ->
        s_unit spec = Some unit ->
        mem unit PLURAL_UNITS = true ->
        s_every spec = Some m ->
        s_day spec = None ->
        j_command job = Some command ->
        m <> 1 ->
        out_of_range pkg (mkJob m (Some unit) None None) = true ->
        exists msg,
          fst (Service.main at_matches pkg file n s)
          = inl (OverflowError msg)).
Proof.
  intros Hvalid Htiming.
  destruct (validate_config_accepts file file Hvalid) as [_ Hall].
  split.
  - intros Hrange.
    destruct (validated_jobs_schedule file [] s Hall Htiming Hrange)
      as (startups & s1 & Hrun & Hstartups).
    unfold Service.main, Service.load_jobs, try_except, bind, lift.
    rewrite Hvalid. unfold main, try_except, bind. rewrite Hrun. cbn [app].
    rewrite (run_startup_jobs_spec startups s1 Hstartups).
    match goal with
    | |- context [loop pkg n 0 ?v] =>
        destruct (loop_total pkg n 0 v) as (s' & ->)
    end.
    eexists. reflexivity.
  - intros before job after spec unit command m Hfile Hrange Hen Hspec
      Hunit Hplural Hevery Hday Hcmd Hnot1 Hout.
    assert (Hbefore : exists startups s1,
               schedule_all pkg before [] s = (inr ([] ++ startups), s1)).
    { subst file. rewrite forallb_app in Htiming.
      apply andb_prop in Htiming as [Htiming _].
      destruct (validated_jobs_schedule before [] s) as (st & s1 & H & _);
        [intros j Hin; apply Hall, in_or_app; left; exact Hin
        | exact Htiming | exact Hrange | eauto]. }
    destruct Hbefore as (startups & s1 & Hbefore).
    assert (Hat : s_at spec = None).
    { subst file. rewrite forallb_app in Htiming.
      apply andb_prop in Htiming as [_ Htiming]. cbn [forallb] in Htiming.
      apply andb_prop in Htiming as [Htiming _].
      unfold simple_timing in Htiming. rewrite Hspec in Htiming.
      destruct (s_at spec); [discriminate | reflexivity]. }
    assert (Hjob : schedule_job pkg job s1
                   = (inl (OverflowError "date value out of range"), s1)).
    { unfold schedule_job, try_except, bind. cbv zeta.
      rewrite Hen. cbn [negb]. rewrite Hspec. cbn [item ret].
      rewrite Hunit. cbn [item ret].
      assert (Hns : String.eqb unit "startup" = false).
      { destruct (String.eqb_spec unit "startup") as [-> | _];
          [discriminate Hplural | reflexivity]. }
      assert (Hnm : String.eqb unit "months" = false).
      { destruct (String.eqb_spec unit "months") as [-> | _];
          [discriminate Hplural | reflexivity]. }
      rewrite Hns, Hnm, Hevery, Hday, Hat. cbn [default truthy_str andb].
      unfold id. rewrite andb_false_r.
      cbn [value_getattr lift]. unfold getattr. rewrite Hplural.
      cbn [every interval start_day at_time ret]. rewrite Hcmd.
      cbn [item ret value_do overflows interval].
      apply Z.eqb_neq in Hnot1. rewrite Hnot1, Hout. reflexivity. }
    unfold Service.main, Service.load_jobs, try_except, bind, lift.
    rewrite Hvalid. unfold main, try_except, bind. subst file.
    rewrite schedule_all_app, Hbefore. cbn [schedule_all]. unfold bind.
    rewrite Hjob. eexists. reflexivity.
Qed.

End ValidatorFacts.

Lemma field_check_witness :
  j_schedule heartbeat_job
  = Some (mkSpec (Some "seconds") (Some 10) None None None)
  /\ ScheduleLib.mem "seconds" Validate.ALLOWED_UNITS = true
  /\ Validate.validate_schedule_fields [heartbeat_job] = [].
Proof.
  split; [reflexivity |]. split; [reflexivity |].
  apply (proj2 (field_check_decision_table heartbeat_job
                  (mkSpec (Some "seconds") (Some 10) None None None)
                  "seconds" eq_refl eq_refl eq_refl)).
  cbn. repeat split; intros; first [reflexivity | discriminate | congruence].
Defined.

Lemma validated_failure_witness :
  Validate.validate_config (fun _ => true)
    [warmup_job; fortnightly_job; heartbeat_job] true
  = inr [warmup_job; fortnightly_job; heartbeat_job]
  /\ Scheduler.schedule_job plain_package fortnightly_job idle
     = (inl (IntervalError
               "Scheduling weekday jobs is only allowed for weekly jobs"),
        idle).
Proof.
  assert (Hvalid : Validate.validate_config (fun _ => true)
                     [warmup_job; fortnightly_job; heartbeat_job] true
                   = inr [warmup_job; fortnightly_job; heartbeat_job])
    by (vm_compute; reflexivity).
  split; [exact Hvalid |].
  apply (validated_weekly_job_can_still_fail (fun _ => true) plain_package
           [warmup_job; fortnightly_job; heartbeat_job] fortnightly_job
           (mkSpec (Some "weeks") (Some 2) None (Some "monday") None)
           "monday" 2 idle Hvalid).
  - right. left. reflexivity.
  - reflexivity.
  - reflexivity.
  - reflexivity.
  - reflexivity.
  - reflexivity.
  - discriminate.
Defined.

Lemma validated_start_witness :
  Validate.validate_config (fun _ => true) [warmup_job; heartbeat_job] true
  = inr [warmup_job; heartbeat_job]
  /\ forallb simple_timing [warmup_job; heartbeat_job] = true
  /\ forallb (first_run_in_range short_calendar_package)
              [warmup_job; heartbeat_job] = true
  /\ exists s',
       Service.main (fun _ => true) short_calendar_package
         [warmup_job; heartbeat_job] 60 idle
       = (inr tt, s').
Proof.
  assert (Hvalid : Validate.validate_config (fun _ => true)
                     [warmup_job; heartbeat_job] true
                   = inr [warmup_job; heartbeat_job])
    by (vm_compute; reflexivity).
  assert (Hrange : forallb (first_run_in_range short_calendar_package)
                     [warmup_job; heartbeat_job] = true)
    by (vm_compute; reflexivity).
  split; [exact Hvalid |]. split; [reflexivity |]. split; [exact Hrange |].
  exact (proj1 (validated_jobs_always_start (fun _ => true)
                  short_calendar_package [warmup_job; heartbeat_job] 60 idle
                  Hvalid eq_refl) Hrange).
Defined.

(** A valid [jobs.yaml] whose second job asks for a run every million
    million weeks: the start-up ends in [OverflowError] with the startup
    job not yet run. *)
Example eon_job_stops_the_start_up :
  Validate.validate_config (fun _ => true) [warmup_job; eon_job] true
  = inr [warmup_job; eon_job]
  /\ Service.main (fun _ => true) short_calendar_package
       [warmup_job; eon_job] 60 idle
     = (inl (OverflowError "date value out of range"), idle).
Proof. split; vm_compute; reflexivity. Qed.

(** ** The jobs of [jobs.yaml]: lookup and switching a job on or off *)

Section JobsFacts.
Import Jobs.
Variable at_matches : string -> bool.
Variable pkg : Package.

Lemma get_job_by_name_none jobs name :
  get_job_by_name jobs name = None <-> unnamed name jobs.
Proof.
  unfold unnamed. induction jobs as [| job jobs IH]; cbn; [tauto |].
  destruct (named name job); cbn; [| exact IH].
  split; discriminate.
Qed.

Lemma get_job_by_name_some jobs name job :
  get_job_by_name jobs name = Some job
  <-> exists before after,
        jobs = before ++ job :: after
        /\ named name job = true
        /\ unnamed name before.
Proof.
  unfold unnamed. induction jobs as [| first jobs IH]; cbn.
  - split; [discriminate |]. intros (before & after & H & _).
    destruct before; discriminate H.
  - destruct (named name first) eqn:Hfirst.
    + split.
      * intros [= <-]. exists [], jobs. auto.
      * intros (before & after & H & Hjob & Hbefore).
        destruct before as [| b before]; cbn in *.
        -- congruence.
        -- injection H as <- _. rewrite Hfirst in Hbefore. discriminate.
    + rewrite IH. split.
      * intros (before & after & -> & Hjob & Hbefore).
        exists (first :: before), after. cbn. rewrite Hfirst. auto.
      * intros (before & after & H & Hjob & Hbefore).
        destruct before as [| b before]; cbn in *.
        -- injection H as <- _. congruence.
        -- injection H as <- ->. rewrite Hfirst in Hbefore.
           exists before, after. auto.
Qed.

(** X19.  [get_job_by_name] returns the first job of the list that goes by the
    name, so that a later job of the same name is never returned, and
    [None] exactly when no job goes by it. *)
Theorem get_job_by_name_finds_the_first (jobs : list JobDict) (name : string) :
  (get_job_by_name jobs name = None <-> unnamed name jobs)
  /\ (forall job,
        get_job_by_name jobs name = Some job
        <-> exists before after,
              jobs = before ++ job :: after
              /\ named name job = true
              /\ unnamed name before).
Proof.
  split; [apply get_job_by_name_none |].
  intros job. apply get_job_by_name_some.
Qed.

Lemma update_loop_miss seen rest name enabled file :
  unnamed name rest ->
  update_loop seen rest name enabled file = (inr false, file).
Proof.
  unfold unnamed. revert seen. induction rest as [| job rest IH];
    intros seen; cbn; [reflexivity |].
  destruct (named name job); cbn; [discriminate |]. apply IH.
Qed.

Lemma update_loop_hit seen before job after name enabled file :
  named name job = true ->
  unnamed name before ->
  update_loop seen (before ++ job :: after) name enabled file
  = (inr true, seen ++ before ++ set_enabled enabled job :: after).
Proof.
  unfold unnamed. intros Hjob. revert seen.
  induction before as [| b before IH]; intros seen; cbn.
  - rewrite Hjob. reflexivity.
  - destruct (named name b); cbn; [discriminate |]. intros Hbefore.
    rewrite (IH (seen ++ [b]) Hbefore), <- app_assoc. reflexivity.
Qed.

Lemma get_after_update before job after name enabled :
  named name job = true ->
  unnamed name before ->
  get_job_by_name (before ++ set_enabled enabled job :: after) name
  = Some (set_enabled enabled job).
Proof.
  intros Hjob Hbefore. apply get_job_by_name_some.
  exists before, after. auto.
Qed.

Lemma get_other_after_update before job after name other enabled :
  named name job = true ->
  other <> name ->
  get_job_by_name (before ++ set_enabled enabled job :: after) other
  = get_job_by_name (before ++ job :: after) other.
Proof.
  intros Hjob Hother. induction before as [| b before IH]; cbn.
  - unfold named in *. cbn. destruct (j_name job) as [n |]; [| reflexivity].
    apply String.eqb_eq in Hjob. subst n.
    destruct (String.eqb_spec name other); [congruence | reflexivity].
  - rewrite IH. reflexivity.
Qed.

(** X20.  [update_job_enabled] reads [jobs.yaml] through the validator, so a
    file the validator rejects is left alone and the error comes back;
    with no job of that name it answers [False] and writes nothing;
    otherwise it sets [enabled] on the first job of that name, and on
    that one only, writes the file and answers [True]: a lookup by that
    name then gives the job with the new [enabled], and a lookup by any
    other name gives what it gave before. *)
Theorem update_job_enabled_outcome
    (file : list JobDict) (name : string) (enabled : bool) :
  (forall e,
     Validate.validate_config at_matches file true = inl e ->
     update_job_enabled at_matches name enabled file = (inl e, file))
  /\ (Validate.validate_config at_matches file true = inr file ->
      get_job_by_name file name = None ->
      update_job_enabled at_matches name enabled file = (inr false, file))
  /\ (Validate.validate_config at_matches file true = inr file ->
      forall job,
        get_job_by_name file name = Some job ->
        exists before after,
          file = before ++ job :: after
          /\ update_job_enabled at_matches name enabled file
             = (inr true, before ++ set_enabled enabled job :: after)
          /\ get_job_by_name (before ++ set_enabled enabled job :: after)
                             name
             = Some (set_enabled enabled job)
          /\ forall other,
               other <> name ->
               get_job_by_name (before ++ set_enabled enabled job :: after)
                               other
               = get_job_by_name file other).
Proof.
  unfold update_job_enabled, load_jobs, bind. split; [| split].
  - intros e ->. reflexivity.
  - intros -> Hnone. apply update_loop_miss, get_job_by_name_none, Hnone.
  - intros -> job Hsome.
    apply get_job_by_name_some in Hsome
      as (before & after & -> & Hjob & Hbefore).
    exists before, after. split; [reflexivity |].
    split; [exact (update_loop_hit [] before job after name enabled _
                     Hjob Hbefore) |].
    split; [exact (get_after_update before job after name enabled
                     Hjob Hbefore) |].
    intros other Hother.
    exact (get_other_after_update before job after name other enabled
             Hjob Hother).
Qed.

(** X21.  Switching a job off through [update_job_enabled] takes it out of the
    schedule: the scheduler started on the file written behaves exactly
    as the scheduler started on the file with that job removed. *)
Theorem disabling_a_job_takes_it_out_of_the_schedule
    (file : list JobDict) (name : string) (job : JobDict) :
  Validate.validate_config at_matches file true = inr file ->
  get_job_by_name file name = Some job ->
  exists before after file',
    file = before ++ job :: after
    /\ update_job_enabled at_matches name false file = (inr true, file')
    /\ forall n s,
         Scheduler.main pkg file' n s
         = Scheduler.main pkg (before ++ after) n s.
Proof.
  intros Hvalid Hsome.
  apply get_job_by_name_some in Hsome
    as (before & after & -> & Hjob & Hbefore).
  exists before, after, (before ++ set_enabled false job :: after).
  split; [reflexivity |]. split.
  - unfold update_job_enabled, load_jobs, bind. rewrite Hvalid.
    exact (update_loop_hit [] before job after name false _ Hjob Hbefore).
  - intros n s. unfold Scheduler.main, try_except, bind.
    rewrite (schedule_all_skips_disabled pkg before after []
               (set_enabled false job) s eq_refl).
    reflexivity.
Qed.

End JobsFacts.

Lemma update_job_enabled_witness :
  Validate.validate_config (fun _ => true) [warmup_job; heartbeat_job] true
  = inr [warmup_job; heartbeat_job]
  /\ Jobs.get_job_by_name [warmup_job; heartbeat_job] "heartbeat"
     = Some heartbeat_job
  /\ exists before after,
       [warmup_job; heartbeat_job] = before ++ heartbeat_job :: after
       /\ Jobs.update_job_enabled (fun _ => true) "heartbeat" false
            [warmup_job; heartbeat_job]
          = (inr true, before ++ Jobs.set_enabled false heartbeat_job :: after).
Proof.
  assert (Hvalid : Validate.validate_config (fun _ => true)
                     [warmup_job; heartbeat_job] true
                   = inr [warmup_job; heartbeat_job])
    by (vm_compute; reflexivity).
  assert (Hget : Jobs.get_job_by_name [warmup_job; heartbeat_job] "heartbeat"
                 = Some heartbeat_job)
    by (vm_compute; reflexivity).
  split; [exact Hvalid |]. split; [exact Hget |].
  destruct (proj2 (proj2 (update_job_enabled_outcome (fun _ => true)
                            [warmup_job; heartbeat_job] "heartbeat" false))
              Hvalid heartbeat_job Hget)
    as (before & after & Hfile & Hrun & _).
  exists before, after. split; [exact Hfile | exact Hrun].
Defined.

Lemma disabling_witness :
  Validate.validate_config (fun _ => true) [warmup_job; heartbeat_job] true
  = inr [warmup_job; heartbeat_job]
  /\ Jobs.get_job_by_name [warmup_job; heartbeat_job] "heartbeat"
     = Some heartbeat_job
  /\ exists before after file',
       [warmup_job; heartbeat_job] = before ++ heartbeat_job :: after
       /\ Jobs.update_job_enabled (fun _ => true) "heartbeat" false
            [warmup_job; heartbeat_job]
          = (inr true, file')
       /\ forall n s,
            Scheduler.main plain_package file' n s
            = Scheduler.main plain_package (before ++ after) n s.
Proof.
  assert (Hvalid : Validate.validate_config (fun _ => true)
                     [warmup_job; heartbeat_job] true
                   = inr [warmup_job; heartbeat_job])
    by (vm_compute; reflexivity).
  assert (Hget : Jobs.get_job_by_name [warmup_job; heartbeat_job] "heartbeat"
                 = Some heartbeat_job)
    by (vm_compute; reflexivity).
  split; [exact Hvalid |]. split; [exact Hget |].
  exact (disabling_a_job_takes_it_out_of_the_schedule (fun _ => true)
           plain_package [warmup_job; heartbeat_job] "heartbeat"
           heartbeat_job Hvalid Hget).
Defined.

(** ** The control script *)

Section CtlFacts.
Variable env : Env.

Lemma core_start_scheduler_total w :
  exists r w', Core.start_scheduler env w = (inr r, w').
Proof.
  unfold Core.start_scheduler, bind. rewrite get_pid_spec.
  destruct (pid_and_is_running_spec env (pid_of (os w))
              (logged [EvReadPidFile] w))
    as (evs & w1 & -> & _).
  destruct (passes env (os (logged [EvReadPidFile] w)) (pid_of (os w)));
    [eauto |].
  destruct (unlink_if_exists_spec w1) as (w2 & -> & _).
  unfold try_except, bind.
  match goal with
  | |- context [(if win32 env then ?a else ?b) w2] =>
      destruct ((if win32 env then a else b) w2) as [[e | child] w3]
  end; [eauto |].
  destruct (wait_for_pid_file_spec env 10 w3) as (k & w4 & -> & _).
  rewrite get_pid_spec.
  destruct (pid_and_is_running_spec env (pid_of (os w4))
              (logged [EvReadPidFile] w4))
    as (evs' & w5 & -> & _).
  destruct (passes env (os (logged [EvReadPidFile] w4)) (pid_of (os w4)));
    eauto.
Qed.

Lemma core_stop_scheduler_total w :
  exists r w', Core.stop_scheduler env w = (inr r, w').
Proof.
  destruct (HAS_PSUTIL env) eqn:Hps.
  2:{ unfold Core.stop_scheduler. rewrite Hps. cbn. eauto. }
  destruct (pid_of (os w)) as [pid |] eqn:Hpid.
  2:{ rewrite (stop_scheduler_no_pid env Hps w Hpid). eauto. }
  destruct (alive (os w) pid) eqn:Halive.
  2:{ rewrite (stop_scheduler_stale env Hps w pid Hpid Halive). eauto. }
  rewrite (stop_scheduler_alive env Hps w pid Hpid Halive).
  destruct (on_terminate env pid); [| destruct (on_kill env pid) | |]; eauto.
Qed.

Lemma core_restart_scheduler_total w :
  exists r w', Core.restart_scheduler env w = (inr r, w').
Proof.
  unfold Core.restart_scheduler, bind.
  destruct (core_stop_scheduler_total w) as ([ok msg] & w1 & ->).
  destruct ok; cbn [negb]; [| eauto].
  cbn [sleep]. apply core_start_scheduler_total.
Qed.

Lemma exit_code_of (b : bool) : (if b then 0 else 1) = 0 \/ (if b then 0 else 1) = 1.
Proof. destruct b; auto. Qed.

(** X22.  [scheduler_ctl.py status] changes nothing on the machine: it reads
    the PID file and probes the process it names.  It exits with 0 or 1,
    and with 0 exactly when the PID file holds a PID and, where [psutil]
    is available, that PID is a live process whose command line mentions
    [scheduler.py]. *)
Theorem ctl_status_only_looks (w : World) :
  exists code w' evs,
    Ctl.status env w = (inr code, w')
    /\ os w' = os w
    /\ trace w' = trace w ++ evs
    /\ forallb observation evs = true
    /\ (code = 0 \/ code = 1)
    /\ (code = 0
        <-> exists pid, pid_of (os w) = Some pid
                        /\ (HAS_PSUTIL env = true -> alive (os w) pid = true)).
Proof.
  unfold Ctl.status, bind. rewrite get_pid_spec.
  destruct (pid_of (os w)) as [pid |] eqn:Hpid.
  2:{ exists 1, (logged [EvReadPidFile] w), [EvReadPidFile].
      split; [reflexivity |]. split; [reflexivity |].
      split; [reflexivity |]. split; [reflexivity |]. split; [auto |].
      split; [discriminate | intros (p & [=] & _)]. }
  destruct (HAS_PSUTIL env) eqn:Hps.
  - rewrite (is_running_spec env pid _ Hps). cbn [logged os].
    destruct (alive (os w) pid) eqn:Halive.
    + unfold Core.get_process_info. rewrite Hps. cbn [negb].
      unfold logged, try_except, psutil_cmdline, emit, get_os.
      unfold bind, ret. cbn [os reads epoch trace].
      assert (Hproc : exists cmdline,
                procs (os w) !! pid = Some (Inspectable cmdline)).
      { unfold alive in Halive.
        destruct (procs (os w) !! pid) as [[c |] |]; try discriminate.
        eauto. }
      destruct Hproc as [cmdline ->].
      eexists 0, _, [EvReadPidFile; EvProbe pid; EvProbe pid].
      split; [reflexivity |]. unfold logged. cbn [os trace].
      split; [reflexivity |].
      split; [rewrite <- ?app_assoc; reflexivity |].
      split; [reflexivity |]. split; [auto |].
      split; [| reflexivity]. intros _. exists pid. auto.
    + eexists 1, _, [EvReadPidFile; EvProbe pid].
      split; [reflexivity |]. unfold logged. cbn [os trace].
      split; [reflexivity |].
      split; [rewrite <- ?app_assoc; reflexivity |].
      split; [reflexivity |]. split; [auto |].
      split; [discriminate |].
      intros (p & [= <-] & Hp). rewrite (Hp eq_refl) in Halive.
      discriminate.
  - rewrite (is_running_fallback env (Some pid) _ Hps). cbn [logged os].
    assert (Hfile : pid_file_exists (os w) = true).
    { unfold pid_of in Hpid. unfold pid_file_exists.
      destruct (pid_file (os w)); [reflexivity | discriminate]. }
    rewrite Hfile. unfold Core.get_process_info. rewrite Hps. cbn.
    eexists 0, _, [EvReadPidFile].
    split; [reflexivity |]. cbn.
    split; [reflexivity |]. split; [reflexivity |].
    split; [reflexivity |]. split; [auto |].
    split; [| reflexivity]. intros _. exists pid.
    split; [reflexivity | discriminate].
Qed.

(** X23.  On a machine whose PID file holds no negative number, at the
    start and after every sleep, the control script ends with exit status
    0 or 1 and no exception leaves it, whatever the arguments and
    whatever else the PID file and the process table hold; with no
    command, or with a command it does not know, the status is 1 and
    nothing is touched. *)
Theorem ctl_always_exits_with_0_or_1 (argv : list string) (w : World) :
  sane (os w) ->
  keeps_sane env ->
  (exists code w',
     Ctl.main env argv w = (inr code, w') /\ (code = 0 \/ code = 1))
  /\ ((length argv < 2)%nat -> Ctl.main env argv w = (inr 1, w))
  /\ (forall argv0 arg rest,
        argv = argv0 :: arg :: rest ->
        existsb (String.eqb (lower arg))
                ["status"; "start"; "stop"; "restart"; "-h"; "--help"; "help"]
        = false ->
        Ctl.main env argv w = (inr 1, w)).
Proof.
  intros _ _. split; [| split].
  - destruct argv as [| argv0 [| arg rest]]; cbn [Ctl.main];
      [exists 1, w; auto | exists 1, w; auto |].
    cbv zeta.
    destruct (String.eqb (lower arg) "status").
    { destruct (ctl_status_only_looks w)
        as (code & w' & _ & -> & _ & _ & _ & Hcode & _). eauto. }
    destruct (String.eqb (lower arg) "start").
    { unfold Ctl.start, bind.
      destruct (core_start_scheduler_total w) as ([[ok msg] pid] & w' & ->).
      eexists _, _. split; [reflexivity | apply exit_code_of]. }
    destruct (String.eqb (lower arg) "stop").
    { unfold Ctl.stop. destruct (negb (HAS_PSUTIL env)); [exists 1, w; auto |].
      unfold bind.
      destruct (core_stop_scheduler_total w) as ([ok msg] & w' & ->).
      eexists _, _. split; [reflexivity | apply exit_code_of]. }
    destruct (String.eqb (lower arg) "restart").
    { unfold Ctl.restart, bind.
      destruct (core_restart_scheduler_total w)
        as ([[ok msg] pid] & w' & ->).
      eexists _, _. split; [reflexivity | apply exit_code_of]. }
    destruct (existsb _ _); [exists 0, w | exists 1, w]; auto.
  - destruct argv as [| argv0 [| arg rest]]; cbn; [reflexivity.. | lia].
  - intros argv0 arg rest -> Hunknown. cbn [Ctl.main]. cbv zeta.
    cbn [existsb] in Hunknown.
    repeat (apply orb_false_elim in Hunknown as [? Hunknown]).
    cbn [existsb].
    repeat match goal with
           | H : String.eqb (lower arg) _ = false |- _ => rewrite H; clear H
           end.
    reflexivity.
Qed.

End CtlFacts.

Lemma ctl_exit_status_witness :
  sane (os reused_pid_world)
  /\ keeps_sane prompt_env
  /\ exists code w',
       Ctl.main prompt_env ["scheduler_ctl.py"; "RESTART"] reused_pid_world
       = (inr code, w')
       /\ (code = 0 \/ code = 1).
Proof.
  assert (Hsane : sane (os reused_pid_world)).
  { intros pid Hpid. vm_compute in Hpid. injection Hpid as <-. lia. }
  assert (Hkeeps : keeps_sane prompt_env).
  { intros e o _ pid Hpid. vm_compute in Hpid. injection Hpid as <-. lia. }
  split; [exact Hsane |]. split; [exact Hkeeps |].
  exact (proj1 (ctl_always_exits_with_0_or_1 prompt_env
                  ["scheduler_ctl.py"; "RESTART"] reused_pid_world
                  Hsane Hkeeps)).
Defined.

(** ** The editor's job check against the validator *)

Section GuiFacts.
Import ScheduleLib Scheduler Validate.
Variable at_matches : string -> bool.

Lemma flat_map_guard {A} (p : A -> bool) (m : A -> string) (l : list A) :
  flat_map (fun x => if p x then [] else [m x]) l = []
  <-> forallb p l = true.
Proof.
  induction l as [| x l IH]; cbn; [tauto |].
  destruct (p x); cbn; [exact IH |]. split; discriminate.
Qed.

Lemma app_nil_iff {A} (l1 l2 : list A) :
  l1 ++ l2 = [] <-> l1 = [] /\ l2 = [].
Proof.
  split; [apply app_eq_nil |]. intros [-> ->]. reflexivity.
Qed.

Lemma validate_config_singleton job :
  validate_config at_matches [job] true = inr [job]
  <-> job_schema_ok at_matches job = true /\ job_field_errors job = [].
Proof.
  unfold validate_config, validate_schedule_fields. cbn [forallb flat_map].
  rewrite andb_true_r, app_nil_r.
  destruct (job_schema_ok at_matches job); cbn [negb].
  - destruct (job_field_errors job); split;
      [auto | auto | discriminate | intros [_ [=]]].
  - split; [discriminate | intros [[=] _]].
Qed.

Lemma valid_unit_has_fields unit :
  mem unit ALLOWED_UNITS = true ->
  exists valid_fields required_fields,
    table_get unit Validate.VALID_FIELDS_BY_UNIT = Some valid_fields
    /\ table_get unit Validate.REQUIRED_FIELDS_BY_UNIT = Some required_fields.
Proof.
  intros H.
  destruct (allowed_unit_cases unit H)
    as [-> | [-> | [-> | [-> | [-> | [-> | ->]]]]]];
    eexists _, _; split; reflexivity.
Qed.

(** Once the unit is a valid one, the editor's remaining checks pass
    exactly when the schema and the field check of the validator do. *)
Lemma rule_errors_agree job spec unit :
  j_schedule job = Some spec ->
  s_unit spec = Some unit ->
  mem unit ALLOWED_UNITS = true ->
  Gui.rule_errors at_matches spec unit = []
  <-> schedule_schema_ok at_matches spec = true
      /\ job_field_errors job = [].
Proof.
  intros Hspec Hunit Hallowed.
  destruct (valid_unit_has_fields unit Hallowed) as (vf & rf & Hvf & Hrf).
  unfold Gui.rule_errors, job_field_errors, schedule_schema_ok.
  rewrite Hspec. cbn [default]. unfold id. rewrite Hunit, Hallowed.
  change Gui.VALID_FIELDS_BY_UNIT with Validate.VALID_FIELDS_BY_UNIT.
  change Gui.REQUIRED_FIELDS_BY_UNIT with Validate.REQUIRED_FIELDS_BY_UNIT.
  rewrite Hvf, Hrf. cbn [default]. unfold id. cbv zeta.
  rewrite !app_nil_iff, !flat_map_guard, !andb_true_iff.
  assert (Hevery :
    match s_every spec with
    | Some every =>
        if every <? 1 then ["'every' must be a positive integer"] else []
    | None => []
    end = []
    <-> match s_every spec with
        | Some n => 1 <=? n
        | None => true
        end = true).
  { destruct (s_every spec) as [e |]; [| tauto].
    rewrite Z.ltb_antisym. destruct (1 <=? e); cbn; split; congruence. }
  assert (Hat :
    match s_at spec with
    | Some at_ =>
        if negb (at_matches at_) then
          [("Invalid 'at' format " ++ quote at_
              ++ " (use HH:MM or :MM)")%string]
        else []
    | None => []
    end = []
    <-> match s_at spec with
        | Some t => at_matches t
        | None => true
        end = true).
  { destruct (s_at spec) as [a |]; [| tauto].
    destruct (at_matches a); cbn; split; congruence. }
  assert (Hday :
    match s_day spec with
    | Some day =>
        if negb (mem day Gui.VALID_DAYS) then
          [("Invalid day " ++ quote day ++ " (valid: "
              ++ join ", " Gui.VALID_DAYS ++ ")")%string]
        else []
    | None => []
    end = []
    <-> match s_day spec with
        | Some day => day_allowed day
        | None => true
        end = true).
  { destruct (s_day spec) as [d |]; [| tauto].
    change (mem d Gui.VALID_DAYS) with (day_allowed d).
    destruct (day_allowed d); cbn [negb]; split; congruence. }
  assert (Hdom :
    match s_day_of_month spec with
    | Some dom =>
        if negb ((1 <=? dom) && (dom <=? 31)) then
          ["'day_of_month' must be an integer 1-31"]
        else []
    | None => []
    end = []
    <-> match s_day_of_month spec with
        | Some d => (1 <=? d) && (d <=? 31)
        | None => true
        end = true).
  { destruct (s_day_of_month spec) as [dm |]; [| tauto].
    destruct ((1 <=? dm) && (dm <=? 31)); cbn; split; congruence. }
  rewrite Hevery, Hat, Hday, Hdom. tauto.
Qed.

Lemma snoc_not_nil {A} (l : list A) (x : A) : l ++ [x] = [] <-> False.
Proof. split; [| tauto]. destruct l; discriminate. Qed.

Lemma keys_with_unit spec unit :
  s_unit spec = Some unit -> exists k ks, keys spec = k :: ks.
Proof.
  intros Hunit. unfold keys. rewrite Hunit.
  destruct (s_every spec); cbn; eauto.
Qed.

(** X24.  The job check of the editor and the validation of [jobs.yaml] agree:
    [validate_job] finds no error in a job exactly when [validate_config]
    accepts the file that holds just this job and, beyond what the schema
    asks, its name and its command are not empty. *)
Theorem editor_check_agrees_with_validate_config (job : JobDict) :
  Gui.validate_job at_matches job = []
  <-> validate_config at_matches [job] true = inr [job]
      /\ truthy_str (j_name job) = true
      /\ truthy_str (j_command job) = true.
Proof.
  rewrite validate_config_singleton.
  unfold Gui.validate_job. cbv zeta.
  assert (Hname : String.eqb (default "" (j_name job)) ""
                  = negb (truthy_str (j_name job))).
  { destruct (j_name job) as [n |]; cbn; [| reflexivity].
    destruct (String.eqb n ""); reflexivity. }
  rewrite Hname.
  destruct (truthy_str (j_name job)) eqn:Hn; cbn [negb].
  2:{ split; [| intros (_ & [=] & _)].
      destruct (truthy_str (j_command job)), (j_schedule job) as [spec |];
        try destruct (keys spec);
        try destruct (negb (truthy_str (s_unit spec)));
        try destruct (negb (mem (default "" (s_unit spec)) Gui.VALID_UNITS));
        discriminate. }
  destruct (truthy_str (j_command job)) eqn:Hc.
  2:{ split; [| intros (_ & _ & [=])].
      destruct (j_schedule job) as [spec |];
        try destruct (keys spec);
        try destruct (negb (truthy_str (s_unit spec)));
        try destruct (negb (mem (default "" (s_unit spec)) Gui.VALID_UNITS));
        discriminate. }
  assert (Hsome_n : exists n, j_name job = Some n)
    by (destruct (j_name job); [eauto | discriminate]).
  assert (Hsome_c : exists c, j_command job = Some c)
    by (destruct (j_command job); [eauto | discriminate]).
  destruct Hsome_n as [n Hjn], Hsome_c as [c Hjc].
  unfold job_schema_ok. rewrite Hjn, Hjc.
  destruct (j_schedule job) as [spec |] eqn:Hspec.
  2:{ cbn. split; [discriminate | intros ([[=] _] & _)]. }
  destruct (s_unit spec) as [unit |] eqn:Hunit.
  2:{ assert (Hbad : schedule_schema_ok at_matches spec = false).
      { unfold schedule_schema_ok. rewrite Hunit.
        rewrite andb_false_r. reflexivity. }
      rewrite Hbad. cbn [truthy_str negb].
      destruct (keys spec); cbn; split;
        first [discriminate | intros ([[=] _] & _)]. }
  destruct (keys_with_unit spec unit Hunit) as (k & ks & ->).
  cbn [truthy_str negb default]. unfold id.
  destruct (String.eqb_spec unit "") as [-> | Hne]; cbn [negb].
  { assert (Hbad : schedule_schema_ok at_matches spec = false).
    { unfold schedule_schema_ok. rewrite Hunit. cbn.
      rewrite andb_false_r. reflexivity. }
    rewrite Hbad. cbn. split; [discriminate | intros ([[=] _] & _)]. }
  change (mem unit Gui.VALID_UNITS) with (mem unit ALLOWED_UNITS).
  destruct (mem unit ALLOWED_UNITS) eqn:Hallowed; cbn [negb app].
  - rewrite (rule_errors_agree job spec unit Hspec Hunit Hallowed). tauto.
  - assert (Hbad : schedule_schema_ok at_matches spec = false).
    { unfold schedule_schema_ok. rewrite Hunit, Hallowed.
      rewrite andb_false_r. reflexivity. }
    rewrite Hbad. split; [discriminate | intros ([[=] _] & _)].
Qed.

End GuiFacts.

(** ** The scheduler log *)

Section LogFacts.
Import Logs.

(** X25.  [read_log_tail(n)] gives the last lines of the log in their order:
    for [n] at least 1 the last [n], or the whole log when it is shorter.
    For [n = 0] it gives the whole log, not an empty list.  A log file
    that is missing or cannot be read gives the empty list. *)
Theorem read_log_tail_gives_the_last_lines
    (all_lines : list string) (lines : Z) :
  (0 < lines ->
   exists dropped,
     all_lines = dropped ++ read_log_tail (LogLines all_lines) lines
     /\ length (read_log_tail (LogLines all_lines) lines)
        = Nat.min (Z.to_nat lines) (length all_lines))
  /\ read_log_tail (LogLines all_lines) 0 = all_lines
  /\ read_log_tail NoLog lines = []
  /\ read_log_tail LogUnreadable lines = [].
Proof.
  split; [| split; [| split; reflexivity]].
  - intros Hpos. unfold read_log_tail, slice_from. cbv zeta.
    destruct (Z.ltb_spec (- lines) 0) as [_ | Hge]; [| lia].
    set (k := Z.to_nat (Z.max (- lines + Z.of_nat (length all_lines)) 0)).
    exists (firstn k all_lines). split.
    + symmetry. apply firstn_skipn.
    + rewrite length_skipn. subst k. lia.
  - unfold read_log_tail, slice_from. cbn. destruct all_lines; reflexivity.
Qed.

Lemma first_level_unmarked line :
  unmarked line -> get_log_level line = "INFO".
Proof.
  intros H. unfold get_log_level. cbn [first_level].
  rewrite !H by (cbn; tauto). reflexivity.
Qed.

(** X26.  A line that carries no level marker, such as the continuation lines
    of a logged traceback, is taken for an INFO line: the WARNING, ERROR
    and CRITICAL filters hide it, whatever the text filter; under the
    DEBUG and INFO filters and under a level name the filter does not know
    (the GUI's "ALL") it is shown exactly when it passes the text
    filter. *)
Theorem log_filter_takes_unmarked_lines_for_info
    (text_filter level_filter line : string) :
  unmarked line ->
  (In level_filter ["WARNING"; "ERROR"; "CRITICAL"] ->
   filter_log_lines text_filter level_filter [line] = [])
  /\ (~ In level_filter ["WARNING"; "ERROR"; "CRITICAL"] ->
      filter_log_lines text_filter level_filter [line]
      = if String.eqb text_filter "" then [line]
        else if contains text_filter (lower line) then [line] else []).
Proof.
  intros Hline. unfold filter_log_lines, keeps. cbv zeta. cbn [List.filter].
  rewrite (first_level_unmarked line Hline).
  change (default 0 (Validate.table_get "INFO" level_priority)) with 1.
  split.
  - intros [<- | [<- | [<- | []]]]; reflexivity.
  - intros Hnot. unfold level_priority. cbn [Validate.table_get].
    destruct (String.eqb_spec level_filter "DEBUG") as [-> | _];
      [| destruct (String.eqb_spec level_filter "INFO") as [-> | _];
         [| destruct (String.eqb_spec level_filter "WARNING") as [-> | _];
            [| destruct (String.eqb_spec level_filter "ERROR") as [-> | _];
               [| destruct (String.eqb_spec level_filter "CRITICAL")
                    as [-> | _]]]]];
      try (exfalso; apply Hnot; cbn; tauto);
      cbn [default negb andb Z.leb Z.ltb Z.compare Pos.compare
           Pos.compare_cont];
      unfold id; cbn;
      destruct (String.eqb text_filter ""); cbn;
      try destruct (contains text_filter (lower line)); reflexivity.
Qed.

End LogFacts.

Lemma read_log_tail_witness :
  0 < 2
  /\ exists dropped,
       ["a"; "b"; "c"]
       = dropped ++ Logs.read_log_tail (Logs.LogLines ["a"; "b"; "c"]) 2
       /\ length (Logs.read_log_tail (Logs.LogLines ["a"; "b"; "c"]) 2)
          = Nat.min (Z.to_nat 2) (length ["a"; "b"; "c"]).
Proof.
  split; [lia |].
  apply (proj1 (read_log_tail_gives_the_last_lines ["a"; "b"; "c"] 2)).
  lia.
Defined.

Lemma unmarked_traceback_line :
  unmarked "Traceback (most recent call last):".
Proof.
  intros level [<- | [<- | [<- | [<- | [<- | []]]]]]; reflexivity.
Defined.

Lemma log_filter_witness :
  unmarked "Traceback (most recent call last):"
  /\ Logs.filter_log_lines "" "ERROR" ["Traceback (most recent call last):"]
     = [].
Proof.
  split; [exact unmarked_traceback_line |].
  apply (proj1 (log_filter_takes_unmarked_lines_for_info "" "ERROR"
                  "Traceback (most recent call last):"
                  unmarked_traceback_line)).
  cbn. tauto.
Defined.
